(** * A shallow embedding of the YouTube data pipeline

    The pipeline of [functions.py] has four stages, run in order by
    [data_pipeline.py]: [getVideoIDs], [getVideoTranscripts],
    [transformData] and [createTextEmbeddings].  Each stage is embedded
    as a function on the values the Python code manipulates; the three
    external collaborators (the search API, the transcript service and
    the embedding model) are arguments of the stage that calls them. *)

From Stdlib Require Import ZArith Floats Ascii String DecimalString DecimalNat.
From stdpp Require Import base list strings gmap.

Local Open Scope string_scope.
Local Open Scope list_scope.

(** ** Python objects and exceptions *)

(** What [json.loads] builds, what the code stores in its locals and what
    indexing a column returns ([PDatetime]: microseconds since the epoch).
    A [dict] keeps its items in insertion order; lookup takes the first
    item with the key. *)
#[warnings="-register-all"] Inductive pyobj : Type :=
  | PNone
  | PBool (b : bool)
  | PInt (z : Z)
  | PFloat (x : float)
  | PStr (s : string)
  | PDatetime (us : Z)
  | PList (l : list pyobj)
  | PDict (d : list (string * pyobj)).

Inductive exn : Type :=
  | KeyError (key : pyobj)
  | TypeError
  | IndexError
  | JSONDecodeError
  | StopIteration
  | ColumnNotFoundError (name : string)
  | SchemaError
  | ShapeError
  | DuplicateError (name : string)
  | ComputeError
  | ExternalError (msg : string).

(** A computation either returns a value or raises. *)
Inductive result (A : Type) : Type :=
  | Ok (a : A)
  | Raise (e : exn).
Arguments Ok {A} a.
Arguments Raise {A} e.

#[global] Instance result_ret : MRet result := @Ok.
#[global] Instance result_bind : MBind result := fun A B f m =>
  match m with
  | Ok a => f a
  | Raise e => Raise e
  end.

Definition raised {A} (m : result A) : Prop := ∃ e, m = Raise e.

(** [try: m  except: d], with the bare [except] of the source, which
    catches whatever was raised. *)
Definition try_except {A} (m : result A) (d : A) : A :=
  match m with
  | Ok a => a
  | Raise _ => d
  end.

Fixpoint dict_get (d : list (string * pyobj)) (k : string) : option pyobj :=
  match d with
  | [] => None
  | (k', v) :: d' => if String.eqb k' k then Some v else dict_get d' k
  end.

(** [o[k]] for a string key [k]: only a [dict] can be subscripted by a
    string. *)
Definition py_getitem (o : pyobj) (k : string) : result pyobj :=
  match o with
  | PDict d =>
      match dict_get d k with
      | Some v => Ok v
      | None => Raise (KeyError (PStr k))
      end
  | _ => Raise TypeError
  end.

(** [o != s] for a string literal [s]. *)
Definition py_ne_str (o : pyobj) (s : string) : bool :=
  match o with
  | PStr s' => negb (String.eqb s' s)
  | _ => true
  end.

(** [o != 0]: Python compares numbers by value across [int], [float] and
    [bool], so [0], [0.0], [-0.0] and [False] all equal [0]. *)
Definition py_ne_zero (o : pyobj) : bool :=
  match o with
  | PInt z => negb (Z.eqb z 0)
  | PFloat x => negb (PrimFloat.eqb x 0%float)
  | PBool b => b
  | _ => true
  end.

(** The items a [for] loop over [o] visits. A [dict] yields its keys and
    a [str] its characters (here: its bytes), each a string. *)
Definition py_iter (o : pyobj) : result (list pyobj) :=
  match o with
  | PList l => Ok l
  | PDict d => Ok (map (λ kv, PStr (fst kv)) d)
  | PStr s => Ok (map (λ c, PStr (String c EmptyString)) (String.list_ascii_of_string s))
  | _ => Raise TypeError
  end.

(** ** Stage 1: the Video Lister *)

(** [response] stands for a [requests] response through the one thing
    the code does with it: [json.loads(response.text)]. *)
Record response : Type := { json_loads_text : result pyobj }.

(** The dict built per item by [getVideoRecords]. *)
Record video_record : Type := {
  video_id : pyobj;
  datetime : pyobj;
  title : pyobj
}.

Definition is_youtube_video (kind : pyobj) : bool :=
  negb (py_ne_str kind "youtube#video").

(** The body of the [for raw_item in ...] loop after the kind test. *)
Definition make_record (raw_item : pyobj) : result video_record :=
  id ← py_getitem raw_item "id";
  vid ← py_getitem id "videoId";
  snippet ← py_getitem raw_item "snippet";
  published ← py_getitem snippet "publishedAt";
  snippet' ← py_getitem raw_item "snippet";
  ttl ← py_getitem snippet' "title";
  mret {| video_id := vid; datetime := published; title := ttl |}.

Definition item_kind (raw_item : pyobj) : result pyobj :=
  id ← py_getitem raw_item "id";
  py_getitem id "kind".

Fixpoint getVideoRecords_loop (items : list pyobj)
    (video_record_list : list video_record) : result (list video_record) :=
  match items with
  | [] => Ok video_record_list
  | raw_item :: rest =>
      kind ← item_kind raw_item;
      if py_ne_str kind "youtube#video"
      then getVideoRecords_loop rest video_record_list
      else
        video_record ← make_record raw_item;
        getVideoRecords_loop rest (video_record_list ++ [video_record])
  end.

Definition getVideoRecords (r : response) : result (list video_record) :=
  page ← json_loads_text r;
  items ← py_getitem page "items";
  raw_items ← py_iter items;
  getVideoRecords_loop raw_items [].

(** The token read at the end of an iteration:
    [json.loads(response.text)['nextPageToken']]. *)
Definition next_page_token (r : response) : result pyobj :=
  page ← json_loads_text r;
  py_getitem page "nextPageToken".

Section VideoLister.
(** The search API: [requests.get(url, params=params)], where only
    [params['pageToken']] varies between calls. [W] is whatever state
    the outside world keeps between two requests. *)
Context {W : Type}.
Variable requests_get : W → pyobj → result response * W.

(** [while page_token != 0: ...]. [None] means that [fuel] iterations
    were not enough to leave the loop; otherwise the loop ended, by
    falling through or by an exception, in the given world. *)
Fixpoint getVideoIDs_loop (fuel : nat) (w : W) (page_token : pyobj)
    (video_record_list : list video_record)
    : option (result (list video_record) * W) :=
  match fuel with
  | O => None
  | S fuel' =>
      if py_ne_zero page_token then
        match requests_get w page_token with
        | (Raise e, w') => Some (Raise e, w')
        | (Ok response, w') =>
            match getVideoRecords response with
            | Raise e => Some (Raise e, w')
            | Ok records =>
                getVideoIDs_loop fuel' w'
                  (try_except (next_page_token response) (PInt 0))
                  (video_record_list ++ records)
            end
        end
      else Some (Ok video_record_list, w)
  end.

(** The rows handed to [pl.DataFrame(...).write_parquet], one per
    record and in list order. *)
Definition getVideoIDs (fuel : nat) (w : W)
    : option (result (list video_record) * W) :=
  getVideoIDs_loop fuel w PNone [].
End VideoLister.

(** A mocked API: the responses still to be served, one per request,
    whatever the token; a request beyond the last one raises. *)
Definition mock_get (pages : list response) (page_token : pyobj)
    : result response * list response :=
  match pages with
  | [] => (Raise StopIteration, [])
  | r :: rest => (Ok r, rest)
  end.

(** The [video_id] column of the table written by stage 1. *)
Definition video_id_column (rows : list video_record) : list pyobj :=
  map video_id rows.

(** A page after which the loop goes on: it carries a token, and the
    token is not the stop value [0]. *)
Definition has_next_page (r : response) : Prop :=
  ∃ tok, next_page_token r = Ok tok ∧ py_ne_zero tok = true.

Definition item_is_video (raw_item : pyobj) : bool :=
  match item_kind raw_item with
  | Ok kind => is_youtube_video kind
  | Raise _ => false
  end.

(** An item the loop of [getVideoRecords] gets through: its kind can be
    read, and a video item has the three fields the record takes. *)
Definition item_well_formed (raw_item : pyobj) : Prop :=
  ∃ kind, item_kind raw_item = Ok kind ∧
    (is_youtube_video kind = true → ∃ rec, make_record raw_item = Ok rec).

(** What the API lists on a page, read off the JSON: the items, and the
    [id.videoId] of those of kind video, in page order. *)
Definition page_items (r : response) : list pyobj :=
  match page ← json_loads_text r; items ← py_getitem page "items"; py_iter items with
  | Ok l => l
  | Raise _ => []
  end.

Definition item_video_id (raw_item : pyobj) : option pyobj :=
  match id ← py_getitem raw_item "id"; py_getitem id "videoId" with
  | Ok v => Some v
  | Raise _ => None
  end.

Definition listed_video_ids (r : response) : list pyobj :=
  omap item_video_id (List.filter item_is_video (page_items r)).

Definition nonempty_id (v : pyobj) : Prop := ∃ s, v = PStr s ∧ s ≠ "".

(** ** Stage 2: the Transcript Fetcher *)

(** [len(o)]. The length of a [str] is counted in bytes here; the code
    only ever distinguishes an empty string from a non-empty one. *)
Definition py_len (o : pyobj) : result nat :=
  match o with
  | PList l => Ok (length l)
  | PDict d => Ok (length d)
  | PStr s => Ok (String.length s)
  | _ => Raise TypeError
  end.

(** [o[i]] for an index [i] produced by [range]. The keys of a [dict]
    are strings, so an integer key is never found. *)
Definition py_getitem_int (o : pyobj) (i : nat) : result pyobj :=
  match o with
  | PList l =>
      match l !! i with
      | Some v => Ok v
      | None => Raise IndexError
      end
  | PStr s =>
      match String.get i s with
      | Some c => Ok (PStr (String c EmptyString))
      | None => Raise IndexError
      end
  | PDict _ => Raise (KeyError (PInt (Z.of_nat i)))
  | _ => Raise TypeError
  end.

(** [sep.join(l)]: every element has to be a [str]. *)
Fixpoint str_join (sep : string) (l : list pyobj) : result string :=
  match l with
  | [] => Ok ""
  | [PStr s] => Ok s
  | PStr s :: rest => tl ← str_join sep rest; mret (s +:+ sep +:+ tl)
  | _ => Raise TypeError
  end.

(** A list comprehension [[f(i) for i in range(n)]] whose body may
    raise. *)
Fixpoint comprehension {A} (f : nat → result A) (indices : list nat)
    : result (list A) :=
  match indices with
  | [] => Ok []
  | i :: rest => x ← f i; xs ← comprehension f rest; mret (x :: xs)
  end.

Definition extractTranscriptText (transcript : pyobj) : result string :=
  n ← py_len transcript;
  text_list ← comprehension
    (λ i, fragment ← py_getitem_int transcript i; py_getitem fragment "text")
    (seq 0 n);
  str_join " " text_list.

(** *** Data frames *)

(** A column of a polars frame; the three dtypes the pipeline meets.
    A cell of any dtype may be null. *)
Inductive series : Type :=
  | Utf8 (values : list (option string))
  | Datetime (values : list (option Z))
  | Float64 (values : list (option float)).

(** A frame is its columns, in order, each under its name. *)
Definition DataFrame : Type := list (string * series).

Definition series_len (s : series) : nat :=
  match s with
  | Utf8 l => length l
  | Datetime l => length l
  | Float64 l => length l
  end.

(** [len(df)]: the height, read off the first column. *)
Definition height (df : DataFrame) : nat :=
  match df with
  | [] => 0
  | (_, s) :: _ => series_len s
  end.

Definition columns (df : DataFrame) : list string := map fst df.

(** What polars guarantees of every frame it builds or reads: distinct
    column names and columns of one common length. *)
Definition DataFrame_ok (df : DataFrame) : Prop :=
  NoDup (columns df) ∧ Forall (λ c, series_len (snd c) = height df) df.

Fixpoint find_column (df : DataFrame) (name : string) : option series :=
  match df with
  | [] => None
  | (n, s) :: rest => if String.eqb n name then Some s else find_column rest name
  end.

(** [df[name]]. *)
Definition df_column (df : DataFrame) (name : string) : result series :=
  match find_column df name with
  | Some s => Ok s
  | None => Raise (ColumnNotFoundError name)
  end.

(** [s[i]], as a Python object. *)
Definition series_getitem (s : series) (i : nat) : result pyobj :=
  match s with
  | Utf8 l =>
      match l !! i with
      | Some (Some x) => Ok (PStr x)
      | Some None => Ok PNone
      | None => Raise IndexError
      end
  | Datetime l =>
      match l !! i with
      | Some (Some x) => Ok (PDatetime x)
      | Some None => Ok PNone
      | None => Raise IndexError
      end
  | Float64 l =>
      match l !! i with
      | Some (Some x) => Ok (PFloat x)
      | Some None => Ok PNone
      | None => Raise IndexError
      end
  end.

(** [s.to_list()]. *)
Definition to_list (s : series) : list pyobj :=
  match s with
  | Utf8 l => map (λ c, match c with Some x => PStr x | None => PNone end) l
  | Datetime l => map (λ c, match c with Some x => PDatetime x | None => PNone end) l
  | Float64 l => map (λ c, match c with Some x => PFloat x | None => PNone end) l
  end.

Fixpoint replace_column (df : DataFrame) (name : string) (s : series) : DataFrame :=
  match df with
  | [] => []
  | (n, s') :: rest =>
      if String.eqb n name then (n, s) :: rest
      else (n, s') :: replace_column rest name s
  end.

(** [df.with_columns(s.alias(name))]: a column of that name is replaced
    where it stands, a new name is appended on the right. The series
    has to be as long as the frame is high, unless the frame has no
    column at all. *)
Definition with_columns (df : DataFrame) (name : string) (s : series)
    : result DataFrame :=
  match df with
  | [] => Ok [(name, s)]
  | _ :: _ =>
      if negb (Nat.eqb (series_len s) (height df)) then Raise ShapeError
      else
        match find_column df name with
        | Some _ => Ok (replace_column df name s)
        | None => Ok (df ++ [(name, s)])
        end
  end.

Section TranscriptFetcher.
(** The transcript service: [YouTubeTranscriptApi.get_transcript],
    as the answer it gives to the call made for row [i] with the
    video id read from that row. *)
Variable get_transcript : nat → pyobj → result pyobj.

(** The [try] block of the loop body. *)
Definition fetch_transcript_text (df : DataFrame) (i : nat) : result string :=
  ids ← df_column df "video_id";
  vid ← series_getitem ids i;
  transcript ← get_transcript i vid;
  extractTranscriptText transcript.

(** One iteration: [try: ... except: transcript_text = "n/a"], then
    the append. *)
Definition fetch_step (df : DataFrame) (transcript_text_list : list string)
    (i : nat) : list string :=
  transcript_text_list ++ [try_except (fetch_transcript_text df i) "n/a"].

(** The loop, then [df.with_columns(pl.Series(name="transcript", ...))],
    a column of strings (built from an empty list polars gives it the
    null dtype; the column is empty either way). *)
Definition getVideoTranscripts (df : DataFrame) : result DataFrame :=
  let transcript_text_list := foldl (fetch_step df) [] (seq 0 (height df)) in
  with_columns df "transcript" (Utf8 (map Some transcript_text_list)).
End TranscriptFetcher.

(** ** Stage 3: the Data Transformer *)

Fixpoint string_drop (n : nat) (s : string) : string :=
  match n, s with
  | O, _ => s
  | S n', String _ s' => string_drop n' s'
  | S _, EmptyString => EmptyString
  end.

(** polars' [str.replace(pattern, value)] on one cell: the leftmost
    match of [pattern] is replaced by [value], later matches are left
    alone ([n=1], the default). polars reads [pattern] as a regular
    expression and [value] as a template; for a pattern without
    metacharacter and a value without [$] that is the literal
    replacement written here (see [regex_meta] below). *)
Fixpoint str_replace (pattern value s : string) : string :=
  if String.prefix pattern s then value +:+ string_drop (String.length pattern) s
  else
    match s with
    | EmptyString => EmptyString
    | String c s' => String c (str_replace pattern value s')
    end.

(** The characters with a meaning of their own in a pattern. *)
Definition regex_meta (c : ascii) : bool :=
  existsb (Ascii.eqb c) (String.list_ascii_of_string "\.+*?()|[]{}^$").

Definition is_literal_pattern (pattern : string) : bool :=
  forallb (λ c, negb (regex_meta c)) (String.list_ascii_of_string pattern).

Definition is_literal_value (value : string) : bool :=
  forallb (λ c, negb (Ascii.eqb c "$"%char)) (String.list_ascii_of_string value).

(** [s.str.replace(pattern, value)] on a column: defined on strings
    only; a null cell stays null. *)
Definition series_str_replace (s : series) (pattern value : string)
    : result series :=
  match s with
  | Utf8 l => Ok (Utf8 (map (option_map (str_replace pattern value)) l))
  | _ => Raise SchemaError
  end.

Definition special_strings : list string := ["&#39;"; "&amp;"; "sha "].
Definition special_string_replacements : list string := ["'"; "&"; "Shaw "].

(** [l[i]] on a Python list of strings. *)
Definition list_getitem (l : list string) (i : nat) : result string :=
  match l !! i with
  | Some x => Ok x
  | None => Raise IndexError
  end.

(** One column of one iteration:
    [df.with_columns(df[name].str.replace(...).alias(name))]. *)
Definition replace_in_column (df : DataFrame) (name : string) (i : nat)
    : result DataFrame :=
  col ← df_column df name;
  pattern ← list_getitem special_strings i;
  value ← list_getitem special_string_replacements i;
  col' ← series_str_replace col pattern value;
  with_columns df name col'.

Definition handleSpecialStrings_step (acc : result DataFrame) (i : nat)
    : result DataFrame :=
  df ← acc;
  df ← replace_in_column df "title" i;
  replace_in_column df "transcript" i.

Definition handleSpecialStrings (df : DataFrame) : result DataFrame :=
  foldl handleSpecialStrings_step (Ok df) (seq 0 (length special_strings)).

Section Transformer.
(** polars' parser of a timestamp string, [None] where it rejects it. *)
Variable strptime : string → option Z.

Fixpoint parse_cells (l : list (option string)) : result (list (option Z)) :=
  match l with
  | [] => Ok []
  | None :: rest => zs ← parse_cells rest; mret (None :: zs)
  | Some s :: rest =>
      match strptime s with
      | Some z => zs ← parse_cells rest; mret (Some z :: zs)
      | None => Raise ComputeError
      end
  end.

(** A float as a 64-bit integer: the fraction is dropped; a NaN, an
    infinity and a value beyond the 64-bit integers have none. *)
Definition float_to_int64 (x : float) : option Z :=
  match Prim2SF x with
  | S754_zero _ => Some 0%Z
  | S754_finite s m e =>
      let a := Z.shiftl (Z.pos m) e in
      let z := if s then (- a)%Z else a in
      if ((- 2 ^ 63 <=? z) && (z <? 2 ^ 63))%Z then Some z else None
  | _ => None
  end.

Fixpoint cast_floats (l : list (option float)) : result (list (option Z)) :=
  match l with
  | [] => Ok []
  | None :: rest => zs ← cast_floats rest; mret (None :: zs)
  | Some x :: rest =>
      match float_to_int64 x with
      | Some z => zs ← cast_floats rest; mret (Some z :: zs)
      | None => Raise ComputeError
      end
  end.

(** [s.cast(pl.Datetime)], strict: a string that does not parse
    raises; a timestamp column is left as it is; a number is taken as
    the count of microseconds since the epoch, by way of the 64-bit
    integers, and raises when it is none. Nulls stay null. *)
Definition cast_Datetime (s : series) : result series :=
  match s with
  | Utf8 l => zs ← parse_cells l; mret (Datetime zs)
  | Datetime l => Ok (Datetime l)
  | Float64 l => zs ← cast_floats l; mret (Datetime zs)
  end.

Definition setDatatypes (df : DataFrame) : result DataFrame :=
  col ← df_column df "datetime";
  col' ← cast_Datetime col;
  with_columns df "datetime" col'.

(** From the frame read from [video-transcripts.parquet] to the frame
    written back to it. *)
Definition transformData (df : DataFrame) : result DataFrame :=
  df ← handleSpecialStrings df;
  setDatatypes df.
End Transformer.

(** ** Stage 4: the Embedding Generator *)

(** A two-dimensional numpy array: its shape and its entries. *)
Record ndarray : Type := {
  shape0 : nat;
  shape1 : nat;
  item : nat → nat → float
}.

(** Python's [str(i)] for a natural number. *)
Definition str (i : nat) : string := NilEmpty.string_of_uint (Nat.to_uint i).

(** The keys of [schema_dict], in insertion order. *)
Definition embedding_columns (column_name : string) (width : nat) : list string :=
  map (λ i, column_name +:+ "_embedding-" +:+ str i) (seq 0 width).

(** [pl.DataFrame(arr, schema=...)]: with as many names as the array
    has columns, column [j] of the frame is column [j] of the array. *)
Definition DataFrame_of_ndarray (arr : ndarray) (schema : list string)
    : result DataFrame :=
  if negb (Nat.eqb (length schema) (shape1 arr)) then Raise ShapeError
  else Ok (imap (λ j name,
                   (name, Float64 (map (λ i, Some (item arr i j)) (seq 0 (shape0 arr)))))
                schema).

(** [n] nulls under a column, and under every column of a frame. *)
Definition extend_series (n : nat) (s : series) : series :=
  match s with
  | Utf8 l => Utf8 (l ++ replicate n None)
  | Datetime l => Datetime (l ++ replicate n None)
  | Float64 l => Float64 (l ++ replicate n None)
  end.

Definition extend_frame (n : nat) (df : DataFrame) : DataFrame :=
  map (λ c, (fst c, extend_series n (snd c))) df.

(** [pl.concat([a, b], how='horizontal')]: the columns of [b] to the
    right of those of [a]. A name on both sides is refused. Frames of
    different heights are not: the lower one is filled up with nulls to
    the height of the other. *)
Definition concat_horizontal (a b : DataFrame) : result DataFrame :=
  match List.find (λ n, existsb (String.eqb n) (columns a)) (columns b) with
  | Some n => Raise (DuplicateError n)
  | None =>
      let h := Nat.max (height a) (height b) in
      Ok (extend_frame (h - height a) a ++ extend_frame (h - height b) b)
  end.

Section EmbeddingGenerator.
(** The embedding model: [model.encode] on a list of cells. *)
Variable encode : list pyobj → result ndarray.

Definition column_name_list : list string := ["title"; "transcript"].

(** One iteration of [for column_name in column_name_list]. *)
Definition embed_column (acc : result DataFrame) (column_name : string)
    : result DataFrame :=
  df ← acc;
  col ← df_column df column_name;
  embedding_arr ← encode (to_list col);
  df_embedding ← DataFrame_of_ndarray embedding_arr
                    (embedding_columns column_name (shape1 embedding_arr));
  concat_horizontal df df_embedding.

(** From the frame read from [video-transcripts.parquet] to the frame
    written to [video-index.parquet]. *)
Definition createTextEmbeddings (df : DataFrame) : result DataFrame :=
  foldl embed_column (Ok df) column_name_list.
End EmbeddingGenerator.

(** ** Notions used in the statements *)

(** A fragment the comprehension of [extractTranscriptText] gets
    through. *)
Definition has_text (fragment : pyobj) : Prop :=
  ∃ t, py_getitem fragment "text" = Ok (PStr t).

(** The three replacements in the order of [special_strings]: the
    apostrophe entity, the ampersand entity, the lowercase name. *)
Definition clean_text (s : string) : string :=
  str_replace "sha " "Shaw " (str_replace "&amp;" "&" (str_replace "&#39;" "'" s)).

(** [pattern] occurs somewhere in [s]. *)
Fixpoint contains (pattern s : string) : bool :=
  String.prefix pattern s ||
  match s with
  | EmptyString => false
  | String _ s' => contains pattern s'
  end.

(** A text free of the sequences the transformer looks for. *)
Definition is_clean (s : string) : bool :=
  forallb (λ pattern, negb (contains pattern s)) special_strings.

Definition cells_clean (cells : list (option string)) : Prop :=
  Forall (λ c, ∀ s, c = Some s → is_clean s = true) cells.

(** A well-formed frame with its two text columns. *)
Definition text_columns (df : DataFrame) (titles transcripts : list (option string))
    : Prop :=
  DataFrame_ok df ∧
  find_column df "title" = Some (Utf8 titles) ∧
  find_column df "transcript" = Some (Utf8 transcripts).

(** [df'] has the height and the column names of [df], and the same
    cells outside the two text columns. *)
Definition same_elsewhere (df df' : DataFrame) : Prop :=
  height df' = height df ∧ columns df' = columns df ∧
  ∀ other, other ≠ "title" → other ≠ "transcript" →
    find_column df' other = find_column df other.

(** What one [with_columns] on an existing column does to a frame. *)
Definition column_set (df : DataFrame) (name : string) (s : series)
    (df' : DataFrame) : Prop :=
  find_column df' name = Some s ∧
  (∀ other, other ≠ name → find_column df' other = find_column df other) ∧
  DataFrame_ok df' ∧ height df' = height df ∧ columns df' = columns df.

(** [df'] has the height of [df] and, where [df] has a [video_id]
    column, the same one: row [i] of [df'] is about the video of row [i]
    of [df]. *)
Definition same_videos (df df' : DataFrame) : Prop :=
  height df' = height df ∧
  ∀ ids, find_column df "video_id" = Some ids → find_column df' "video_id" = Some ids.

(** The columns stage 4 adds for one field, given the model's output. *)
Definition embedding_frame (column_name : string) (arr : ndarray) : DataFrame :=
  imap (λ j name, (name, Float64 (map (λ i, Some (item arr i j)) (seq 0 (shape0 arr)))))
       (embedding_columns column_name (shape1 arr)).

(** The contract of the embedding model: one row per string it is
    given. *)
Definition one_row_per_string (encode : list pyobj → result ndarray) : Prop :=
  ∀ cells arr, encode cells = Ok arr → shape0 arr = length cells.

(** ** Sample data *)

(** Search results as the API lists them, used to run the stages on
    concrete pages. *)
Definition demo_video (vid ttl : string) : pyobj :=
  PDict [("id", PDict [("kind", PStr "youtube#video"); ("videoId", PStr vid)]);
         ("snippet", PDict [("publishedAt", PStr "2024-01-01T00:00:00Z");
                            ("title", PStr ttl)])].

Definition demo_other (kind : string) : pyobj :=
  PDict [("id", PDict [("kind", PStr kind)])].

Definition demo_record (vid ttl : string) : video_record :=
  {| video_id := PStr vid; datetime := PStr "2024-01-01T00:00:00Z";
     title := PStr ttl |}.

Definition demo_page (items : list pyobj) (token : option string) : response :=
  {| json_loads_text := Ok (PDict (("items", PList items) ::
       match token with
       | Some t => [("nextPageToken", PStr t)]
       | None => []
       end)) |}.

(** A caption fragment as the transcript service returns it. *)
Definition demo_fragment (text : string) : pyobj :=
  PDict [("text", PStr text); ("start", PFloat 0.5); ("duration", PFloat 2)].

(** A transcript service with captions for the first and the third row
    and none for the second. *)
Definition demo_service (i : nat) (vid : pyobj) : result pyobj :=
  match i with
  | 0 => Ok (PList [demo_fragment "a"; demo_fragment "b"])
  | 2 => Ok (PList [demo_fragment "c"])
  | _ => Raise (ExternalError "TranscriptsDisabled")
  end.

(** A transcript service that answers every call with no fragment. *)
Definition silent_service (i : nat) (vid : pyobj) : result pyobj := Ok (PList []).

(** The identity table of three videos, as stage 2 reads it. *)
Definition demo_ids : DataFrame :=
  [("video_id", Utf8 [Some "v1"; Some "v2"; Some "v3"]);
   ("datetime", Utf8 [Some "2024-01-01T00:00:00Z"; Some "2024-02-01T00:00:00Z";
                      Some "2024-03-01T00:00:00Z"]);
   ("title", Utf8 [Some "Shaw&#39;s channel"; Some "sha blog"; Some "AI &amp; data"])].

(** The transcript table of the three videos, as stage 3 reads it. *)
Definition demo_transcripts : DataFrame :=
  demo_ids ++ [("transcript", Utf8 [Some "a b"; Some "n/a"; Some "c"])].

(** A parser that accepts every timestamp, and a model of width 2. *)
Definition demo_strptime (s : string) : option Z := Some (Z.of_nat (String.length s)).

Definition demo_encode (cells : list pyobj) : result ndarray :=
  Ok {| shape0 := length cells; shape1 := 2; item := λ i j, 0.5%float |}.

(** ** Other search APIs *)

(** An API that answers by the token alone and keeps no state. *)
Definition stateless_get (api : pyobj → response) (w : unit) (page_token : pyobj)
    : result response * unit :=
  (Ok (api page_token), tt).

(** The mocked API again, now also keeping the [pageToken] of every
    request it received, oldest first. *)
Definition recording_get (w : list response * list pyobj) (page_token : pyobj)
    : result response * (list response * list pyobj) :=
  match fst w with
  | [] => (Raise StopIteration, ([], snd w ++ [page_token]))
  | r :: rest => (Ok r, (rest, snd w ++ [page_token]))
  end.

(** ** Cells before and after cleaning *)

(** [s'] is [s] with one occurrence of [pattern] rewritten to [value]
    when [pattern] occurs in [s], and [s] itself when it does not. *)
Definition rewrites_once (pattern value s s' : string) : Prop :=
  if contains pattern s
  then ∃ a b, s = a +:+ pattern +:+ b ∧ s' = a +:+ value +:+ b
  else s' = s.

(** A cell and what the three replacements make of it: a null stays a
    null, a text goes through one rewriting per special string, in the
    order of the list. *)
Definition cell_cleaned (c c' : option string) : Prop :=
  match c, c' with
  | None, None => True
  | Some s, Some s' =>
      ∃ s1 s2, rewrites_once "&#39;" "'" s s1 ∧
               rewrites_once "&amp;" "&" s1 s2 ∧
               rewrites_once "sha " "Shaw " s2 s'
  | _, _ => False
  end.

(** The lengths of a cell before and after: at most eight bytes less,
    at most one more. *)
Definition cell_length_close (c c' : option string) : Prop :=
  match c, c' with
  | None, None => True
  | Some s, Some s' =>
      (String.length s ≤ String.length s' + 8)%nat ∧
      (String.length s' ≤ String.length s + 1)%nat
  | _, _ => False
  end.

(** A model of width 2 whose output tells rows and components apart:
    entry [(i, j)] is [10 i + j]. *)
Definition grid_encode (cells : list pyobj) : result ndarray :=
  Ok {| shape0 := length cells; shape1 := 2;
        item := λ i j, PrimFloat.of_uint63 (Uint63.of_Z (Z.of_nat (10 * i + j))) |}.

(** ** The stages on files, and the driver *)

(** The three artifacts. [fs] holds what is stored under their paths:
    it maps the path of an artifact to the table in the file, and has
    no entry where there is no file. Nothing else of the file system is
    part of it. *)
Definition video_ids_parquet : string := "data/video-ids.parquet".
Definition video_transcripts_parquet : string := "data/video-transcripts.parquet".
Definition video_index_parquet : string := "data/video-index.parquet".

(** [pl.read_parquet(path)]: the table stored at [path]. Reading a path
    that holds nothing raises, and so does reading back a table without
    any column: polars writes that file and then fails on it. *)
Definition read_parquet (fs : gmap string DataFrame) (path : string)
    : result DataFrame :=
  match fs !! path with
  | Some [] => Raise ComputeError
  | Some df => Ok df
  | None => Raise (ExternalError "FileNotFoundError")
  end.

(** The name under which stage 4 asks for its model. *)
Definition model_name : string := "all-MiniLM-L6-v2".

Section Driver.
Context {W : Type}.
Variable requests_get : W → pyobj → result response * W.
(** [pl.DataFrame(video_record_list)], polars' constructor from a list
    of row dicts. *)
Variable pl_DataFrame : list video_record → result DataFrame.
Variable get_transcript : nat → pyobj → result pyobj.
Variable strptime : string → option Z.
(** [SentenceTransformer(name)]: loading a model by its name gives the
    model, taken here as its [encode], or raises (the files of the model
    are neither at hand nor to be had). *)
Variable SentenceTransformer : string → result (list pyobj → result ndarray).
(** What opening a path for writing raises, where it does (the
    directory [data/] is missing, the file may not be written); [None]
    where the write goes through. *)
Variable write_error : string → option exn.

(** [df.write_parquet(path)]: the file holds [df] afterwards, whatever
    it held before. *)
Definition write_parquet (fs : gmap string DataFrame) (path : string)
    (df : DataFrame) : result (gmap string DataFrame) :=
  match write_error path with
  | Some e => Raise e
  | None => Ok (<[path := df]> fs)
  end.

(** Each stage as the script calls it: it reads its input file, if any,
    computes, and writes its output file as its last step. *)
Definition getVideoIDs_files (fuel : nat) (w : W) (fs : gmap string DataFrame)
    : option (result (gmap string DataFrame) * W) :=
  match getVideoIDs requests_get fuel w with
  | None => None
  | Some (Raise e, w') => Some (Raise e, w')
  | Some (Ok video_record_list, w') =>
      Some (df ← pl_DataFrame video_record_list;
            write_parquet fs video_ids_parquet df, w')
  end.

Definition getVideoTranscripts_files (fs : gmap string DataFrame)
    : result (gmap string DataFrame) :=
  df ← read_parquet fs video_ids_parquet;
  df ← getVideoTranscripts get_transcript df;
  write_parquet fs video_transcripts_parquet df.

Definition transformData_files (fs : gmap string DataFrame)
    : result (gmap string DataFrame) :=
  df ← read_parquet fs video_transcripts_parquet;
  df ← transformData strptime df;
  write_parquet fs video_transcripts_parquet df.

Definition createTextEmbeddings_files (fs : gmap string DataFrame)
    : result (gmap string DataFrame) :=
  df ← read_parquet fs video_transcripts_parquet;
  encode ← SentenceTransformer model_name;
  df ← createTextEmbeddings encode df;
  write_parquet fs video_index_parquet df.

(** The next call of the script: skipped when an earlier one raised
    (the script has ended there); when this one raises, the files stay
    as the earlier stages left them. *)
Definition then_stage (st : gmap string DataFrame * result unit)
    (stage : gmap string DataFrame → result (gmap string DataFrame))
    : gmap string DataFrame * result unit :=
  match st with
  | (fs, Ok _) =>
      match stage fs with
      | Ok fs' => (fs', Ok tt)
      | Raise e => (fs, Raise e)
      end
  | (fs, Raise e) => (fs, Raise e)
  end.

(** [data_pipeline.py], from its first call on: the four stages in
    order, from the files [fs]; the result is the files when the script
    ends and how it ended. What the script prints (progress lines and
    clock readings) is left out. *)
Definition data_pipeline (fuel : nat) (w : W) (fs : gmap string DataFrame)
    : option (gmap string DataFrame * result unit * W) :=
  match getVideoIDs_files fuel w fs with
  | None => None
  | Some (step1, w') =>
      let st1 := match step1 with
                 | Ok fs1 => (fs1, Ok tt)
                 | Raise e => (fs, Raise e)
                 end in
      Some (then_stage
              (then_stage (then_stage st1 getVideoTranscripts_files)
                          transformData_files)
              createTextEmbeddings_files, w')
  end.
End Driver.

(** polars' constructor on rows whose fields are strings or [None]:
    three columns of strings, in the order of the keys of a row; no
    column at all for no row. *)
Definition string_cell (v : pyobj) : option string :=
  match v with
  | PStr s => Some s
  | _ => None
  end.

Definition demo_DataFrame (rows : list video_record) : result DataFrame :=
  match rows with
  | [] => Ok []
  | _ => Ok [("video_id", Utf8 (map (λ r, string_cell (video_id r)) rows));
             ("datetime", Utf8 (map (λ r, string_cell (datetime r)) rows));
             ("title", Utf8 (map (λ r, string_cell (title r)) rows))]
  end.

(** A model store that has the one model the script asks for, and a
    directory in which every write goes through. *)
Definition demo_SentenceTransformer (name : string)
    : result (list pyobj → result ndarray) :=
  if String.eqb name model_name then Ok demo_encode
  else Raise (ExternalError "OSError").

Definition writable (path : string) : option exn := None.

(** How two runs compare at one point of the script: they have ended the
    same way, and if they go on, their files agree on the paths [ks]. *)
Definition same_so_far (ks : list string)
    (sa sb : gmap string DataFrame * result unit) : Prop :=
  snd sa = snd sb ∧
  ∀ u, snd sa = Ok u → ∀ p, p ∈ ks → fst sa !! p = fst sb !! p.

(** A stage that reads the file [kr] only and, where it returns, has
    written the file [kw]. *)
Definition reads_writes
    (stage : gmap string DataFrame → result (gmap string DataFrame))
    (kr kw : string) : Prop :=
  ∀ fa fb, fa !! kr = fb !! kr →
    match stage fa, stage fb with
    | Ok fa', Ok fb' => ∃ d, fa' = <[kw := d]> fa ∧ fb' = <[kw := d]> fb
    | Raise ea, Raise eb => ea = eb
    | _, _ => False
    end.

(** Files left by an earlier run: all three artifacts, about other
    videos. *)
Definition old_files : gmap string DataFrame :=
  <[video_ids_parquet := demo_ids]>
    (<[video_transcripts_parquet := demo_transcripts]>
       (<[video_index_parquet := demo_transcripts]> ∅)).

(** * Properties *)

(** ** The result monad *)

Lemma bind_Ok {A B} (a : A) (f : A → result B) : Ok a ≫= f = f a.
Proof. reflexivity. Qed.

Lemma bind_Ok_inv {A B} (m : result A) (f : A → result B) (b : B) :
  m ≫= f = Ok b → ∃ a, m = Ok a ∧ f a = Ok b.
Proof. destruct m as [a|e]; [by exists a | discriminate]. Qed.

(** A computation that returned went through its first step: [H], a
    bind equal to some [Ok _], is split into the value [x] of the first
    step, with equation [Hx], and what is left of [H]. *)
Tactic Notation "returned" hyp(H) "as" ident(x) ident(Hx) :=
  apply bind_Ok_inv in H as (x & Hx & H).

(** ** Stage 1 *)

Example getVideoRecords_demo :
  getVideoRecords {| json_loads_text := Ok (PDict [("items", PList [
      PDict [("id", PDict [("kind", PStr "youtube#channel")])];
      PDict [("id", PDict [("kind", PStr "youtube#video"); ("videoId", PStr "v1")]);
             ("snippet", PDict [("publishedAt", PStr "2024-01-01T00:00:00Z");
                                ("title", PStr "t1")])]])]) |}
  = Ok [{| video_id := PStr "v1"; datetime := PStr "2024-01-01T00:00:00Z";
           title := PStr "t1" |}].
Proof. reflexivity. Qed.

Example py_ne_zero_demo :
  py_ne_zero PNone = true ∧ py_ne_zero (PInt 0) = false ∧
  py_ne_zero (PFloat (-0.0)%float) = false ∧ py_ne_zero (PStr "CAUQAA") = true.
Proof. repeat split; reflexivity. Qed.

Lemma is_youtube_video_true (kind : pyobj) :
  is_youtube_video kind = true ↔ kind = PStr "youtube#video".
Proof.
  unfold is_youtube_video, py_ne_str. split.
  - destruct kind; try discriminate. rewrite negb_involutive.
    intros H%String.eqb_eq. by subst.
  - intros ->. reflexivity.
Qed.

Lemma item_is_video_true (raw_item : pyobj) :
  item_is_video raw_item = true ↔ item_kind raw_item = Ok (PStr "youtube#video").
Proof.
  unfold item_is_video. destruct (item_kind raw_item) as [kind|e].
  - rewrite is_youtube_video_true. split; congruence.
  - split; discriminate.
Qed.

Lemma getVideoRecords_loop_spec (items : list pyobj) :
  Forall item_well_formed items →
  ∀ acc, ∃ recs,
    getVideoRecords_loop items acc = Ok (acc ++ recs) ∧
    Forall2 (λ it rec, make_record it = Ok rec)
            (List.filter item_is_video items) recs.
Proof.
  induction 1 as [|it items (kind & Hkind & Hrec) _ IH]; intros acc.
  - exists []. rewrite app_nil_r. split; [done | constructor].
  - cbn [getVideoRecords_loop List.filter]. unfold item_is_video.
    rewrite Hkind. cbn. unfold is_youtube_video in *.
    destruct (py_ne_str kind "youtube#video"); cbn.
    + apply IH.
    + destruct Hrec as [rec Hrec]; [done |]. rewrite Hrec. cbn.
      destruct (IH (acc ++ [rec])) as (recs & -> & HF).
      exists (rec :: recs). rewrite <- app_assoc. split; [done |].
      by constructor.
Qed.

Lemma getVideoRecords_loop_inv (items : list pyobj) :
  ∀ acc out, getVideoRecords_loop items acc = Ok out →
  ∃ recs, out = acc ++ recs ∧
    Forall2 (λ it rec, make_record it = Ok rec)
            (List.filter item_is_video items) recs.
Proof.
  induction items as [|it items IH]; intros acc out; cbn [getVideoRecords_loop].
  - intros [= <-]. exists []. rewrite app_nil_r. split; [done | constructor].
  - cbn [List.filter]. unfold item_is_video, is_youtube_video.
    destruct (item_kind it) as [kind|e]; cbn; [| discriminate].
    destruct (py_ne_str kind "youtube#video"); cbn.
    + apply IH.
    + destruct (make_record it) as [rec|e] eqn:Hrec; cbn; [| discriminate].
      intros (recs & -> & HF)%IH. exists (rec :: recs).
      rewrite <- app_assoc. split; [done |]. by constructor.
Qed.

Lemma make_record_video_id (raw_item : pyobj) (rec : video_record) :
  make_record raw_item = Ok rec → item_video_id raw_item = Some (video_id rec).
Proof.
  unfold make_record, item_video_id. intros H.
  returned H as id Hid. returned H as vid Hvid. returned H as sn Hsn.
  returned H as p Hp. returned H as sn' Hsn'. returned H as t Ht.
  injection H as <-. by rewrite Hid, bind_Ok, Hvid.
Qed.

Lemma getVideoRecords_video_ids (r : response) (recs : list video_record) :
  getVideoRecords r = Ok recs → video_id_column recs = listed_video_ids r.
Proof.
  unfold getVideoRecords, listed_video_ids, page_items, video_id_column.
  intros H. returned H as page Hpage. returned H as items Hitems.
  returned H as raw_items Hraw.
  rewrite Hpage, bind_Ok, Hitems, bind_Ok, Hraw.
  apply getVideoRecords_loop_inv in H as (recs' & -> & HF). cbn [app].
  induction HF as [|it rec its recs' Hrec _ IH]; [done |].
  cbn. rewrite (make_record_video_id _ _ Hrec). cbn. by f_equal.
Qed.


Lemma getVideoIDs_loop_mock_run (pre : list response) :
  ∀ last rest recss fuel tok acc,
  py_ne_zero tok = true →
  Forall has_next_page pre →
  raised (next_page_token last) →
  Forall2 (λ p recs, getVideoRecords p = Ok recs) (pre ++ [last]) recss →
  S (length pre) < fuel →
  getVideoIDs_loop mock_get fuel (pre ++ last :: rest) tok acc
  = Some (Ok (acc ++ concat recss), rest).
Proof.
  induction pre as [|p pre IH]; intros last rest recss [|fuel] tok acc Htok Hpre Hlast Hrecs Hfuel;
    cbn in Hfuel; try lia; cbn [getVideoIDs_loop app]; rewrite Htok; cbn.
  - apply Forall2_cons_inv_l in Hrecs as (recs & recss' & Hrecs & ->%Forall2_nil_inv_l & ->).
    rewrite Hrecs. destruct Hlast as [e ->]. cbn.
    destruct fuel; [lia |]. cbn. by rewrite app_nil_r.
  - cbn in Hrecs.
    apply Forall2_cons_inv_l in Hrecs as (recs & recss' & Hrecs & Hrest & ->).
    rewrite Hrecs. apply Forall_cons in Hpre as [(tok' & -> & Htok') Hpre]. cbn.
    rewrite (IH last rest recss'); try done; [| lia].
    by rewrite <- app_assoc.
Qed.

Lemma Forall2_Ok_elem_of {A B} (f : A → result B) (l : list A) (k : list B) :
  Forall2 (λ x y, f x = Ok y) l k → ∀ y, y ∈ k ↔ ∃ x, x ∈ l ∧ f x = Ok y.
Proof.
  induction 1 as [|x y l k HR _ IH]; intros y'.
  - split; [by intros ?%elem_of_nil | by intros (? & ?%elem_of_nil & _)].
  - rewrite elem_of_cons, IH. split.
    + intros [-> | (x' & Hx' & HR')].
      * exists x. split; [left | done].
      * exists x'. split; [by right | done].
    + intros (x' & [-> | Hx']%elem_of_cons & HR').
      * left. congruence.
      * right. eauto.
Qed.

Lemma elem_of_filter_video (it : pyobj) (items : list pyobj) :
  it ∈ List.filter item_is_video items ↔
  it ∈ items ∧ item_kind it = Ok (PStr "youtube#video").
Proof.
  by rewrite !list_elem_of_In, filter_In, item_is_video_true.
Qed.

(** C8. On a page whose items can be read, [getVideoRecords] returns one
    record per item of kind ["youtube#video"], in page order, and nothing
    else: a record is in the output if and only if it is the record of an
    item of that kind; items of any other kind leave no row. *)
Theorem getVideoRecords_keeps_exactly_the_videos
    (r : response) (page : pyobj) (items : list pyobj) :
  json_loads_text r = Ok page →
  py_getitem page "items" = Ok (PList items) →
  Forall item_well_formed items →
  ∃ recs, getVideoRecords r = Ok recs ∧
    Forall2 (λ it rec, make_record it = Ok rec)
            (List.filter item_is_video items) recs ∧
    length recs = length (List.filter item_is_video items) ∧
    ∀ rec, rec ∈ recs ↔
      ∃ it, it ∈ items ∧ item_kind it = Ok (PStr "youtube#video") ∧
            make_record it = Ok rec.
Proof.
  intros Hpage Hitems Hwf. unfold getVideoRecords.
  rewrite Hpage. cbn. rewrite Hitems. cbn.
  destruct (getVideoRecords_loop_spec items Hwf []) as (recs & -> & HF).
  exists recs. split; [done |]. split; [done |].
  split; [symmetry; by eapply Forall2_length |].
  intros rec. rewrite (Forall2_Ok_elem_of _ _ _ HF). split.
  - intros (it & [Hit Hkind]%elem_of_filter_video & Hrec). eauto.
  - intros (it & Hit & Hkind & Hrec). exists it.
    by rewrite elem_of_filter_video.
Qed.

Lemma getVideoRecords_keeps_exactly_the_videos_witness :
  ∃ recs,
    getVideoRecords (demo_page [demo_other "youtube#channel"; demo_video "v1" "t1";
                                demo_other "youtube#playlist"] None) = Ok recs ∧
    Forall2 (λ it rec, make_record it = Ok rec) [demo_video "v1" "t1"] recs ∧
    length recs = 1 ∧
    ∀ rec, rec ∈ recs ↔
      ∃ it, it ∈ [demo_other "youtube#channel"; demo_video "v1" "t1";
                  demo_other "youtube#playlist"] ∧
            item_kind it = Ok (PStr "youtube#video") ∧ make_record it = Ok rec.
Proof.
  apply (getVideoRecords_keeps_exactly_the_videos
           (demo_page [demo_other "youtube#channel"; demo_video "v1" "t1";
                       demo_other "youtube#playlist"] None) _ _ eq_refl eq_refl).
  repeat constructor.
  - exists (PStr "youtube#channel"). split; [reflexivity | discriminate].
  - exists (PStr "youtube#video"). split; [reflexivity |].
    intros _. eexists. reflexivity.
  - exists (PStr "youtube#playlist"). split; [reflexivity | discriminate].
Defined.

(** What counts as the end of the listing: a token that cannot be read,
    or one equal to the stop value [0]. A [null] token does not: the loop
    asks for the next page with no token. *)
Example zero_token_stops :
  getVideoIDs mock_get 2
    [{| json_loads_text := Ok (PDict [("items", PList []); ("nextPageToken", PInt 0)]) |};
     demo_page [demo_video "v1" "t1"] None]
  = Some (Ok [], [demo_page [demo_video "v1" "t1"] None]).
Proof. reflexivity. Qed.

Example null_token_continues :
  getVideoIDs mock_get 3
    [{| json_loads_text := Ok (PDict [("items", PList []); ("nextPageToken", PNone)]) |};
     demo_page [demo_video "v1" "t1"] None]
  = Some (Ok [demo_record "v1" "t1"], []).
Proof. reflexivity. Qed.

(** A request past the last mocked page raises, and the exception leaves
    the loop. *)
Example exhausted_mock_raises :
  getVideoIDs mock_get 3 [demo_page [demo_video "v1" "t1"] (Some "CAUQAA")]
  = Some (Raise StopIteration, []).
Proof. reflexivity. Qed.

Lemma next_page_token_absent (items : list pyobj) :
  raised (next_page_token (demo_page items None)).
Proof. exists (KeyError (PStr "nextPageToken")). reflexivity. Qed.




(** C5, as stated, does not hold: the listing stage writes what the API
    lists. A page that lists one video twice and a video with an empty id
    yields a table with a repeated and an empty [video_id]. *)
Lemma video_ids_repeated_and_empty :
  getVideoIDs mock_get 2
    [demo_page [demo_video "v1" "t1"; demo_video "v1" "t1"; demo_video "" "t2"] None]
  = Some (Ok [demo_record "v1" "t1"; demo_record "v1" "t1"; demo_record "" "t2"], []) ∧
  ¬ NoDup (video_id_column
             [demo_record "v1" "t1"; demo_record "v1" "t1"; demo_record "" "t2"]) ∧
  ¬ Forall nonempty_id (video_id_column
             [demo_record "v1" "t1"; demo_record "v1" "t1"; demo_record "" "t2"]).
Proof.
  split; [reflexivity |]. split.
  - intros H. apply NoDup_cons in H as [H _]. apply H. left.
  - intros H. do 2 apply Forall_cons in H as [_ H].
    apply Forall_cons in H as [(s & [= <-] & Hs) _]. by apply Hs.
Qed.

(** C5, amended. The [video_id] column of the table written by the
    listing stage is the sequence of [id.videoId] values of the video
    items of the pages consumed, in the order the API lists them, with no
    deduplication and no validation; so its entries are non-empty and
    pairwise distinct whenever those listed by the API are. *)
Theorem video_id_column_as_listed
    (pre : list response) (last : response) (rest : list response)
    (recss : list (list video_record)) (fuel : nat) :
  Forall has_next_page pre →
  raised (next_page_token last) →
  Forall2 (λ p recs, getVideoRecords p = Ok recs) (pre ++ [last]) recss →
  S (length pre) < fuel →
  ∃ rows,
    getVideoIDs mock_get fuel (pre ++ last :: rest) = Some (Ok rows, rest) ∧
    video_id_column rows = concat (map listed_video_ids (pre ++ [last])) ∧
    (NoDup (concat (map listed_video_ids (pre ++ [last]))) →
     Forall nonempty_id (concat (map listed_video_ids (pre ++ [last]))) →
     NoDup (video_id_column rows) ∧ Forall nonempty_id (video_id_column rows)).
Proof.
  intros Hpre Hlast Hrecs Hfuel. exists (concat recss).
  split; [unfold getVideoIDs; by rewrite (getVideoIDs_loop_mock_run pre last rest recss) |].
  assert (video_id_column (concat recss)
          = concat (map listed_video_ids (pre ++ [last]))) as ->; [| done].
  unfold video_id_column. induction Hrecs as [|p recs ps recss Hp _ IH]; [done |].
  cbn. rewrite map_app, IH. f_equal. by apply getVideoRecords_video_ids.
Qed.

Lemma video_id_column_as_listed_witness :
  ∃ rows,
    getVideoIDs mock_get 3
      ([demo_page [demo_video "v1" "t1"] (Some "CAUQAA")] ++
       demo_page [demo_other "youtube#channel"; demo_video "v2" "t2"] None :: [])
    = Some (Ok rows, []) ∧
    video_id_column rows
    = concat (map listed_video_ids
        ([demo_page [demo_video "v1" "t1"] (Some "CAUQAA")] ++
         [demo_page [demo_other "youtube#channel"; demo_video "v2" "t2"] None])) ∧
    (NoDup (concat (map listed_video_ids
        ([demo_page [demo_video "v1" "t1"] (Some "CAUQAA")] ++
         [demo_page [demo_other "youtube#channel"; demo_video "v2" "t2"] None]))) →
     Forall nonempty_id (concat (map listed_video_ids
        ([demo_page [demo_video "v1" "t1"] (Some "CAUQAA")] ++
         [demo_page [demo_other "youtube#channel"; demo_video "v2" "t2"] None]))) →
     NoDup (video_id_column rows) ∧ Forall nonempty_id (video_id_column rows)).
Proof.
  apply (video_id_column_as_listed
           [demo_page [demo_video "v1" "t1"] (Some "CAUQAA")]
           (demo_page [demo_other "youtube#channel"; demo_video "v2" "t2"] None)
           [] [[demo_record "v1" "t1"]; [demo_record "v2" "t2"]] 3).
  - repeat constructor. exists (PStr "CAUQAA"). split; reflexivity.
  - exists (KeyError (PStr "nextPageToken")). reflexivity.
  - repeat constructor.
  - cbn. lia.
Defined.

(** ** Data frames *)

Lemma find_column_replace_eq (df : DataFrame) (name : string) (s : series) :
  is_Some (find_column df name) →
  find_column (replace_column df name s) name = Some s.
Proof.
  induction df as [|[n s'] df IH]; cbn; [by intros [? [=]] |].
  destruct (String.eqb_spec n name) as [->|Hne]; cbn.
  - by rewrite String.eqb_refl.
  - intros H. apply String.eqb_neq in Hne. rewrite Hne. by apply IH.
Qed.

Lemma find_column_replace_ne (df : DataFrame) (name other : string) (s : series) :
  other ≠ name →
  find_column (replace_column df name s) other = find_column df other.
Proof.
  intros Hne. induction df as [|[n s'] df IH]; cbn; [done |].
  destruct (String.eqb_spec n name) as [->|Hn]; cbn.
  - apply not_eq_sym, String.eqb_neq in Hne. by rewrite Hne.
  - by rewrite IH.
Qed.

Lemma find_column_app (df df' : DataFrame) (name : string) :
  find_column (df ++ df') name
  = match find_column df name with
    | Some s => Some s
    | None => find_column df' name
    end.
Proof.
  induction df as [|[n s'] df IH]; cbn; [done |].
  by destruct (String.eqb n name).
Qed.

Lemma columns_replace (df : DataFrame) (name : string) (s : series) :
  columns (replace_column df name s) = columns df.
Proof.
  unfold columns. induction df as [|[n s'] df IH]; cbn; [done |].
  destruct (String.eqb n name); cbn; by f_equal.
Qed.

Lemma find_column_None (df : DataFrame) (name : string) :
  find_column df name = None ↔ name ∉ columns df.
Proof.
  unfold columns. induction df as [|[n s'] df IH]; cbn.
  - split; [intros _; apply not_elem_of_nil | done].
  - rewrite not_elem_of_cons. destruct (String.eqb_spec n name) as [->|Hn].
    + split; [done | by intros [? _]].
    + rewrite IH. split; [by intros ? | by intros [_ ?]].
Qed.

Lemma with_columns_success (df : DataFrame) (name : string) (s : series) :
  series_len s = height df →
  ∃ df', with_columns df name s = Ok df'.
Proof.
  intros Hlen. unfold with_columns. destruct df as [|c df]; [eauto |].
  rewrite Hlen, Nat.eqb_refl. cbn [negb].
  destruct (find_column (c :: df) name); eauto.
Qed.

Lemma with_columns_inv (df df' : DataFrame) (name : string) (s : series) :
  with_columns df name s = Ok df' →
  (df = [] ∧ df' = [(name, s)]) ∨
  (df ≠ [] ∧ series_len s = height df ∧
   ((is_Some (find_column df name) ∧ df' = replace_column df name s) ∨
    (find_column df name = None ∧ df' = df ++ [(name, s)]))).
Proof.
  unfold with_columns. destruct df as [|c df]; [intros [= <-]; by left |].
  remember (c :: df) as df0 eqn:Hdf0.
  destruct (Nat.eqb_spec (series_len s) (height df0)) as [Hlen|]; [| discriminate].
  cbn [negb]. intros H. right. split; [by subst |]. split; [done |].
  destruct (find_column df0 name) as [s'|]; injection H as <-.
  - left. split; [by exists s' | done].
  - by right.
Qed.

Lemma with_columns_find_eq (df df' : DataFrame) (name : string) (s : series) :
  with_columns df name s = Ok df' → find_column df' name = Some s.
Proof.
  intros [[-> ->] | (_ & _ & [[Hf ->] | [Hf ->]])]%with_columns_inv.
  - cbn. by rewrite String.eqb_refl.
  - by apply find_column_replace_eq.
  - rewrite find_column_app, Hf. cbn. by rewrite String.eqb_refl.
Qed.

Lemma with_columns_find_ne (df df' : DataFrame) (name other : string) (s : series) :
  with_columns df name s = Ok df' → other ≠ name →
  find_column df' other = find_column df other.
Proof.
  intros H Hne.
  assert (String.eqb name other = false) as Hb by by apply String.eqb_neq.
  apply with_columns_inv in H as [[-> ->] | (_ & _ & [[Hf ->] | [Hf ->]])].
  - cbn. by rewrite Hb.
  - by apply find_column_replace_ne.
  - rewrite find_column_app. destruct (find_column df other); [done |].
    cbn. by rewrite Hb.
Qed.

Lemma height_replace_column (df : DataFrame) (name : string) (s : series) :
  series_len s = height df → height (replace_column df name s) = height df.
Proof.
  destruct df as [|[n s'] df]; [done |]. cbn. by destruct (String.eqb n name).
Qed.

Lemma with_columns_height (df df' : DataFrame) (name : string) (s : series) :
  with_columns df name s = Ok df' → height df' = series_len s.
Proof.
  intros [[-> ->] | (Hne & Hlen & [[Hf ->] | [Hf ->]])]%with_columns_inv.
  - done.
  - by rewrite height_replace_column.
  - destruct df as [|[n s'] df]; done.
Qed.

Lemma with_columns_columns (df df' : DataFrame) (name : string) (s : series) :
  with_columns df name s = Ok df' →
  columns df' = match find_column df name with
               | Some _ => columns df
               | None => columns df ++ [name]
               end.
Proof.
  intros [[-> ->] | (_ & _ & [[[s' Hf] ->] | [Hf ->]])]%with_columns_inv.
  - done.
  - rewrite Hf. apply columns_replace.
  - rewrite Hf. unfold columns. by rewrite map_app.
Qed.

Lemma Forall_replace_column (P : string * series → Prop) (df : DataFrame)
    (name : string) (s : series) :
  Forall P df → (∀ n, P (n, s)) → Forall P (replace_column df name s).
Proof.
  intros Hdf Hs. induction Hdf as [|[n s'] df Hc Hdf IH]; cbn; [constructor |].
  destruct (String.eqb n name); constructor; auto.
Qed.

Lemma with_columns_ok (df df' : DataFrame) (name : string) (s : series) :
  DataFrame_ok df → with_columns df name s = Ok df' → DataFrame_ok df'.
Proof.
  intros [Hnd Hlen] H. split.
  - rewrite (with_columns_columns _ _ _ _ H).
    destruct (find_column df name) eqn:Hf; [done |].
    apply NoDup_app. split; [done |]. split; [| apply NoDup_singleton].
    intros x Hx ->%list_elem_of_singleton. by apply find_column_None in Hf.
  - rewrite (with_columns_height _ _ _ _ H).
    apply with_columns_inv in H as [[-> ->] | (_ & Hs & [[Hf ->] | [Hf ->]])].
    + by repeat constructor.
    + rewrite Hs. by apply Forall_replace_column.
    + rewrite Hs. apply Forall_app. split; [done |]. by repeat constructor.
Qed.

(** ** Stage 2 *)

Lemma comprehension_fragments (frags : list pyobj) (texts : list string) :
  Forall2 (λ frag t, py_getitem frag "text" = Ok (PStr t)) frags texts →
  ∀ pre : list pyobj,
  comprehension
    (λ i, fragment ← py_getitem_int (PList (pre ++ frags)) i;
          py_getitem fragment "text")
    (seq (length pre) (length frags))
  = Ok (map PStr texts).
Proof.
  induction 1 as [|frag t frags texts Hfrag _ IH]; intros pre; [done |].
  cbn [length seq comprehension py_getitem_int].
  rewrite list_lookup_middle by done. cbn. rewrite Hfrag. cbn.
  specialize (IH (pre ++ [frag])). rewrite <- app_assoc in IH. cbn in IH.
  rewrite length_app, Nat.add_1_r in IH. by rewrite IH.
Qed.

Lemma str_join_strings (sep : string) (texts : list string) :
  str_join sep (map PStr texts) = Ok (String.concat sep texts).
Proof.
  induction texts as [|t texts IH]; [done |].
  destruct texts as [|t' texts]; [done |].
  cbn [map str_join] in *. rewrite IH. reflexivity.
Qed.

Lemma extractTranscriptText_fragments (frags : list pyobj) (texts : list string) :
  Forall2 (λ frag t, py_getitem frag "text" = Ok (PStr t)) frags texts →
  extractTranscriptText (PList frags) = Ok (String.concat " " texts).
Proof.
  intros H. pose proof (comprehension_fragments frags texts H []) as Hc.
  unfold extractTranscriptText. cbn [py_len]. rewrite bind_Ok.
  cbn [app length] in Hc. rewrite Hc, bind_Ok.
  apply str_join_strings.
Qed.

(** C9. For every list of caption fragments, each a dict with a string
    under ["text"], [extractTranscriptText] returns the texts joined by
    single spaces, in the order of the list. *)
Theorem extractTranscriptText_joins_in_order
    (frags : list pyobj) (texts : list string) :
  Forall2 (λ frag t, py_getitem frag "text" = Ok (PStr t)) frags texts →
  extractTranscriptText (PList frags) = Ok (String.concat " " texts).
Proof. apply extractTranscriptText_fragments. Qed.

Lemma extractTranscriptText_joins_in_order_witness :
  extractTranscriptText (PList [demo_fragment "hello"; demo_fragment "world"])
  = Ok "hello world".
Proof.
  apply (extractTranscriptText_joins_in_order
           [demo_fragment "hello"; demo_fragment "world"] ["hello"; "world"]).
  repeat constructor.
Defined.

Lemma foldl_fetch_step (get_transcript : nat → pyobj → result pyobj)
    (df : DataFrame) (rows : list nat) :
  ∀ acc, foldl (fetch_step get_transcript df) acc rows
         = acc ++ map (λ i, try_except (fetch_transcript_text get_transcript df i) "n/a") rows.
Proof.
  induction rows as [|i rows IH]; intros acc; cbn.
  - by rewrite app_nil_r.
  - rewrite IH. unfold fetch_step. by rewrite <- app_assoc.
Qed.

(** The fetcher never raises; it adds (or replaces) the [transcript]
    column and touches nothing else. *)
Lemma getVideoTranscripts_spec (get_transcript : nat → pyobj → result pyobj)
    (df : DataFrame) :
  ∃ df', getVideoTranscripts get_transcript df = Ok df' ∧
    find_column df' "transcript"
    = Some (Utf8 (map Some (map (λ i, try_except (fetch_transcript_text get_transcript df i) "n/a")
                                (seq 0 (height df))))) ∧
    height df' = height df ∧
    (∀ other, other ≠ "transcript" → find_column df' other = find_column df other) ∧
    (DataFrame_ok df → DataFrame_ok df') ∧
    columns df' = match find_column df "transcript" with
                  | Some _ => columns df
                  | None => columns df ++ ["transcript"]
                  end.
Proof.
  unfold getVideoTranscripts. rewrite foldl_fetch_step. cbn [app].
  set (texts := map _ (seq 0 (height df))).
  assert (series_len (Utf8 (map Some texts)) = height df) as Hlen.
  { cbn. unfold texts. by rewrite !length_map, length_seq. }
  destruct (with_columns_success df "transcript" _ Hlen) as [df' Hdf'].
  exists df'. split; [done |]. split; [by eapply with_columns_find_eq |].
  split; [by rewrite (with_columns_height _ _ _ _ Hdf') |].
  split; [intros other Hne; by eapply with_columns_find_ne |].
  split; [intros Hok; by eapply with_columns_ok |].
  by eapply with_columns_columns.
Qed.

Lemma getVideoTranscripts_rows
    (get_transcript : nat → pyobj → result pyobj) (df : DataFrame) :
  ∃ df' texts,
    getVideoTranscripts get_transcript df = Ok df' ∧
    df_column df' "transcript" = Ok (Utf8 (map Some texts)) ∧
    length texts = height df ∧
    height df' = height df ∧
    ∀ i, i < height df →
      texts !! i = Some (try_except (fetch_transcript_text get_transcript df i) "n/a").
Proof.
  destruct (getVideoTranscripts_spec get_transcript df)
    as (df' & Hrun & Hcol & Hheight & _).
  eexists df', _. split; [done |]. unfold df_column. rewrite Hcol.
  split; [done |]. split; [by rewrite length_map, length_seq |].
  split; [done |]. intros i Hi.
  by rewrite list_lookup_fmap, lookup_seq_lt.
Qed.

(** C3. Whatever the transcript service does, the fetcher returns a
    table: no error of a call reaches the caller. The table has one
    transcript per row; in a row whose call raised, whatever the error,
    the transcript is exactly ["n/a"], and every row whose fetch went
    through holds its own text, the rows after a failed one included. *)
Theorem failed_fetch_records_sentinel
    (get_transcript : nat → pyobj → result pyobj) (df : DataFrame) :
  ∃ df' texts,
    getVideoTranscripts get_transcript df = Ok df' ∧
    df_column df' "transcript" = Ok (Utf8 (map Some texts)) ∧
    length texts = height df ∧
    height df' = height df ∧
    ∀ i, i < height df →
      (∀ ids vid, df_column df "video_id" = Ok ids →
         series_getitem ids i = Ok vid →
         raised (get_transcript i vid) → texts !! i = Some "n/a") ∧
      (∀ s, fetch_transcript_text get_transcript df i = Ok s → texts !! i = Some s).
Proof.
  destruct (getVideoTranscripts_rows get_transcript df)
    as (df' & texts & Hrun & Hcol & Hlen & Hheight & Hrows).
  exists df', texts. do 4 (split; [done |]). intros i Hi.
  rewrite (Hrows i Hi). split.
  - intros ids vid Hids Hvid [e He]. unfold fetch_transcript_text.
    rewrite Hids, bind_Ok, Hvid, bind_Ok, He. reflexivity.
  - by intros s ->.
Qed.

Lemma failed_fetch_records_sentinel_witness :
  ∃ df' texts,
    getVideoTranscripts demo_service demo_ids = Ok df' ∧
    df_column df' "transcript" = Ok (Utf8 (map Some texts)) ∧
    height df' = 3 ∧
    texts !! 0 = Some "a b" ∧ texts !! 1 = Some "n/a" ∧ texts !! 2 = Some "c".
Proof.
  destruct (failed_fetch_records_sentinel demo_service demo_ids)
    as (df' & texts & Hrun & Hcol & _ & Hheight & Hrows).
  exists df', texts. split; [exact Hrun |]. split; [exact Hcol |].
  split; [exact Hheight |]. split; [| split].
  - apply (Hrows 0); [cbn; lia | reflexivity].
  - apply (Hrows 1 ltac:(cbn; lia)) with
      (ids := Utf8 [Some "v1"; Some "v2"; Some "v3"]) (vid := PStr "v2");
      [reflexivity | reflexivity |].
    exists (ExternalError "TranscriptsDisabled"). reflexivity.
  - apply (Hrows 2); [cbn; lia | reflexivity].
Defined.

(** C10. [extractTranscriptText] returns a string on every list of
    caption fragments, and the empty string on the empty list. So a row
    for which the service answers with no fragment at all gets the empty
    transcript, which is not the sentinel ["n/a"], and no error. *)
Theorem empty_transcript_is_not_sentinel
    (get_transcript : nat → pyobj → result pyobj) (df : DataFrame)
    (ids : series) (i : nat) (vid : pyobj) :
  i < height df →
  df_column df "video_id" = Ok ids →
  series_getitem ids i = Ok vid →
  get_transcript i vid = Ok (PList []) →
  (∀ frags, Forall has_text frags → ∃ s, extractTranscriptText (PList frags) = Ok s) ∧
  extractTranscriptText (PList []) = Ok "" ∧
  ∃ df' texts,
    getVideoTranscripts get_transcript df = Ok df' ∧
    df_column df' "transcript" = Ok (Utf8 (map Some texts)) ∧
    texts !! i = Some "" ∧ "" ≠ "n/a".
Proof.
  intros Hi Hids Hvid Hcall. split; [| split; [done |]].
  - intros frags Hfrags.
    assert (∃ texts, Forall2 (λ frag t, py_getitem frag "text" = Ok (PStr t)) frags texts)
      as [texts Htexts].
    { induction Hfrags as [|frag frags [t Ht] _ [texts IH]]; [by exists [] |].
      exists (t :: texts). by constructor. }
    eexists. by apply extractTranscriptText_fragments.
  - destruct (getVideoTranscripts_rows get_transcript df)
      as (df' & texts & Hrun & Hcol & _ & _ & Hrows).
    exists df', texts. split; [done |]. split; [done |]. split; [| done].
    rewrite (Hrows i Hi). unfold fetch_transcript_text.
    rewrite Hids, bind_Ok, Hvid, bind_Ok, Hcall. reflexivity.
Qed.

Lemma empty_transcript_is_not_sentinel_witness :
  (∀ frags, Forall has_text frags → ∃ s, extractTranscriptText (PList frags) = Ok s) ∧
  extractTranscriptText (PList []) = Ok "" ∧
  ∃ df' texts,
    getVideoTranscripts silent_service demo_ids = Ok df' ∧
    df_column df' "transcript" = Ok (Utf8 (map Some texts)) ∧
    texts !! 1 = Some "" ∧ "" ≠ "n/a".
Proof.
  apply (empty_transcript_is_not_sentinel silent_service demo_ids
           (Utf8 [Some "v1"; Some "v2"; Some "v3"]) 1 (PStr "v2")).
  - cbn. lia.
  - reflexivity.
  - reflexivity.
  - reflexivity.
Defined.

(** ** Stage 3 *)

Lemma find_column_len (df : DataFrame) (name : string) (s : series) :
  DataFrame_ok df → find_column df name = Some s → series_len s = height df.
Proof.
  intros [_ Hlen]. generalize (height df) as h, Hlen. clear Hlen.
  induction df as [|[n s'] df IH]; intros h Hlen; cbn; [done |].
  apply Forall_cons in Hlen as [Hs' Hlen].
  destruct (String.eqb n name); [by intros [= <-] | by apply IH].
Qed.

Lemma replace_column_id (df : DataFrame) (name : string) (s : series) :
  find_column df name = Some s → replace_column df name s = df.
Proof.
  induction df as [|[n s'] df IH]; cbn; [done |].
  destruct (String.eqb n name); [by intros [= ->] |].
  intros H. by rewrite IH.
Qed.

Lemma with_columns_existing (df : DataFrame) (name : string) (s0 s : series) :
  DataFrame_ok df → find_column df name = Some s0 → series_len s = series_len s0 →
  ∃ df', with_columns df name s = Ok df' ∧ column_set df name s df'.
Proof.
  intros Hok Hf Hlen.
  assert (series_len s = height df) as Hh
    by (rewrite Hlen; by eapply find_column_len).
  destruct (with_columns_success df name s Hh) as [df' Hdf'].
  exists df'. split; [done |]. split; [by eapply with_columns_find_eq |].
  split; [intros other Hne; by eapply with_columns_find_ne |].
  split; [by eapply with_columns_ok |].
  split; [by rewrite (with_columns_height _ _ _ _ Hdf') |].
  by rewrite (with_columns_columns _ _ _ _ Hdf'), Hf.
Qed.

Lemma replace_in_column_spec (df : DataFrame) (name : string) (i : nat)
    (pattern value : string) (cells : list (option string)) :
  DataFrame_ok df → find_column df name = Some (Utf8 cells) →
  special_strings !! i = Some pattern →
  special_string_replacements !! i = Some value →
  ∃ df', replace_in_column df name i = Ok df' ∧
    column_set df name (Utf8 (map (option_map (str_replace pattern value)) cells)) df'.
Proof.
  intros Hok Hf Hp Hv. unfold replace_in_column, df_column, list_getitem.
  rewrite Hf, Hp, Hv, !bind_Ok. cbn [series_str_replace]. rewrite bind_Ok.
  eapply with_columns_existing; [done | done |]. cbn. by rewrite length_map.
Qed.

Lemma str_replace_absent (pattern value s : string) :
  contains pattern s = false → str_replace pattern value s = s.
Proof.
  induction s as [|c s IH]; cbn [contains str_replace].
  - by destruct (String.prefix pattern "").
  - destruct (String.prefix pattern (String c s)); [done |]. cbn [orb].
    intros H. by rewrite IH.
Qed.

Lemma str_replace_clean_cells (i : nat) (pattern value : string)
    (cells : list (option string)) :
  special_strings !! i = Some pattern → cells_clean cells →
  map (option_map (str_replace pattern value)) cells = cells.
Proof.
  intros Hp Hclean.
  induction Hclean as [|[s|] cells Hc _ IH]; cbn [map option_map];
    [done | | by rewrite IH].
  rewrite IH. do 2 f_equal. apply str_replace_absent.
  specialize (Hc s eq_refl). unfold is_clean in Hc.
  rewrite forallb_forall in Hc. apply negb_true_iff, Hc.
  apply list_elem_of_In. by eapply list_elem_of_lookup_2.
Qed.

Lemma replace_in_column_clean (df : DataFrame) (name : string) (i : nat)
    (pattern value : string) (cells : list (option string)) :
  DataFrame_ok df → find_column df name = Some (Utf8 cells) →
  special_strings !! i = Some pattern →
  special_string_replacements !! i = Some value →
  cells_clean cells →
  replace_in_column df name i = Ok df.
Proof.
  intros Hok Hf Hp Hv Hclean.
  pose proof (str_replace_clean_cells i pattern value cells Hp Hclean) as Hid.
  unfold replace_in_column, df_column, list_getitem.
  rewrite Hf, Hp, Hv, !bind_Ok. cbn [series_str_replace]. rewrite bind_Ok, Hid.
  unfold with_columns. destruct df as [|c df]; [done |].
  rewrite (find_column_len _ _ _ Hok Hf), Nat.eqb_refl, Hf. cbn [negb].
  by rewrite replace_column_id.
Qed.

Lemma handleSpecialStrings_step_spec (df : DataFrame) (i : nat)
    (pattern value : string) (titles transcripts : list (option string)) :
  text_columns df titles transcripts →
  special_strings !! i = Some pattern →
  special_string_replacements !! i = Some value →
  ∃ df', handleSpecialStrings_step (Ok df) i = Ok df' ∧
    text_columns df' (map (option_map (str_replace pattern value)) titles)
                     (map (option_map (str_replace pattern value)) transcripts) ∧
    same_elsewhere df df'.
Proof.
  intros (Hok & Htitle & Htrans) Hp Hv. unfold handleSpecialStrings_step.
  rewrite bind_Ok.
  destruct (replace_in_column_spec df "title" i pattern value titles)
    as (df1 & -> & Ht1 & Ho1 & Hok1 & Hh1 & Hc1); try done.
  rewrite bind_Ok.
  destruct (replace_in_column_spec df1 "transcript" i pattern value transcripts)
    as (df2 & -> & Ht2 & Ho2 & Hok2 & Hh2 & Hc2); try done.
  { by rewrite Ho1. }
  exists df2. split; [done |]. split.
  - split; [done |]. split; [| done]. by rewrite Ho2.
  - split; [congruence |]. split; [congruence |].
    intros other H1 H2. by rewrite Ho2, Ho1.
Qed.

Lemma same_elsewhere_trans (df1 df2 df3 : DataFrame) :
  same_elsewhere df1 df2 → same_elsewhere df2 df3 → same_elsewhere df1 df3.
Proof.
  intros (Hh1 & Hc1 & Ho1) (Hh2 & Hc2 & Ho2).
  split; [congruence |]. split; [congruence |].
  intros other H1 H2. by rewrite Ho2, Ho1.
Qed.

Lemma map_clean_text (cells : list (option string)) :
  map (option_map (str_replace "sha " "Shaw "))
    (map (option_map (str_replace "&amp;" "&"))
       (map (option_map (str_replace "&#39;" "'")) cells))
  = map (option_map clean_text) cells.
Proof.
  rewrite !map_map. apply map_ext. by intros [s|].
Qed.

Lemma handleSpecialStrings_spec (df : DataFrame)
    (titles transcripts : list (option string)) :
  text_columns df titles transcripts →
  ∃ df', handleSpecialStrings df = Ok df' ∧
    text_columns df' (map (option_map clean_text) titles)
                     (map (option_map clean_text) transcripts) ∧
    same_elsewhere df df'.
Proof.
  intros H0. unfold handleSpecialStrings. cbn [special_strings length seq foldl].
  destruct (handleSpecialStrings_step_spec df 0 "&#39;" "'" _ _ H0)
    as (df1 & -> & H1 & Hs1); try done.
  destruct (handleSpecialStrings_step_spec df1 1 "&amp;" "&" _ _ H1)
    as (df2 & -> & H2 & Hs2); try done.
  destruct (handleSpecialStrings_step_spec df2 2 "sha " "Shaw " _ _ H2)
    as (df3 & -> & H3 & Hs3); try done.
  exists df3. split; [done |]. rewrite !map_clean_text in H3. split; [done |].
  eauto using same_elsewhere_trans.
Qed.

Lemma handleSpecialStrings_step_clean (df : DataFrame) (i : nat)
    (pattern value : string) (titles transcripts : list (option string)) :
  text_columns df titles transcripts →
  special_strings !! i = Some pattern →
  special_string_replacements !! i = Some value →
  cells_clean titles → cells_clean transcripts →
  handleSpecialStrings_step (Ok df) i = Ok df.
Proof.
  intros (Hok & Htitle & Htrans) Hp Hv Hc1 Hc2. unfold handleSpecialStrings_step.
  rewrite bind_Ok.
  rewrite (replace_in_column_clean df "title" i pattern value titles), bind_Ok by done.
  by rewrite (replace_in_column_clean df "transcript" i pattern value transcripts).
Qed.

(** C1, as stated, does not hold: the second replacement can complete an
    occurrence of the first pattern. A title ["&amp;#39;"] becomes
    ["&#39;"] in one pass and ["'"] in the next. *)
Lemma handleSpecialStrings_not_idempotent :
  handleSpecialStrings
    [("title", Utf8 [Some "&amp;#39;"]); ("transcript", Utf8 [Some "n/a"])]
  = Ok [("title", Utf8 [Some "&#39;"]); ("transcript", Utf8 [Some "n/a"])] ∧
  handleSpecialStrings
    [("title", Utf8 [Some "&#39;"]); ("transcript", Utf8 [Some "n/a"])]
  = Ok [("title", Utf8 [Some "'"]); ("transcript", Utf8 [Some "n/a"])] ∧
  Ok [("title", Utf8 [Some "&#39;"]); ("transcript", Utf8 [Some "n/a"])]
  ≠ Ok (A := DataFrame) [("title", Utf8 [Some "'"]); ("transcript", Utf8 [Some "n/a"])].
Proof. split; [reflexivity |]. split; [reflexivity | discriminate]. Qed.

(** C1, amended. On a table with its two text columns the cleaning
    returns a table, and when the texts of that table are free of the
    three sequences searched for, cleaning it again returns the same
    table. *)
Theorem handleSpecialStrings_idempotent_on_clean (df : DataFrame)
    (titles transcripts : list (option string)) :
  text_columns df titles transcripts →
  ∃ df1, handleSpecialStrings df = Ok df1 ∧
    text_columns df1 (map (option_map clean_text) titles)
                     (map (option_map clean_text) transcripts) ∧
    (cells_clean (map (option_map clean_text) titles) →
     cells_clean (map (option_map clean_text) transcripts) →
     handleSpecialStrings df1 = Ok df1).
Proof.
  intros H0. destruct (handleSpecialStrings_spec df titles transcripts H0)
    as (df1 & Hrun & H1 & _).
  exists df1. split; [done |]. split; [done |]. intros Hc1 Hc2.
  unfold handleSpecialStrings. cbn [special_strings length seq foldl].
  rewrite (handleSpecialStrings_step_clean df1 0 "&#39;" "'" _ _ H1) by done.
  rewrite (handleSpecialStrings_step_clean df1 1 "&amp;" "&" _ _ H1) by done.
  by rewrite (handleSpecialStrings_step_clean df1 2 "sha " "Shaw " _ _ H1).
Qed.

Lemma demo_transcripts_text_columns :
  text_columns demo_transcripts
    [Some "Shaw&#39;s channel"; Some "sha blog"; Some "AI &amp; data"]
    [Some "a b"; Some "n/a"; Some "c"].
Proof.
  split; [| by split]. split.
  - apply (bool_decide_unpack _). by vm_compute.
  - repeat constructor.
Qed.

Lemma handleSpecialStrings_idempotent_on_clean_witness :
  ∃ df1, handleSpecialStrings demo_transcripts = Ok df1 ∧
    text_columns df1 [Some "Shaw's channel"; Some "Shaw blog"; Some "AI & data"]
                     [Some "a b"; Some "n/a"; Some "c"] ∧
    handleSpecialStrings df1 = Ok df1.
Proof.
  destruct (handleSpecialStrings_idempotent_on_clean demo_transcripts _ _
              demo_transcripts_text_columns) as (df1 & Hrun & Hcols & Hidem).
  exists df1. split; [exact Hrun |]. split; [exact Hcols |].
  apply Hidem; repeat constructor; intros s [= <-]; reflexivity.
Defined.

(** C6. On a table with its two text columns, the transformer rewrites
    every title and every transcript by the three replacements in the
    order listed (apostrophe entity, ampersand entity, lowercase name),
    each a literal, case-sensitive replacement of the leftmost occurrence
    of its pattern in the cell: no pattern
    holds a metacharacter and no replacement a group reference. The other
    columns are left as they are. In particular ["Shaw&#39;s channel"]
    becomes ["Shaw's channel"] and ["sha blog"] becomes ["Shaw blog"]. *)
Theorem replacements_literal_in_order (df : DataFrame)
    (titles transcripts : list (option string)) :
  text_columns df titles transcripts →
  (∃ df', handleSpecialStrings df = Ok df' ∧
     find_column df' "title" = Some (Utf8 (map (option_map clean_text) titles)) ∧
     find_column df' "transcript"
     = Some (Utf8 (map (option_map clean_text) transcripts)) ∧
     same_elsewhere df df') ∧
  forallb is_literal_pattern special_strings = true ∧
  forallb is_literal_value special_string_replacements = true ∧
  clean_text "Shaw&#39;s channel" = "Shaw's channel" ∧
  clean_text "sha blog" = "Shaw blog" ∧
  clean_text "Sha blog &AMP; more" = "Sha blog &AMP; more" ∧
  clean_text "&amp;#39;" = "&#39;".
Proof.
  intros H0. split; [| by repeat split].
  destruct (handleSpecialStrings_spec df titles transcripts H0)
    as (df' & Hrun & (_ & Ht & Htr) & Hsame).
  by exists df'.
Qed.

Lemma replacements_literal_in_order_witness :
  (∃ df', handleSpecialStrings demo_transcripts = Ok df' ∧
     find_column df' "title"
     = Some (Utf8 (map (option_map clean_text)
                     [Some "Shaw&#39;s channel"; Some "sha blog"; Some "AI &amp; data"])) ∧
     find_column df' "transcript"
     = Some (Utf8 (map (option_map clean_text) [Some "a b"; Some "n/a"; Some "c"])) ∧
     same_elsewhere demo_transcripts df') ∧
  forallb is_literal_pattern special_strings = true ∧
  forallb is_literal_value special_string_replacements = true ∧
  clean_text "Shaw&#39;s channel" = "Shaw's channel" ∧
  clean_text "sha blog" = "Shaw blog" ∧
  clean_text "Sha blog &AMP; more" = "Sha blog &AMP; more" ∧
  clean_text "&amp;#39;" = "&#39;".
Proof.
  apply (replacements_literal_in_order demo_transcripts _ _
           demo_transcripts_text_columns).
Defined.

Example str_replace_first_match_only :
  clean_text "sha sha " = "Shaw sha " ∧ clean_text "Shaw sha " = "Shaw Shaw ".
Proof. by split. Qed.

(** The cast of numbers to timestamps: the fraction is dropped, a null
    stays null, and what is no 64-bit integer is refused. *)
Example cast_Datetime_floats :
  cast_Datetime demo_strptime (Float64 [Some 1.5%float; None; Some (-2.75)%float])
  = Ok (Datetime [Some 1%Z; None; Some (-2)%Z]) ∧
  cast_Datetime demo_strptime (Float64 [Some 1%float; Some nan]) = Raise ComputeError ∧
  cast_Datetime demo_strptime (Float64 [Some infinity]) = Raise ComputeError.
Proof. repeat split; reflexivity. Qed.

(** ** Stage 4 *)

Lemma append_inj_r (s a b : string) : s +:+ a = s +:+ b → a = b.
Proof. induction s as [|c s IH]; cbn; [done |]. intros [= H]. by apply IH. Qed.

Lemma str_inj (i j : nat) : str i = str j → i = j.
Proof.
  unfold str. intros H. apply DecimalNat.Unsigned.to_uint_inj.
  apply (f_equal NilEmpty.uint_of_string) in H.
  rewrite !NilEmpty.usu in H. by injection H.
Qed.

Lemma length_embedding_columns (column_name : string) (width : nat) :
  length (embedding_columns column_name width) = width.
Proof. unfold embedding_columns. by rewrite length_map, length_seq. Qed.

Lemma NoDup_embedding_columns (column_name : string) (width : nat) :
  NoDup (embedding_columns column_name width).
Proof.
  unfold embedding_columns. apply NoDup_fmap_2; [| apply NoDup_seq].
  intros i j H. by apply append_inj_r, append_inj_r, str_inj in H.
Qed.

Lemma columns_embedding_frame (column_name : string) (arr : ndarray) :
  columns (embedding_frame column_name arr)
  = embedding_columns column_name (shape1 arr).
Proof.
  unfold columns, embedding_frame.
  change (map fst ?l) with (fst <$> l). rewrite fmap_imap.
  rewrite (imap_ext _ (const id)) by done. rewrite imap_const. apply list_fmap_id.
Qed.

Lemma embedding_frame_lengths (column_name : string) (arr : ndarray) :
  Forall (λ c, series_len (snd c) = shape0 arr) (embedding_frame column_name arr).
Proof.
  apply Forall_forall. intros c (j & name & -> & _)%elem_of_lookup_imap.
  cbn. by rewrite length_map, length_seq.
Qed.

Lemma DataFrame_of_ndarray_embedding (column_name : string) (arr : ndarray) :
  DataFrame_of_ndarray arr (embedding_columns column_name (shape1 arr))
  = Ok (embedding_frame column_name arr).
Proof.
  unfold DataFrame_of_ndarray.
  by rewrite length_embedding_columns, Nat.eqb_refl.
Qed.

Lemma title_not_transcript (i j : nat) :
  "title" +:+ "_embedding-" +:+ str i ≠ "transcript" +:+ "_embedding-" +:+ str j.
Proof. cbn. discriminate. Qed.

Lemma existsb_eqb_elem_of (n : string) (names : list string) :
  existsb (String.eqb n) names = true ↔ n ∈ names.
Proof.
  rewrite existsb_exists, list_elem_of_In. split.
  - by intros (x & Hx & ->%String.eqb_eq).
  - intros Hn. exists n. by rewrite String.eqb_refl.
Qed.

Lemma extend_series_0 (s : series) : extend_series 0 s = s.
Proof. destruct s; cbn; by rewrite app_nil_r. Qed.

Lemma extend_frame_0 (df : DataFrame) : extend_frame 0 df = df.
Proof.
  unfold extend_frame. induction df as [|[n s] df IH]; cbn; [done |].
  by rewrite extend_series_0, IH.
Qed.

Lemma series_len_extend (n : nat) (s : series) :
  series_len (extend_series n s) = series_len s + n.
Proof. destruct s; cbn; by rewrite length_app, length_replicate. Qed.

Lemma columns_extend_frame (n : nat) (df : DataFrame) :
  columns (extend_frame n df) = columns df.
Proof.
  unfold columns, extend_frame. rewrite map_map. by apply map_ext.
Qed.

Lemma height_extend_frame (n : nat) (df : DataFrame) :
  df ≠ [] → height (extend_frame n df) = height df + n.
Proof. destruct df as [|[name s] df]; [done |]. intros _. apply series_len_extend. Qed.

Lemma find_column_extend_frame (n : nat) (df : DataFrame) (name : string) :
  find_column (extend_frame n df) name = extend_series n <$> find_column df name.
Proof.
  induction df as [|[n' s] df IH]; cbn; [done |].
  by destruct (String.eqb n' name).
Qed.

Lemma concat_horizontal_inv (a b df : DataFrame) :
  concat_horizontal a b = Ok df →
  df = extend_frame (Nat.max (height a) (height b) - height a) a
       ++ extend_frame (Nat.max (height a) (height b) - height b) b ∧
  (∀ n, n ∈ columns b → n ∉ columns a).
Proof.
  unfold concat_horizontal.
  destruct (List.find _ (columns b)) as [n|] eqn:Hfind; [discriminate |].
  intros [= <-]. split; [done |].
  intros n Hn Ha. apply existsb_eqb_elem_of in Ha.
  apply list_elem_of_In in Hn. by rewrite (find_none _ _ Hfind n Hn) in Ha.
Qed.

Lemma concat_horizontal_disjoint (a b : DataFrame) :
  (∀ n, n ∈ columns b → n ∉ columns a) → a ≠ [] →
  (b ≠ [] → height b = height a) →
  concat_horizontal a b = Ok (a ++ b).
Proof.
  intros Hdisj Ha Hb. unfold concat_horizontal.
  destruct (List.find _ (columns b)) as [n|] eqn:Hfind.
  - apply find_some in Hfind as [Hn Hclash]. exfalso.
    apply (Hdisj n); [by apply list_elem_of_In | by apply existsb_eqb_elem_of].
  - cbn zeta. destruct b as [|cb b].
    + cbn [height]. rewrite Nat.max_0_r, Nat.sub_diag, extend_frame_0. done.
    + rewrite Hb by done. by rewrite Nat.max_id, Nat.sub_diag, !extend_frame_0.
Qed.

Lemma find_column_Some_nonempty (df : DataFrame) (name : string) (s : series) :
  find_column df name = Some s → df ≠ [].
Proof. by destruct df. Qed.

Lemma height_app (a b : DataFrame) : a ≠ [] → height (a ++ b) = height a.
Proof. by destruct a. Qed.

Lemma embed_column_inv (encode : list pyobj → result ndarray)
    (df df' : DataFrame) (column_name : string) :
  embed_column encode (Ok df) column_name = Ok df' →
  ∃ col arr, find_column df column_name = Some col ∧
    encode (to_list col) = Ok arr ∧
    concat_horizontal df (embedding_frame column_name arr) = Ok df'.
Proof.
  unfold embed_column, df_column. rewrite bind_Ok. intros H.
  returned H as col Hcol. returned H as arr Henc.
  rewrite DataFrame_of_ndarray_embedding, bind_Ok in H.
  exists col, arr. by destruct (find_column df column_name) as [s|]; simplify_eq.
Qed.

Lemma length_to_list (s : series) : length (to_list s) = series_len s.
Proof. destruct s; cbn; by rewrite length_map. Qed.

Lemma height_embedding_frame (column_name : string) (arr : ndarray) :
  embedding_frame column_name arr ≠ [] →
  height (embedding_frame column_name arr) = shape0 arr.
Proof.
  intros Hne. pose proof (embedding_frame_lengths column_name arr) as Hlen.
  destruct (embedding_frame column_name arr) as [|[n s] emb]; [done |].
  by apply Forall_cons in Hlen as [Hs _].
Qed.

(** With one row per string, an iteration of stage 4 puts the new
    columns beside the table and pads nothing. *)
Lemma embed_column_aligned_inv (encode : list pyobj → result ndarray)
    (df df' : DataFrame) (column_name : string) :
  one_row_per_string encode → DataFrame_ok df →
  embed_column encode (Ok df) column_name = Ok df' →
  ∃ col arr, find_column df column_name = Some col ∧
    encode (to_list col) = Ok arr ∧ shape0 arr = height df ∧
    (∀ n, n ∈ embedding_columns column_name (shape1 arr) → n ∉ columns df) ∧
    df' = df ++ embedding_frame column_name arr.
Proof.
  intros Hrows Hok (col & arr & Hcol & Henc & H)%embed_column_inv.
  assert (shape0 arr = height df) as Hh.
  { rewrite (Hrows _ _ Henc), length_to_list. by eapply find_column_len. }
  pose proof (concat_horizontal_inv _ _ _ H) as [_ Hdisj].
  rewrite concat_horizontal_disjoint in H.
  - injection H as <-. exists col, arr. by rewrite columns_embedding_frame in Hdisj.
  - done.
  - by eapply find_column_Some_nonempty.
  - intros Hne. by rewrite height_embedding_frame.
Qed.

Lemma embed_column_spec (encode : list pyobj → result ndarray)
    (df : DataFrame) (column_name : string) (col : series) (arr : ndarray) :
  find_column df column_name = Some col →
  encode (to_list col) = Ok arr →
  shape0 arr = height df →
  (∀ n, n ∈ embedding_columns column_name (shape1 arr) → n ∉ columns df) →
  embed_column encode (Ok df) column_name
  = Ok (df ++ embedding_frame column_name arr).
Proof.
  intros Hcol Henc Hrows Hdisj. unfold embed_column, df_column.
  rewrite bind_Ok, Hcol, bind_Ok, Henc, bind_Ok.
  rewrite DataFrame_of_ndarray_embedding, bind_Ok.
  apply concat_horizontal_disjoint.
  - by rewrite columns_embedding_frame.
  - by eapply find_column_Some_nonempty.
  - intros Hne. pose proof (embedding_frame_lengths column_name arr) as Hlen.
    destruct (embedding_frame column_name arr) as [|[n s] emb]; [done |].
    apply Forall_cons in Hlen as [Hs _]. cbn in *. congruence.
Qed.

Lemma find_column_app_l (a b : DataFrame) (name : string) (s : series) :
  find_column a name = Some s → find_column (a ++ b) name = Some s.
Proof. intros H. by rewrite find_column_app, H. Qed.

Lemma DataFrame_ok_app (a b : DataFrame) :
  DataFrame_ok a → a ≠ [] → NoDup (columns b) →
  (∀ n, n ∈ columns b → n ∉ columns a) →
  Forall (λ c, series_len (snd c) = height a) b →
  DataFrame_ok (a ++ b).
Proof.
  intros [Hnd Hlen] Ha Hb Hdisj Hblen. split.
  - unfold columns. rewrite map_app. apply NoDup_app. split; [done |].
    split; [| done]. intros n Hn Hn'. by apply (Hdisj n).
  - rewrite height_app by done. apply Forall_app. by split.
Qed.

Lemma createTextEmbeddings_spec
    (encode : list pyobj → result ndarray) (df : DataFrame)
    (titles transcripts : list (option string)) (arr1 arr2 : ndarray) (d : nat) :
  text_columns df titles transcripts →
  encode (to_list (Utf8 titles)) = Ok arr1 →
  encode (to_list (Utf8 transcripts)) = Ok arr2 →
  shape0 arr1 = height df → shape0 arr2 = height df →
  shape1 arr1 = d → shape1 arr2 = d →
  (∀ n, n ∈ columns df →
     (n ∉ embedding_columns "title" d) ∧ (n ∉ embedding_columns "transcript" d)) →
  ∃ df', createTextEmbeddings encode df = Ok df' ∧
    DataFrame_ok df' ∧
    height df' = height df ∧
    columns df'
    = columns df ++ (map (λ i, "title_embedding-" +:+ str i) (seq 0 d)
                     ++ map (λ i, "transcript_embedding-" +:+ str i) (seq 0 d)) ∧
    length (columns df') = length (columns df) + 2 * d ∧
    (∀ name s, find_column df name = Some s → find_column df' name = Some s).
Proof.
  intros (Hok & Htitle & Htrans) Henc1 Henc2 Hrows1 Hrows2 Hd1 Hd2 Hfresh.
  pose proof (find_column_Some_nonempty _ _ _ Htitle) as Hne.
  set (df1 := df ++ embedding_frame "title" arr1).
  assert (embed_column encode (Ok df) "title" = Ok df1) as Hstep1.
  { apply (embed_column_spec encode df "title" (Utf8 titles)); try done.
    rewrite Hd1. intros n Hn Hn'. by destruct (Hfresh n Hn'). }
  assert (height df1 = height df) as Hh1 by by apply height_app.
  assert (columns df1 = columns df ++ embedding_columns "title" d) as Hc1.
  { unfold df1, columns. rewrite map_app. f_equal.
    rewrite <- Hd1. apply columns_embedding_frame. }
  assert (DataFrame_ok df1) as Hok1.
  { apply DataFrame_ok_app; try done.
    - rewrite columns_embedding_frame. apply NoDup_embedding_columns.
    - rewrite columns_embedding_frame, Hd1. intros n Hn Hn'.
      by destruct (Hfresh n Hn').
    - rewrite <- Hrows1. apply embedding_frame_lengths. }
  set (df2 := df1 ++ embedding_frame "transcript" arr2).
  assert (∀ n, n ∈ embedding_columns "transcript" d → n ∉ columns df1) as Hfresh2.
  { intros n Hn. rewrite Hc1. intros [Hn'|Hn']%elem_of_app.
    - by destruct (Hfresh n Hn').
    - unfold embedding_columns in Hn, Hn'.
      apply list_elem_of_fmap in Hn as (i & -> & _).
      apply list_elem_of_fmap in Hn' as (j & He & _).
      symmetry in He. by apply title_not_transcript in He. }
  assert (embed_column encode (Ok df1) "transcript" = Ok df2) as Hstep2.
  { apply (embed_column_spec encode df1 "transcript" (Utf8 transcripts)).
    - by apply find_column_app_l.
    - done.
    - congruence.
    - by rewrite Hd2. }
  assert (df1 ≠ []) as Hne1 by (unfold df1; by destruct df).
  exists df2. split; [| split; [| split; [| split; [| split]]]].
  - unfold createTextEmbeddings, column_name_list. cbn [foldl].
    by rewrite Hstep1, Hstep2.
  - apply DataFrame_ok_app; try done.
    + rewrite columns_embedding_frame. apply NoDup_embedding_columns.
    + rewrite columns_embedding_frame, Hd2. apply Hfresh2.
    + rewrite Hh1, <- Hrows2. apply embedding_frame_lengths.
  - unfold df2. rewrite height_app by done. done.
  - unfold df2, columns at 1. rewrite map_app. fold (columns df1).
    fold (columns (embedding_frame "transcript" arr2)).
    rewrite Hc1, columns_embedding_frame, Hd2, <- app_assoc. reflexivity.
  - unfold df2, columns at 1. rewrite map_app. fold (columns df1).
    fold (columns (embedding_frame "transcript" arr2)).
    rewrite Hc1, columns_embedding_frame, Hd2, !length_app,
      !length_embedding_columns. lia.
  - intros name s Hs. by apply find_column_app_l, find_column_app_l.
Qed.

(** C7. On a table with its two text columns, a model that returns one
    row per input string and [d] numbers per row, and no column already
    named like an embedding, the generator returns a table of the same
    height whose columns are those of the input followed by
    [title_embedding-0] ... [title_embedding-(d-1)] and then by
    [transcript_embedding-0] ... [transcript_embedding-(d-1)]: [2 * d]
    columns more, the input columns left as they were. *)
Theorem embedding_columns_appended
    (encode : list pyobj → result ndarray) (df : DataFrame)
    (titles transcripts : list (option string)) (arr1 arr2 : ndarray) (d : nat) :
  text_columns df titles transcripts →
  encode (to_list (Utf8 titles)) = Ok arr1 →
  encode (to_list (Utf8 transcripts)) = Ok arr2 →
  shape0 arr1 = height df → shape0 arr2 = height df →
  shape1 arr1 = d → shape1 arr2 = d →
  (∀ n, n ∈ columns df →
     (n ∉ embedding_columns "title" d) ∧ (n ∉ embedding_columns "transcript" d)) →
  ∃ df', createTextEmbeddings encode df = Ok df' ∧
    DataFrame_ok df' ∧
    height df' = height df ∧
    columns df'
    = columns df ++ (map (λ i, "title_embedding-" +:+ str i) (seq 0 d)
                     ++ map (λ i, "transcript_embedding-" +:+ str i) (seq 0 d)) ∧
    length (columns df') = length (columns df) + 2 * d ∧
    (∀ name s, find_column df name = Some s → find_column df' name = Some s).
Proof. apply createTextEmbeddings_spec. Qed.

(** The four columns of the table stage 4 reads never clash with the
    names it adds, whatever the width. *)
Lemma pipeline_columns_fresh (d : nat) (n : string) :
  n ∈ ["video_id"; "datetime"; "title"; "transcript"] →
  (n ∉ embedding_columns "title" d) ∧ (n ∉ embedding_columns "transcript" d).
Proof.
  intros Hn.
  repeat (apply elem_of_cons in Hn as [->|Hn];
          [split; intros (i & He & _)%list_elem_of_fmap; cbn in He; discriminate |]).
  by apply elem_of_nil in Hn.
Qed.

Lemma embedding_columns_appended_witness :
  ∃ df', createTextEmbeddings demo_encode demo_transcripts = Ok df' ∧
    DataFrame_ok df' ∧
    height df' = 3 ∧
    columns df'
    = ["video_id"; "datetime"; "title"; "transcript";
       "title_embedding-0"; "title_embedding-1";
       "transcript_embedding-0"; "transcript_embedding-1"] ∧
    length (columns df') = 4 + 2 * 2 ∧
    (∀ name s, find_column demo_transcripts name = Some s →
               find_column df' name = Some s).
Proof.
  apply (embedding_columns_appended demo_encode demo_transcripts _ _
           {| shape0 := 3; shape1 := 2; item := λ i j, 0.5%float |}
           {| shape0 := 3; shape1 := 2; item := λ i j, 0.5%float |} 2
           demo_transcripts_text_columns eq_refl eq_refl eq_refl eq_refl
           eq_refl eq_refl (pipeline_columns_fresh 2)).
Defined.

(** ** The pipeline: rows stay in place *)

Lemma same_videos_trans (df1 df2 df3 : DataFrame) :
  same_videos df1 df2 → same_videos df2 df3 → same_videos df1 df3.
Proof.
  intros [Hh1 Hv1] [Hh2 Hv2]. split; [congruence |]. intros ids Hids. auto.
Qed.

Lemma with_columns_same_videos (df df' : DataFrame) (name : string) (s : series) :
  with_columns df name s = Ok df' → df ≠ [] → name ≠ "video_id" →
  same_videos df df'.
Proof.
  intros H Hne Hname. split.
  - rewrite (with_columns_height _ _ _ _ H).
    by apply with_columns_inv in H as [[-> _] | (_ & Hlen & _)].
  - intros ids Hids.
    by rewrite (with_columns_find_ne _ _ _ _ _ H (not_eq_sym Hname)).
Qed.

Lemma replace_in_column_same_videos (df df' : DataFrame) (name : string) (i : nat) :
  replace_in_column df name i = Ok df' → name ≠ "video_id" → same_videos df df'.
Proof.
  unfold replace_in_column, df_column. intros H Hname.
  returned H as col Hcol. returned H as pattern Hp. returned H as value Hv.
  returned H as col' Hcol'.
  destruct (find_column df name) as [s|] eqn:Hs; [| discriminate].
  eapply with_columns_same_videos; [done | by eapply find_column_Some_nonempty | done].
Qed.

Lemma handleSpecialStrings_step_same_videos (acc : result DataFrame) (i : nat)
    (df' : DataFrame) :
  handleSpecialStrings_step acc i = Ok df' →
  ∃ df, acc = Ok df ∧ same_videos df df'.
Proof.
  unfold handleSpecialStrings_step. intros H.
  returned H as df Hacc. returned H as df1 H1. exists df. split; [done |].
  eapply same_videos_trans; by eapply replace_in_column_same_videos.
Qed.

Lemma handleSpecialStrings_same_videos (df df' : DataFrame) :
  handleSpecialStrings df = Ok df' → same_videos df df'.
Proof.
  unfold handleSpecialStrings. cbn [special_strings length seq foldl].
  intros (acc2 & H2 & Hs3)%handleSpecialStrings_step_same_videos.
  apply handleSpecialStrings_step_same_videos in H2 as (acc1 & H1 & Hs2).
  apply handleSpecialStrings_step_same_videos in H1 as (acc0 & [= <-] & Hs1).
  eauto using same_videos_trans.
Qed.

Lemma setDatatypes_same_videos (strptime : string → option Z) (df df' : DataFrame) :
  setDatatypes strptime df = Ok df' → same_videos df df'.
Proof.
  unfold setDatatypes, df_column. intros H.
  returned H as col Hcol. returned H as col' Hcast.
  destruct (find_column df "datetime") as [s|] eqn:Hs; [| discriminate].
  eapply with_columns_same_videos; [done | by eapply find_column_Some_nonempty | done].
Qed.

Lemma transformData_same_videos (strptime : string → option Z) (df df' : DataFrame) :
  transformData strptime df = Ok df' → same_videos df df'.
Proof.
  unfold transformData. intros H. returned H as df1 H1.
  eapply same_videos_trans;
    [by apply handleSpecialStrings_same_videos | by eapply setDatatypes_same_videos].
Qed.

Lemma replace_in_column_ok (df df' : DataFrame) (name : string) (i : nat) :
  DataFrame_ok df → replace_in_column df name i = Ok df' → DataFrame_ok df'.
Proof.
  unfold replace_in_column. intros Hok H.
  returned H as col Hcol. returned H as pattern Hp. returned H as value Hv.
  returned H as col' Hcol'. by eapply with_columns_ok.
Qed.

Lemma handleSpecialStrings_step_ok (acc : result DataFrame) (i : nat)
    (df' : DataFrame) :
  handleSpecialStrings_step acc i = Ok df' →
  ∃ df, acc = Ok df ∧ (DataFrame_ok df → DataFrame_ok df').
Proof.
  unfold handleSpecialStrings_step. intros H.
  returned H as df Hacc. returned H as df1 H1. exists df. split; [done |].
  intros Hok. eapply replace_in_column_ok; [| done].
  by eapply replace_in_column_ok.
Qed.

Lemma handleSpecialStrings_ok (df df' : DataFrame) :
  DataFrame_ok df → handleSpecialStrings df = Ok df' → DataFrame_ok df'.
Proof.
  unfold handleSpecialStrings. cbn [special_strings length seq foldl].
  intros Hok (acc2 & H2 & Hs3)%handleSpecialStrings_step_ok.
  apply handleSpecialStrings_step_ok in H2 as (acc1 & H1 & Hs2).
  apply handleSpecialStrings_step_ok in H1 as (acc0 & [= <-] & Hs1).
  auto.
Qed.

Lemma transformData_ok (strptime : string → option Z) (df df' : DataFrame) :
  DataFrame_ok df → transformData strptime df = Ok df' → DataFrame_ok df'.
Proof.
  unfold transformData, setDatatypes. intros Hok H.
  returned H as df1 H1. returned H as col Hcol. returned H as col' Hcast.
  eapply with_columns_ok; [| done]. by eapply handleSpecialStrings_ok.
Qed.

(** Stage 4 keeps the rows in place when the model keeps its contract;
    a model that returns more rows than it was given strings does not
    (see [taller_model_output_is_padded]). *)
Lemma embed_column_same_videos (encode : list pyobj → result ndarray)
    (acc : result DataFrame) (column_name : string) (df' : DataFrame) :
  one_row_per_string encode →
  embed_column encode acc column_name = Ok df' →
  ∃ df, acc = Ok df ∧ (DataFrame_ok df → same_videos df df' ∧ DataFrame_ok df').
Proof.
  intros Hrows H. destruct acc as [df|]; [| discriminate].
  exists df. split; [done |]. intros Hok.
  apply embed_column_aligned_inv in H
    as (col & arr & Hcol & _ & Hh & Hdisj & ->); [| done | done].
  pose proof (find_column_Some_nonempty _ _ _ Hcol) as Hne.
  split; [split |].
  - by apply height_app.
  - intros ids Hids. by apply find_column_app_l.
  - apply DataFrame_ok_app; try done.
    + rewrite columns_embedding_frame. apply NoDup_embedding_columns.
    + by rewrite columns_embedding_frame.
    + rewrite <- Hh. apply embedding_frame_lengths.
Qed.

Lemma createTextEmbeddings_same_videos (encode : list pyobj → result ndarray)
    (df df' : DataFrame) :
  one_row_per_string encode → DataFrame_ok df →
  createTextEmbeddings encode df = Ok df' → same_videos df df'.
Proof.
  unfold createTextEmbeddings, column_name_list. cbn [foldl].
  intros Hrows Hok (acc1 & H1 & Hs2)%embed_column_same_videos; [| done].
  apply embed_column_same_videos in H1 as (acc0 & [= <-] & Hs1); [| done].
  destruct (Hs1 Hok) as [Hv1 Hok1]. destruct (Hs2 Hok1) as [Hv2 _].
  eauto using same_videos_trans.
Qed.

Lemma getVideoTranscripts_same_videos
    (get_transcript : nat → pyobj → result pyobj) (df df' : DataFrame) :
  getVideoTranscripts get_transcript df = Ok df' → same_videos df df'.
Proof.
  destruct (getVideoTranscripts_spec get_transcript df)
    as (df1 & -> & _ & Hh & Hother & _).
  intros [= <-]. split; [done |]. intros ids Hids. by rewrite Hother.
Qed.

Lemma parse_cells_success (strptime : string → option Z) (cells : list (option string)) :
  Forall (λ c, ∀ s, c = Some s → is_Some (strptime s)) cells →
  ∃ zs, parse_cells strptime cells = Ok zs ∧ length zs = length cells.
Proof.
  induction 1 as [|[s|] cells Hc _ (zs & IH & Hlen)]; cbn [parse_cells].
  - by exists [].
  - destruct (Hc s eq_refl) as [z ->]. rewrite IH, bind_Ok.
    exists (Some z :: zs). cbn. by rewrite Hlen.
  - rewrite IH, bind_Ok. exists (None :: zs). cbn. by rewrite Hlen.
Qed.

Lemma setDatatypes_spec (strptime : string → option Z) (df : DataFrame)
    (cells : list (option string)) :
  DataFrame_ok df → find_column df "datetime" = Some (Utf8 cells) →
  Forall (λ c, ∀ s, c = Some s → is_Some (strptime s)) cells →
  ∃ df' zs, setDatatypes strptime df = Ok df' ∧
    column_set df "datetime" (Datetime zs) df'.
Proof.
  intros Hok Hcol (zs & Hparse & Hlen)%(parse_cells_success strptime).
  unfold setDatatypes, df_column. rewrite Hcol, bind_Ok. cbn [cast_Datetime].
  rewrite Hparse, !bind_Ok.
  destruct (with_columns_existing df "datetime" (Utf8 cells) (Datetime zs))
    as (df' & Hrun & Hset); try done.
  by exists df', zs.
Qed.

(** With the identity table as stage 1 writes it, a parser that accepts
    its timestamps and a model that returns one row of [d] numbers per
    input string, the three later stages all return. *)
Lemma pipeline_completes
    (get_transcript : nat → pyobj → result pyobj)
    (strptime : string → option Z)
    (encode : list pyobj → result ndarray)
    (df0 : DataFrame) (dates titles : list (option string)) (d : nat) :
  DataFrame_ok df0 →
  columns df0 = ["video_id"; "datetime"; "title"] →
  find_column df0 "datetime" = Some (Utf8 dates) →
  find_column df0 "title" = Some (Utf8 titles) →
  Forall (λ c, ∀ s, c = Some s → is_Some (strptime s)) dates →
  (∀ cells, ∃ arr, encode cells = Ok arr ∧
     shape0 arr = length cells ∧ shape1 arr = d) →
  ∃ df1 df2 df3,
    getVideoTranscripts get_transcript df0 = Ok df1 ∧
    transformData strptime df1 = Ok df2 ∧
    createTextEmbeddings encode df2 = Ok df3 ∧
    length (columns df3) = 4 + 2 * d.
Proof.
  intros Hok0 Hcols Hdates Htitles Hparse Hmodel.
  destruct (getVideoTranscripts_spec get_transcript df0)
    as (df1 & Hrun1 & Htr1 & Hh1 & Ho1 & Hok1 & Hc1).
  assert (find_column df0 "transcript" = None) as Hnone.
  { apply find_column_None. rewrite Hcols. apply (bool_decide_unpack _). by vm_compute. }
  rewrite Hnone, Hcols in Hc1. cbn [app] in Hc1.
  set (texts := map Some _) in Htr1.
  assert (text_columns df1 titles texts) as Htext1.
  { split; [by apply Hok1 |]. split; [by rewrite Ho1 | done]. }
  destruct (handleSpecialStrings_spec df1 titles texts Htext1)
    as (df1' & Hclean & (Hok1' & Ht1' & Htr1') & (Hh1' & Hc1' & Ho1')).
  destruct (setDatatypes_spec strptime df1' dates)
    as (df2 & zs & Hcast & Hd2 & Ho2 & Hok2 & Hh2 & Hc2); try done.
  { by rewrite Ho1', Ho1. }
  set (titles2 := map (option_map clean_text) titles) in *.
  set (texts2 := map (option_map clean_text) texts) in *.
  assert (text_columns df2 titles2 texts2) as Htext2.
  { split; [done |]. split; by rewrite Ho2. }
  destruct (Hmodel (to_list (Utf8 titles2))) as (arr1 & Henc1 & Hrows1 & Hwidth1).
  destruct (Hmodel (to_list (Utf8 texts2))) as (arr2 & Henc2 & Hrows2 & Hwidth2).
  destruct (createTextEmbeddings_spec encode df2 titles2 texts2 arr1 arr2 d)
    as (df3 & Hrun3 & _ & _ & _ & Hlen3 & _); try done.
  - rewrite Hrows1. cbn [to_list]. rewrite length_map.
    destruct Htext2 as (? & Ht2 & _).
    by apply (find_column_len df2 "title" (Utf8 titles2)).
  - rewrite Hrows2. cbn [to_list]. rewrite length_map.
    destruct Htext2 as (? & _ & Htr2).
    by apply (find_column_len df2 "transcript" (Utf8 texts2)).
  - rewrite Hc2, Hc1', Hc1. apply pipeline_columns_fresh.
  - exists df1, df2, df3. split; [done |]. split.
    + unfold transformData. by rewrite Hclean, bind_Ok.
    + split; [done |]. by rewrite Hlen3, Hc2, Hc1', Hc1.
Qed.

(** The pipeline after the listing stage, from the identity table to
    the three tables written after it. *)
Lemma demo_pipeline :
  ∃ df1 df2 df3,
    getVideoTranscripts demo_service demo_ids = Ok df1 ∧
    transformData demo_strptime df1 = Ok df2 ∧
    createTextEmbeddings demo_encode df2 = Ok df3 ∧
    find_column df1 "transcript" = Some (Utf8 [Some "a b"; Some "n/a"; Some "c"]) ∧
    find_column df2 "title"
    = Some (Utf8 [Some "Shaw's channel"; Some "Shaw blog"; Some "AI & data"]) ∧
    length (columns df3) = 8 ∧
    find_column df3 "transcript" = Some (Utf8 [Some "a b"; Some "n/a"; Some "c"]).
Proof. do 3 eexists. repeat split; vm_compute; reflexivity. Qed.

Lemma demo_ids_ok : DataFrame_ok demo_ids.
Proof.
  split; [apply (bool_decide_unpack _); by vm_compute | repeat constructor].
Qed.

(** A model that breaks its contract breaks the rows: given more rows
    than there were strings, [pl.concat] fills the table up with nulls,
    and the index is higher than the table it was made from. *)
Example taller_model_output_is_padded :
  ∃ df3,
    createTextEmbeddings
      (λ cells, Ok {| shape0 := S (length cells); shape1 := 1;
                      item := λ i j, 0.5%float |})
      demo_transcripts = Ok df3 ∧
    height demo_transcripts = 3 ∧ height df3 = 5 ∧
    find_column df3 "video_id"
    = Some (Utf8 [Some "v1"; Some "v2"; Some "v3"; None; None]).
Proof. eexists. repeat split; vm_compute; reflexivity. Qed.

(** C2. Whatever the transcript service and the timestamp parser do,
    the fetcher returns a transcript table, and the transcript table and
    the transformed table have as many rows as the identity table and
    the very same [video_id] column; so has the index table, for an
    identity table as polars builds one and an embedding model that
    keeps its contract of one row per input string. Row [i] of each is
    about the video of row [i] of the identity table, none dropped, none
    moved. And with the identity table as stage 1 writes it, timestamps
    that parse and a model that returns one row of [d] numbers per input
    string, all three tables are written. *)
Theorem row_identity_preserved
    (get_transcript : nat → pyobj → result pyobj)
    (strptime : string → option Z)
    (encode : list pyobj → result ndarray)
    (df0 : DataFrame) :
  (∃ df1, getVideoTranscripts get_transcript df0 = Ok df1 ∧
     same_videos df0 df1 ∧
     ∀ df2, transformData strptime df1 = Ok df2 →
       same_videos df0 df2 ∧
       ∀ df3, DataFrame_ok df0 → one_row_per_string encode →
         createTextEmbeddings encode df2 = Ok df3 →
         same_videos df0 df3) ∧
  (∀ (dates titles : list (option string)) (d : nat),
     DataFrame_ok df0 →
     columns df0 = ["video_id"; "datetime"; "title"] →
     find_column df0 "datetime" = Some (Utf8 dates) →
     find_column df0 "title" = Some (Utf8 titles) →
     Forall (λ c, ∀ s, c = Some s → is_Some (strptime s)) dates →
     (∀ cells, ∃ arr, encode cells = Ok arr ∧
        shape0 arr = length cells ∧ shape1 arr = d) →
     ∃ df1 df2 df3,
       getVideoTranscripts get_transcript df0 = Ok df1 ∧
       transformData strptime df1 = Ok df2 ∧
       createTextEmbeddings encode df2 = Ok df3 ∧
       same_videos df0 df3).
Proof.
  split.
  - destruct (getVideoTranscripts_spec get_transcript df0)
      as (df1 & H1 & _ & _ & _ & Hok1 & _).
    pose proof (getVideoTranscripts_same_videos _ _ _ H1) as Hs1.
    exists df1. split; [done |]. split; [done |]. intros df2 H2.
    pose proof (transformData_same_videos _ _ _ H2) as Hs2.
    split; [by eapply same_videos_trans |]. intros df3 Hok Hrows H3.
    pose proof (transformData_ok _ _ _ (Hok1 Hok) H2) as Hok2.
    pose proof (createTextEmbeddings_same_videos _ _ _ Hrows Hok2 H3) as Hs3.
    eauto using same_videos_trans.
  - intros dates titles d Hok Hcols Hdates Htitles Hparse Hmodel.
    destruct (pipeline_completes get_transcript strptime encode df0 dates titles d)
      as (df1 & df2 & df3 & H1 & H2 & H3 & _); try done.
    exists df1, df2, df3. do 3 (split; [done |]).
    destruct (getVideoTranscripts_spec get_transcript df0)
      as (df1' & H1' & _ & _ & _ & Hok1 & _).
    assert (df1' = df1) as -> by congruence.
    apply (same_videos_trans df0 df1); [by eapply getVideoTranscripts_same_videos |].
    apply (same_videos_trans df1 df2); [by eapply transformData_same_videos |].
    apply (createTextEmbeddings_same_videos encode); [| | done].
    + intros cells arr Henc. destruct (Hmodel cells) as (arr' & Henc' & Hr & _).
      congruence.
    + eapply transformData_ok; [| done]. by apply Hok1.
Qed.

Lemma row_identity_preserved_witness :
  ∃ df1 df2 df3,
    getVideoTranscripts demo_service demo_ids = Ok df1 ∧
    transformData demo_strptime df1 = Ok df2 ∧
    createTextEmbeddings demo_encode df2 = Ok df3 ∧
    height df1 = 3 ∧ height df2 = 3 ∧ height df3 = 3 ∧
    find_column df1 "video_id" = Some (Utf8 [Some "v1"; Some "v2"; Some "v3"]) ∧
    find_column df2 "video_id" = Some (Utf8 [Some "v1"; Some "v2"; Some "v3"]) ∧
    find_column df3 "video_id" = Some (Utf8 [Some "v1"; Some "v2"; Some "v3"]) ∧
    find_column df3 "transcript" = Some (Utf8 [Some "a b"; Some "n/a"; Some "c"]).
Proof.
  destruct (row_identity_preserved demo_service demo_strptime demo_encode demo_ids)
    as [(df1 & H1 & [Hh1 Hv1] & Hrest) Hcomplete].
  destruct (Hcomplete
              [Some "2024-01-01T00:00:00Z"; Some "2024-02-01T00:00:00Z";
               Some "2024-03-01T00:00:00Z"]
              [Some "Shaw&#39;s channel"; Some "sha blog"; Some "AI &amp; data"] 2)
    as (df1' & df2 & df3 & H1' & H2 & H3 & _).
  - exact demo_ids_ok.
  - reflexivity.
  - reflexivity.
  - reflexivity.
  - repeat constructor; intros s [= <-]; eexists; reflexivity.
  - intros cells. eexists. repeat split; reflexivity.
  - assert (df1' = df1) as -> by congruence.
    destruct (Hrest df2 H2) as ([Hh2 Hv2] & Hrest').
    destruct (Hrest' df3 demo_ids_ok) as [Hh3 Hv3]; [| done |].
    { intros cells arr [= <-]. reflexivity. }
    exists df1, df2, df3. repeat split; auto.
    destruct demo_pipeline as (d1 & d2 & d3 & E1 & E2 & E3 & _ & _ & _ & Etr).
    congruence.
Defined.

(** * Further properties *)

(** ** The Video Lister beyond the claims *)

Lemma getVideoRecords_loop_well_formed (items : list pyobj) :
  ∀ acc out, getVideoRecords_loop items acc = Ok out →
  Forall item_well_formed items.
Proof.
  induction items as [|it items IH]; intros acc out; cbn [getVideoRecords_loop];
    [constructor |].
  intros H. returned H as kind Hkind. unfold item_well_formed, is_youtube_video.
  destruct (py_ne_str kind "youtube#video") eqn:Hne.
  - constructor; [| by eapply IH]. exists kind. by rewrite Hne.
  - returned H as rec Hrec. constructor; [| by eapply IH].
    exists kind. split; [done |]. intros _. by exists rec.
Qed.

(** X1. A page is turned into records exactly when every item on it lets
    its kind be read and every item of kind video has its id, its date and
    its title: one video item with a field missing makes the whole page
    fail, while the other kinds need nothing but the kind. *)
Theorem getVideoRecords_returns_iff
    (r : response) (page : pyobj) (items : list pyobj) :
  json_loads_text r = Ok page →
  py_getitem page "items" = Ok (PList items) →
  ((∃ recs, getVideoRecords r = Ok recs) ↔ Forall item_well_formed items) ∧
  (¬ Forall item_well_formed items → raised (getVideoRecords r)).
Proof.
  intros Hpage Hitems.
  assert (getVideoRecords r = getVideoRecords_loop items []) as Hrun.
  { unfold getVideoRecords. by rewrite Hpage, bind_Ok, Hitems. }
  assert ((∃ recs, getVideoRecords r = Ok recs) ↔ Forall item_well_formed items) as Hiff.
  { rewrite Hrun. split.
    - intros [recs H]. by eapply getVideoRecords_loop_well_formed.
    - intros Hwf. destruct (getVideoRecords_loop_spec items Hwf []) as (recs & -> & _).
      eauto. }
  split; [done |]. intros Hbad.
  destruct (getVideoRecords r) as [recs|e] eqn:E; [| by exists e].
  destruct Hbad. apply Hiff. eauto.
Qed.

Lemma getVideoRecords_returns_iff_witness :
  ((∃ recs, getVideoRecords
      (demo_page [demo_other "youtube#channel";
                  PDict [("id", PDict [("kind", PStr "youtube#video");
                                       ("videoId", PStr "v1")])]] None) = Ok recs) ↔
   Forall item_well_formed
     [demo_other "youtube#channel";
      PDict [("id", PDict [("kind", PStr "youtube#video"); ("videoId", PStr "v1")])]]) ∧
  (¬ Forall item_well_formed
     [demo_other "youtube#channel";
      PDict [("id", PDict [("kind", PStr "youtube#video"); ("videoId", PStr "v1")])]] →
   raised (getVideoRecords
      (demo_page [demo_other "youtube#channel";
                  PDict [("id", PDict [("kind", PStr "youtube#video");
                                       ("videoId", PStr "v1")])]] None))).
Proof.
  apply (getVideoRecords_returns_iff
           (demo_page [demo_other "youtube#channel";
                       PDict [("id", PDict [("kind", PStr "youtube#video");
                                            ("videoId", PStr "v1")])]] None)
           _ _ eq_refl eq_refl).
Defined.

Lemma getVideoIDs_loop_mock_abort (pre : list response) :
  ∀ bad rest recss e fuel tok acc,
  py_ne_zero tok = true →
  Forall has_next_page pre →
  Forall2 (λ p recs, getVideoRecords p = Ok recs) pre recss →
  getVideoRecords bad = Raise e →
  length pre < fuel →
  getVideoIDs_loop mock_get fuel (pre ++ bad :: rest) tok acc = Some (Raise e, rest).
Proof.
  induction pre as [|p pre IH]; intros bad rest recss e [|fuel] tok acc Htok Hpre Hrecs Hbad Hfuel;
    cbn in Hfuel; try lia; cbn [getVideoIDs_loop app mock_get]; rewrite Htok.
  - by rewrite Hbad.
  - apply Forall2_cons_inv_l in Hrecs as (recs & recss' & Hrecs & Hrest & ->).
    rewrite Hrecs. apply Forall_cons in Hpre as [(tok' & -> & Htok') Hpre].
    cbn [try_except]. apply (IH bad rest recss'); try done. lia.
Qed.

(** X2. A page that cannot be turned into records (an error body without
    [items], an unparsable body, a malformed video item) aborts the
    listing with the exception of that page: the rows of the pages read
    before it are not returned, so nothing is written, and the pages after
    it are not requested. *)
Theorem getVideoIDs_aborts_on_failing_page
    (pre : list response) (bad : response) (rest : list response)
    (recss : list (list video_record)) (e : exn) (fuel : nat) :
  Forall has_next_page pre →
  Forall2 (λ p recs, getVideoRecords p = Ok recs) pre recss →
  getVideoRecords bad = Raise e →
  length pre < fuel →
  getVideoIDs mock_get fuel (pre ++ bad :: rest) = Some (Raise e, rest).
Proof.
  intros Hpre Hrecs Hbad Hfuel. unfold getVideoIDs.
  by apply (getVideoIDs_loop_mock_abort pre bad rest recss).
Qed.

Lemma getVideoIDs_aborts_on_failing_page_witness :
  getVideoIDs mock_get 2
    ([demo_page [demo_video "v1" "t1"] (Some "CAUQAA")] ++
     {| json_loads_text := Ok (PDict [("error", PDict [("code", PInt 403)])]) |} ::
     [demo_page [demo_video "v2" "t2"] None])
  = Some (Raise (KeyError (PStr "items")), [demo_page [demo_video "v2" "t2"] None]).
Proof.
  apply (getVideoIDs_aborts_on_failing_page
           [demo_page [demo_video "v1" "t1"] (Some "CAUQAA")] _ _
           [[demo_record "v1" "t1"]]).
  - repeat constructor. exists (PStr "CAUQAA"). split; reflexivity.
  - repeat constructor.
  - reflexivity.
  - cbn. lia.
Defined.

Lemma getVideoIDs_loop_unbounded (api : pyobj → response) (P : pyobj → Prop) :
  (∀ tok, P tok →
     py_ne_zero tok = true ∧
     (∃ recs, getVideoRecords (api tok) = Ok recs) ∧
     ∃ tok', next_page_token (api tok) = Ok tok' ∧ P tok') →
  ∀ fuel tok acc, P tok →
    getVideoIDs_loop (stateless_get api) fuel tt tok acc = None.
Proof.
  intros Hstep. induction fuel as [|fuel IH]; intros tok acc Htok; [done |].
  destruct (Hstep tok Htok) as (Hne & [recs Hrecs] & tok' & Hnext & Htok').
  cbn [getVideoIDs_loop stateless_get]. rewrite Hne, Hrecs, Hnext.
  cbn [try_except]. by apply IH.
Qed.

(** X3. The loop has no bound of its own and does not notice a token it
    has already sent. Against an API that answers by the token alone, if
    the tokens reachable from the first request all lead to a readable
    page with a further token (a [null] token, which asks for the first
    page again, or any cycle), the loop never ends, however long it is
    run. *)
Theorem getVideoIDs_never_ends_on_a_token_cycle
    (api : pyobj → response) (P : pyobj → Prop) :
  P PNone →
  (∀ tok, P tok →
     py_ne_zero tok = true ∧
     (∃ recs, getVideoRecords (api tok) = Ok recs) ∧
     ∃ tok', next_page_token (api tok) = Ok tok' ∧ P tok') →
  ∀ fuel, getVideoIDs (stateless_get api) fuel tt = None.
Proof.
  intros Hstart Hstep fuel. unfold getVideoIDs.
  by apply (getVideoIDs_loop_unbounded api P).
Qed.

Lemma getVideoIDs_never_ends_on_a_token_cycle_witness :
  getVideoIDs
    (stateless_get (λ _, {| json_loads_text :=
       Ok (PDict [("items", PList [demo_video "v1" "t1"]);
                  ("nextPageToken", PNone)]) |}))
    500 tt = None.
Proof.
  apply (getVideoIDs_never_ends_on_a_token_cycle _ (λ tok, tok = PNone) eq_refl).
  intros tok ->. split; [reflexivity |]. split; [by eexists |].
  exists PNone. by split.
Defined.

Lemma getVideoIDs_loop_recording (pre : list response) :
  ∀ toks last rest recss fuel tok acc sent,
  py_ne_zero tok = true →
  Forall2 (λ p t, next_page_token p = Ok t ∧ py_ne_zero t = true) pre toks →
  raised (next_page_token last) →
  Forall2 (λ p recs, getVideoRecords p = Ok recs) (pre ++ [last]) recss →
  S (length pre) < fuel →
  getVideoIDs_loop recording_get fuel (pre ++ last :: rest, sent) tok acc
  = Some (Ok (acc ++ concat recss), (rest, sent ++ tok :: toks)).
Proof.
  induction pre as [|p pre IH];
    intros toks last rest recss [|fuel] tok acc sent Htok Htoks Hlast Hrecs Hfuel;
    cbn in Hfuel; try lia; cbn [getVideoIDs_loop app recording_get fst snd];
    rewrite Htok.
  - apply Forall2_nil_inv_l in Htoks as ->.
    apply Forall2_cons_inv_l in Hrecs as (recs & recss' & Hrecs & ->%Forall2_nil_inv_l & ->).
    rewrite Hrecs. destruct Hlast as [e ->]. cbn [try_except].
    destruct fuel; [lia |]. cbn. by rewrite app_nil_r.
  - apply Forall2_cons_inv_l in Htoks as (t & toks' & [Ht Htne] & Htoks & ->).
    cbn in Hrecs.
    apply Forall2_cons_inv_l in Hrecs as (recs & recss' & Hrecs & Hrest & ->).
    rewrite Hrecs, Ht. cbn [try_except].
    rewrite (IH toks' last rest recss'); try done; [| lia].
    cbn [concat]. by rewrite <- !app_assoc.
Qed.

(** X4. The cursor is threaded faithfully: the first request carries no
    token, every later request carries the [nextPageToken] of the page
    just read, and there is exactly one request per page consumed. *)
Theorem getVideoIDs_sends_each_token_once
    (pre : list response) (toks : list pyobj) (last : response)
    (rest : list response) (recss : list (list video_record)) (fuel : nat) :
  Forall2 (λ p t, next_page_token p = Ok t ∧ py_ne_zero t = true) pre toks →
  raised (next_page_token last) →
  Forall2 (λ p recs, getVideoRecords p = Ok recs) (pre ++ [last]) recss →
  S (length pre) < fuel →
  getVideoIDs recording_get fuel (pre ++ last :: rest, [])
  = Some (Ok (concat recss), (rest, PNone :: toks)).
Proof.
  intros Htoks Hlast Hrecs Hfuel. unfold getVideoIDs.
  by rewrite (getVideoIDs_loop_recording pre toks last rest recss).
Qed.

Lemma getVideoIDs_sends_each_token_once_witness :
  getVideoIDs recording_get 4
    ([demo_page [demo_video "v1" "t1"] (Some "CAUQAA");
      demo_page [demo_video "v2" "t2"] (Some "CGQQAA")] ++
     demo_page [demo_video "v3" "t3"] None :: [], [])
  = Some (Ok (concat [[demo_record "v1" "t1"]; [demo_record "v2" "t2"];
                      [demo_record "v3" "t3"]]),
          ([], [PNone; PStr "CAUQAA"; PStr "CGQQAA"])).
Proof.
  apply (getVideoIDs_sends_each_token_once
           [demo_page [demo_video "v1" "t1"] (Some "CAUQAA");
            demo_page [demo_video "v2" "t2"] (Some "CGQQAA")]
           [PStr "CAUQAA"; PStr "CGQQAA"]
           (demo_page [demo_video "v3" "t3"] None) []
           [[demo_record "v1" "t1"]; [demo_record "v2" "t2"];
            [demo_record "v3" "t3"]]).
  - repeat constructor.
  - exists (KeyError (PStr "nextPageToken")). reflexivity.
  - repeat constructor.
  - cbn. lia.
Defined.

(** ** The Transcript Fetcher beyond the claims *)

Lemma comprehension_inv {A} (f : nat → result A) (indices : list nat) :
  ∀ xs, comprehension f indices = Ok xs → Forall2 (λ i x, f i = Ok x) indices xs.
Proof.
  induction indices as [|i indices IH]; intros xs H; cbn [comprehension] in H.
  - injection H as <-. constructor.
  - returned H as x Hx. returned H as xs' Hxs. injection H as <-.
    constructor; [done | by apply IH].
Qed.

Lemma str_join_inv (sep : string) (l : list pyobj) :
  ∀ s, str_join sep l = Ok s → ∃ texts, l = map PStr texts.
Proof.
  induction l as [|x l IH]; intros s H; [by exists [] |].
  destruct x as [| | | |t| | |]; try (by destruct l).
  destruct l as [|y l]; [by exists [t] |].
  cbn [str_join] in H. returned H as tl Htl.
  destruct (IH tl Htl) as [texts ->]. by exists (t :: texts).
Qed.

Lemma extractTranscriptText_Ok_has_text (frags : list pyobj) (s : string) :
  extractTranscriptText (PList frags) = Ok s → Forall has_text frags.
Proof.
  unfold extractTranscriptText. cbn [py_len]. rewrite bind_Ok. intros H.
  returned H as text_list Htexts.
  apply comprehension_inv in Htexts. apply str_join_inv in H as [texts ->].
  apply Forall_lookup. intros i frag Hfrag.
  assert (i < length frags) as Hi by by eapply lookup_lt_Some.
  destruct (Forall2_lookup_l _ _ _ i i Htexts) as (x & Hx & Hfx);
    [by apply lookup_seq_lt |].
  cbn [py_getitem_int] in Hfx. rewrite Hfrag, bind_Ok in Hfx.
  apply list_lookup_fmap_Some in Hx as (t & -> & _). by exists t.
Qed.

Lemma has_text_texts (frags : list pyobj) :
  Forall has_text frags →
  ∃ texts, Forall2 (λ frag t, py_getitem frag "text" = Ok (PStr t)) frags texts.
Proof.
  induction 1 as [|frag frags [t Ht] _ [texts IH]]; [by exists [] |].
  exists (t :: texts). by constructor.
Qed.

Lemma extractTranscriptText_raises (frags : list pyobj) :
  ¬ Forall has_text frags → raised (extractTranscriptText (PList frags)).
Proof.
  intros Hbad. destruct (extractTranscriptText (PList frags)) as [s|e] eqn:E;
    [| by exists e].
  destruct Hbad. by eapply extractTranscriptText_Ok_has_text.
Qed.

(** X5. [extractTranscriptText] returns a text exactly when every
    fragment of the list is a dict with a string under ["text"]; a single
    fragment without it, or with something else than a string there,
    makes the call raise, whatever the other fragments hold. *)
Theorem extractTranscriptText_returns_iff (frags : list pyobj) :
  ((∃ s, extractTranscriptText (PList frags) = Ok s) ↔ Forall has_text frags) ∧
  (raised (extractTranscriptText (PList frags)) ↔ ¬ Forall has_text frags).
Proof.
  assert ((∃ s, extractTranscriptText (PList frags) = Ok s) ↔ Forall has_text frags)
    as Hiff.
  { split.
    - intros [s H]. by eapply extractTranscriptText_Ok_has_text.
    - intros [texts H]%has_text_texts. eexists.
      by apply extractTranscriptText_fragments. }
  split; [done |]. split.
  - intros [e He] [s Hs]%Hiff. congruence.
  - apply extractTranscriptText_raises.
Qed.

Lemma append_assoc (a b c : string) : (a +:+ b) +:+ c = a +:+ b +:+ c.
Proof.
  induction a as [|x a IH]; [done |].
  change (String x ((a +:+ b) +:+ c) = String x (a +:+ b +:+ c)). by rewrite IH.
Qed.

Lemma concat_app_nonempty (sep : string) (l1 l2 : list string) :
  l1 ≠ [] → l2 ≠ [] →
  String.concat sep (l1 ++ l2)
  = String.concat sep l1 +:+ sep +:+ String.concat sep l2.
Proof.
  intros H1 H2. induction l1 as [|x l1 IH]; [done |].
  destruct l1 as [|y l1].
  - cbn [app]. destruct l2 as [|z l2]; [done |]. reflexivity.
  - cbn [app String.concat] in *. rewrite IH by done.
    by rewrite !append_assoc.
Qed.

(** X6. Transcripts compose: the text of two non-empty fragment lists
    put end to end is the text of the first, one space, and the text of
    the second. Nothing is trimmed or merged at the seam. *)
Theorem extractTranscriptText_app (a b : list pyobj) :
  Forall has_text a → Forall has_text b → a ≠ [] → b ≠ [] →
  ∃ sa sb,
    extractTranscriptText (PList a) = Ok sa ∧
    extractTranscriptText (PList b) = Ok sb ∧
    extractTranscriptText (PList (a ++ b)) = Ok (sa +:+ " " +:+ sb).
Proof.
  intros [ta Ha]%has_text_texts [tb Hb]%has_text_texts Hna Hnb.
  exists (String.concat " " ta), (String.concat " " tb).
  split; [by apply extractTranscriptText_fragments |].
  split; [by apply extractTranscriptText_fragments |].
  rewrite (extractTranscriptText_fragments (a ++ b) (ta ++ tb))
    by by apply Forall2_app.
  f_equal. apply concat_app_nonempty.
  - intros ->. apply Forall2_nil_inv_r in Ha. done.
  - intros ->. apply Forall2_nil_inv_r in Hb. done.
Qed.

Lemma extractTranscriptText_app_witness :
  ∃ sa sb,
    extractTranscriptText (PList [demo_fragment "so"; demo_fragment "today"]) = Ok sa ∧
    extractTranscriptText (PList [demo_fragment ""; demo_fragment "we"]) = Ok sb ∧
    extractTranscriptText
      (PList ([demo_fragment "so"; demo_fragment "today"] ++
              [demo_fragment ""; demo_fragment "we"]))
    = Ok (sa +:+ " " +:+ sb).
Proof.
  apply (extractTranscriptText_app [demo_fragment "so"; demo_fragment "today"]
           [demo_fragment ""; demo_fragment "we"]).
  - repeat constructor; eexists; reflexivity.
  - repeat constructor; eexists; reflexivity.
  - discriminate.
  - discriminate.
Defined.

Lemma map_seq_const {A} (f : nat → A) (x : A) (start len : nat) :
  (∀ i, f i = x) → map f (seq start len) = replicate len x.
Proof.
  intros Hf. revert start. induction len as [|len IH]; intros start; [done |].
  cbn. by rewrite Hf, IH.
Qed.

(** X7. The lookup of the [video_id] column sits inside the [try]: on a
    table without that column the fetcher does not fail, it records the
    sentinel in every row. *)
Theorem missing_video_id_column_gives_sentinels
    (get_transcript : nat → pyobj → result pyobj) (df : DataFrame) :
  find_column df "video_id" = None →
  ∃ df', getVideoTranscripts get_transcript df = Ok df' ∧
    df_column df' "transcript" = Ok (Utf8 (replicate (height df) (Some "n/a"))) ∧
    height df' = height df.
Proof.
  intros Hnone.
  destruct (getVideoTranscripts_spec get_transcript df)
    as (df' & Hrun & Hcol & Hheight & _).
  exists df'. split; [done |]. split; [| done].
  unfold df_column. rewrite Hcol. do 2 f_equal.
  rewrite map_map. apply map_seq_const. intros i.
  unfold fetch_transcript_text, df_column. by rewrite Hnone.
Qed.

Lemma missing_video_id_column_gives_sentinels_witness :
  ∃ df', getVideoTranscripts demo_service
           [("id", Utf8 [Some "v1"; Some "v2"]); ("title", Utf8 [Some "a"; Some "b"])]
         = Ok df' ∧
    df_column df' "transcript" = Ok (Utf8 (replicate 2 (Some "n/a"))) ∧
    height df' = 2.
Proof.
  apply (missing_video_id_column_gives_sentinels demo_service
           [("id", Utf8 [Some "v1"; Some "v2"]); ("title", Utf8 [Some "a"; Some "b"])]).
  reflexivity.
Defined.

(** X8. The sentinel does not only mean that the service failed: when
    the service answers with fragments of which one has no string under
    ["text"], the whole transcript of that video is dropped and the row
    holds ["n/a"], the texts of its other fragments included. *)
Theorem malformed_fragment_gives_sentinel
    (get_transcript : nat → pyobj → result pyobj) (df : DataFrame)
    (ids : series) (i : nat) (vid : pyobj) (frags : list pyobj) :
  i < height df →
  df_column df "video_id" = Ok ids →
  series_getitem ids i = Ok vid →
  get_transcript i vid = Ok (PList frags) →
  ¬ Forall has_text frags →
  ∃ df' texts,
    getVideoTranscripts get_transcript df = Ok df' ∧
    df_column df' "transcript" = Ok (Utf8 (map Some texts)) ∧
    texts !! i = Some "n/a".
Proof.
  intros Hi Hids Hvid Hcall Hbad.
  destruct (getVideoTranscripts_rows get_transcript df)
    as (df' & texts & Hrun & Hcol & _ & _ & Hrows).
  exists df', texts. split; [done |]. split; [done |].
  rewrite (Hrows i Hi). unfold fetch_transcript_text.
  rewrite Hids, bind_Ok, Hvid, bind_Ok, Hcall, bind_Ok.
  by destruct (extractTranscriptText_raises frags Hbad) as [e ->].
Qed.

Lemma malformed_fragment_gives_sentinel_witness :
  ∃ df' texts,
    getVideoTranscripts
      (λ _ _, Ok (PList [demo_fragment "hello"; PDict [("start", PFloat 1)]]))
      demo_ids = Ok df' ∧
    df_column df' "transcript" = Ok (Utf8 (map Some texts)) ∧
    texts !! 0 = Some "n/a".
Proof.
  apply (malformed_fragment_gives_sentinel
           (λ _ _, Ok (PList [demo_fragment "hello"; PDict [("start", PFloat 1)]]))
           demo_ids (Utf8 [Some "v1"; Some "v2"; Some "v3"]) 0 (PStr "v1")
           [demo_fragment "hello"; PDict [("start", PFloat 1)]]).
  - cbn. lia.
  - reflexivity.
  - reflexivity.
  - reflexivity.
  - intros H. apply Forall_cons in H as [_ H]. apply Forall_cons in H as [[t Ht] _].
    discriminate.
Defined.

Lemma with_columns_same (df : DataFrame) (name : string) (s : series) :
  find_column df name = Some s → series_len s = height df →
  with_columns df name s = Ok df.
Proof.
  intros Hf Hlen. unfold with_columns. destruct df as [|c df]; [discriminate Hf |].
  rewrite Hlen, Nat.eqb_refl, Hf. cbn [negb]. by rewrite replace_column_id.
Qed.

Lemma fetch_transcript_text_same_ids
    (get_transcript : nat → pyobj → result pyobj) (df df' : DataFrame) (i : nat) :
  find_column df' "video_id" = find_column df "video_id" →
  fetch_transcript_text get_transcript df' i = fetch_transcript_text get_transcript df i.
Proof. intros H. unfold fetch_transcript_text, df_column. by rewrite H. Qed.

(** X9. Fetching again changes nothing: run on its own output, with a
    service that answers as before, the fetcher returns that very table.
    The [transcript] column is replaced where it stands; the first run
    puts it to the right of the other columns when the table had none. *)
Theorem getVideoTranscripts_again
    (get_transcript : nat → pyobj → result pyobj) (df : DataFrame) :
  ∃ df1, getVideoTranscripts get_transcript df = Ok df1 ∧
    getVideoTranscripts get_transcript df1 = Ok df1 ∧
    columns df1 = match find_column df "transcript" with
                  | Some _ => columns df
                  | None => columns df ++ ["transcript"]
                  end.
Proof.
  destruct (getVideoTranscripts_spec get_transcript df)
    as (df1 & Hrun & Hcol & Hheight & Hother & _ & Hcols).
  exists df1. split; [done |]. split; [| done].
  unfold getVideoTranscripts. rewrite foldl_fetch_step. cbn [app].
  rewrite Hheight.
  rewrite (map_ext _ (λ i, try_except (fetch_transcript_text get_transcript df i) "n/a")).
  2: { intros i. rewrite (fetch_transcript_text_same_ids _ df df1); [done |].
       by apply Hother. }
  apply with_columns_same; [done |].
  cbn [series_len]. by rewrite !length_map, length_seq.
Qed.

(** ** The Data Transformer beyond the claims *)

Lemma prefix_cons (c c' : ascii) (p s : string) :
  String.prefix (String c p) (String c' s)
  = if Ascii.eqb c c' then String.prefix p s else false.
Proof.
  cbn [String.prefix]. destruct (ascii_dec c c') as [->|Hne].
  - by rewrite Ascii.eqb_refl.
  - apply Ascii.eqb_neq in Hne. by rewrite Hne.
Qed.

Lemma prefix_split (p s : string) :
  String.prefix p s = true → s = p +:+ string_drop (String.length p) s.
Proof.
  revert s. induction p as [|c p IH]; intros s; [by destruct s |].
  destruct s as [|c' s]; [discriminate |]. rewrite prefix_cons.
  destruct (Ascii.eqb_spec c c') as [->|]; [| discriminate].
  intros H. cbn [String.length string_drop].
  change (String c' s = String c' (p +:+ string_drop (String.length p) s)).
  by rewrite <- IH.
Qed.

Lemma str_replace_once (pattern value s : string) :
  rewrites_once pattern value s (str_replace pattern value s).
Proof.
  unfold rewrites_once. induction s as [|c s IH]; cbn [contains str_replace].
  - destruct (String.prefix pattern "") eqn:Hp; [| done]. cbn [orb].
    exists "", (string_drop (String.length pattern) "").
    split; [| done]. by apply prefix_split.
  - destruct (String.prefix pattern (String c s)) eqn:Hp; cbn [orb].
    + exists "", (string_drop (String.length pattern) (String c s)).
      split; [| done]. by apply prefix_split.
    + destruct (contains pattern s); [| by rewrite IH].
      destruct IH as (a & b & -> & ->). by exists (String c a), b.
Qed.

Lemma length_append (a b : string) :
  String.length (a +:+ b) = String.length a + String.length b.
Proof.
  induction a as [|c a IH]; [done |].
  change (S (String.length (a +:+ b)) = S (String.length a + String.length b)).
  by rewrite IH.
Qed.

Lemma rewrites_once_length (pattern value s s' : string) :
  rewrites_once pattern value s s' →
  String.length s' = String.length s ∨
  String.length s' + String.length pattern = String.length s + String.length value.
Proof.
  unfold rewrites_once. destruct (contains pattern s).
  - intros (a & b & -> & ->). right. rewrite !length_append. lia.
  - intros ->. by left.
Qed.

Lemma clean_text_cleaned (s : string) : cell_cleaned (Some s) (Some (clean_text s)).
Proof.
  exists (str_replace "&#39;" "'" s),
         (str_replace "&amp;" "&" (str_replace "&#39;" "'" s)).
  repeat split; apply str_replace_once.
Qed.

Lemma cell_cleaned_length (c c' : option string) :
  cell_cleaned c c' → cell_length_close c c'.
Proof.
  destruct c as [s|], c' as [s'|]; try done.
  intros (s1 & s2 & H1%rewrites_once_length & H2%rewrites_once_length
          & H3%rewrites_once_length).
  change (String.length "&#39;") with 5 in H1.
  change (String.length "'") with 1 in H1.
  change (String.length "&amp;") with 5 in H2.
  change (String.length "&") with 1 in H2.
  change (String.length "sha ") with 4 in H3.
  change (String.length "Shaw ") with 5 in H3.
  unfold cell_length_close. lia.
Qed.

Lemma Forall2_cleaned (cells : list (option string)) :
  Forall2 (λ c c', cell_cleaned c c' ∧ cell_length_close c c')
          cells (map (option_map clean_text) cells).
Proof.
  induction cells as [|[s|] cells IH]; constructor; try done.
  split; [apply clean_text_cleaned | apply cell_cleaned_length, clean_text_cleaned].
Qed.

(** X10. One pass rewrites at most one occurrence of each special string
    per cell, and exactly one when the string occurs: every title and
    every transcript of the output is the input cell after one rewriting
    of ["&#39;"], then one of ["&amp;"], then one of ["sha "]; further
    occurrences stay. So a cell shrinks by at most eight bytes and grows
    by at most one, and a null cell stays null. *)
Theorem handleSpecialStrings_one_rewrite_per_string (df : DataFrame)
    (titles transcripts : list (option string)) :
  text_columns df titles transcripts →
  ∃ df' titles' transcripts',
    handleSpecialStrings df = Ok df' ∧
    find_column df' "title" = Some (Utf8 titles') ∧
    find_column df' "transcript" = Some (Utf8 transcripts') ∧
    Forall2 (λ c c', cell_cleaned c c' ∧ cell_length_close c c') titles titles' ∧
    Forall2 (λ c c', cell_cleaned c c' ∧ cell_length_close c c')
            transcripts transcripts'.
Proof.
  intros H0.
  destruct (handleSpecialStrings_spec df titles transcripts H0)
    as (df' & Hrun & (_ & Ht & Htr) & _).
  exists df', (map (option_map clean_text) titles),
    (map (option_map clean_text) transcripts).
  do 3 (split; [done |]). split; apply Forall2_cleaned.
Qed.

Lemma handleSpecialStrings_one_rewrite_per_string_witness :
  ∃ df' titles' transcripts',
    handleSpecialStrings
      [("title", Utf8 [Some "sha &amp; sha &amp; co"; None]);
       ("transcript", Utf8 [Some "it&#39;s"; Some "n/a"])] = Ok df' ∧
    find_column df' "title" = Some (Utf8 titles') ∧
    find_column df' "transcript" = Some (Utf8 transcripts') ∧
    Forall2 (λ c c', cell_cleaned c c' ∧ cell_length_close c c')
            [Some "sha &amp; sha &amp; co"; None] titles' ∧
    Forall2 (λ c c', cell_cleaned c c' ∧ cell_length_close c c')
            [Some "it&#39;s"; Some "n/a"] transcripts'.
Proof.
  apply (handleSpecialStrings_one_rewrite_per_string
           [("title", Utf8 [Some "sha &amp; sha &amp; co"; None]);
            ("transcript", Utf8 [Some "it&#39;s"; Some "n/a"])]).
  split; [| by split]. split.
  - apply (bool_decide_unpack _). by vm_compute.
  - repeat constructor.
Defined.

Lemma parse_cells_Ok (strptime : string → option Z) (cells : list (option string)) :
  Forall (λ c, ∀ s, c = Some s → is_Some (strptime s)) cells →
  parse_cells strptime cells = Ok (map (λ c, c ≫= strptime) cells).
Proof.
  induction 1 as [|[s|] cells Hc _ IH]; cbn [parse_cells map]; [done | |].
  - destruct (Hc s eq_refl) as [z Hz]. cbn [mbind option_bind].
    by rewrite Hz, IH.
  - by rewrite IH.
Qed.

Lemma parse_cells_raises (strptime : string → option Z) (cells : list (option string)) :
  Exists (λ c, ∃ s, c = Some s ∧ strptime s = None) cells →
  parse_cells strptime cells = Raise ComputeError.
Proof.
  induction 1 as [c cells (s & -> & Hs) | c cells _ IH]; cbn [parse_cells].
  - by rewrite Hs.
  - destruct c as [s|]; [destruct (strptime s) |]; by rewrite ?IH.
Qed.

Lemma transformData_spec (strptime : string → option Z) (df : DataFrame)
    (titles transcripts dates : list (option string)) :
  text_columns df titles transcripts →
  find_column df "datetime" = Some (Utf8 dates) →
  Forall (λ c, ∀ s, c = Some s → is_Some (strptime s)) dates →
  ∃ df', transformData strptime df = Ok df' ∧
    text_columns df' (map (option_map clean_text) titles)
                     (map (option_map clean_text) transcripts) ∧
    find_column df' "datetime" = Some (Datetime (map (λ c, c ≫= strptime) dates)) ∧
    (∀ other, other ≠ "title" → other ≠ "transcript" → other ≠ "datetime" →
       find_column df' other = find_column df other) ∧
    columns df' = columns df ∧ height df' = height df.
Proof.
  intros Htext Hdates Hparse.
  destruct (handleSpecialStrings_spec df titles transcripts Htext)
    as (df1 & Hclean & (Hok1 & Ht1 & Htr1) & (Hh1 & Hc1 & Ho1)).
  assert (find_column df1 "datetime" = Some (Utf8 dates)) as Hd1 by by rewrite Ho1.
  destruct (with_columns_existing df1 "datetime" (Utf8 dates)
              (Datetime (map (λ c, c ≫= strptime) dates)))
    as (df2 & Hset & Hd2 & Ho2 & Hok2 & Hh2 & Hc2); try done.
  { cbn. by rewrite length_map. }
  exists df2. split.
  { unfold transformData, setDatatypes, df_column.
    rewrite Hclean, bind_Ok, Hd1, bind_Ok. cbn [cast_Datetime].
    by rewrite (parse_cells_Ok strptime dates Hparse), !bind_Ok. }
  split; [split; [done |]; split; by rewrite Ho2 |].
  split; [done |]. split.
  - intros other H1 H2 H3. by rewrite Ho2, Ho1.
  - split; congruence.
Qed.

(** X11. What stage 3 makes of a table, column by column: titles and
    transcripts are cleaned cell by cell, every timestamp is replaced by
    what the parser reads in it (a null stays null), all other columns
    are untouched, and the table keeps its height, its column names and
    their order; no column is added or dropped. *)
Theorem transformData_column_by_column (strptime : string → option Z)
    (df : DataFrame) (titles transcripts dates : list (option string)) :
  text_columns df titles transcripts →
  find_column df "datetime" = Some (Utf8 dates) →
  Forall (λ c, ∀ s, c = Some s → is_Some (strptime s)) dates →
  ∃ df', transformData strptime df = Ok df' ∧
    find_column df' "title" = Some (Utf8 (map (option_map clean_text) titles)) ∧
    find_column df' "transcript"
    = Some (Utf8 (map (option_map clean_text) transcripts)) ∧
    find_column df' "datetime" = Some (Datetime (map (λ c, c ≫= strptime) dates)) ∧
    (∀ other, other ≠ "title" → other ≠ "transcript" → other ≠ "datetime" →
       find_column df' other = find_column df other) ∧
    columns df' = columns df ∧ height df' = height df ∧ DataFrame_ok df'.
Proof.
  intros Htext Hdates Hparse.
  destruct (transformData_spec strptime df titles transcripts dates)
    as (df' & Hrun & (Hok & Ht & Htr) & Hd & Ho & Hc & Hh); try done.
  by exists df'.
Qed.

Lemma transformData_column_by_column_witness :
  ∃ df', transformData demo_strptime demo_transcripts = Ok df' ∧
    find_column df' "title"
    = Some (Utf8 [Some "Shaw's channel"; Some "Shaw blog"; Some "AI & data"]) ∧
    find_column df' "transcript" = Some (Utf8 [Some "a b"; Some "n/a"; Some "c"]) ∧
    find_column df' "datetime" = Some (Datetime [Some 20%Z; Some 20%Z; Some 20%Z]) ∧
    (∀ other, other ≠ "title" → other ≠ "transcript" → other ≠ "datetime" →
       find_column df' other = find_column demo_transcripts other) ∧
    columns df' = ["video_id"; "datetime"; "title"; "transcript"] ∧
    height df' = 3 ∧ DataFrame_ok df'.
Proof.
  apply (transformData_column_by_column demo_strptime demo_transcripts _ _
           [Some "2024-01-01T00:00:00Z"; Some "2024-02-01T00:00:00Z";
            Some "2024-03-01T00:00:00Z"]
           demo_transcripts_text_columns eq_refl).
  repeat constructor; intros s [= <-]; eexists; reflexivity.
Defined.

(** X12. The cast is strict and stage 3 is all or nothing: one timestamp
    the parser rejects makes [transformData] raise, and no table comes
    back, not even with the texts cleaned. *)
Theorem transformData_rejects_a_bad_timestamp (strptime : string → option Z)
    (df : DataFrame) (titles transcripts dates : list (option string)) :
  text_columns df titles transcripts →
  find_column df "datetime" = Some (Utf8 dates) →
  Exists (λ c, ∃ s, c = Some s ∧ strptime s = None) dates →
  transformData strptime df = Raise ComputeError.
Proof.
  intros Htext Hdates Hbad.
  destruct (handleSpecialStrings_spec df titles transcripts Htext)
    as (df1 & Hclean & _ & (_ & _ & Ho1)).
  unfold transformData, setDatatypes, df_column.
  rewrite Hclean, bind_Ok, Ho1, Hdates, bind_Ok by done. cbn [cast_Datetime].
  by rewrite (parse_cells_raises strptime dates Hbad).
Qed.

Lemma transformData_rejects_a_bad_timestamp_witness :
  transformData (λ s, if String.eqb s "yesterday" then None else Some 0%Z)
    [("datetime", Utf8 [Some "2024-01-01T00:00:00Z"; Some "yesterday"]);
     ("title", Utf8 [Some "a"; Some "b"]);
     ("transcript", Utf8 [Some "c"; Some "d"])]
  = Raise ComputeError.
Proof.
  apply (transformData_rejects_a_bad_timestamp _ _
           [Some "a"; Some "b"] [Some "c"; Some "d"]
           [Some "2024-01-01T00:00:00Z"; Some "yesterday"]).
  - split; [| by split]. split; [apply (bool_decide_unpack _); by vm_compute |].
    repeat constructor.
  - reflexivity.
  - apply Exists_cons_tl, Exists_cons_hd. by exists "yesterday".
Defined.

(** X13. Stage 3 can be run again on the file it has overwritten: when
    the cleaned texts are free of the special strings, transforming the
    transformed table returns it unchanged. The timestamps, already
    parsed, pass the cast as they are. *)
Theorem transformData_again (strptime : string → option Z)
    (df : DataFrame) (titles transcripts dates : list (option string)) :
  text_columns df titles transcripts →
  find_column df "datetime" = Some (Utf8 dates) →
  Forall (λ c, ∀ s, c = Some s → is_Some (strptime s)) dates →
  cells_clean (map (option_map clean_text) titles) →
  cells_clean (map (option_map clean_text) transcripts) →
  ∃ df', transformData strptime df = Ok df' ∧ transformData strptime df' = Ok df'.
Proof.
  intros Htext Hdates Hparse Hc1 Hc2.
  destruct (transformData_spec strptime df titles transcripts dates)
    as (df' & Hrun & Htext' & Hd & _); try done.
  exists df'. split; [done |].
  assert (handleSpecialStrings df' = Ok df') as Hclean.
  { unfold handleSpecialStrings. cbn [special_strings length seq foldl].
    rewrite (handleSpecialStrings_step_clean df' 0 "&#39;" "'" _ _ Htext') by done.
    rewrite (handleSpecialStrings_step_clean df' 1 "&amp;" "&" _ _ Htext') by done.
    by rewrite (handleSpecialStrings_step_clean df' 2 "sha " "Shaw " _ _ Htext'). }
  unfold transformData, setDatatypes, df_column.
  rewrite Hclean, bind_Ok, Hd, bind_Ok. cbn [cast_Datetime]. rewrite bind_Ok.
  apply with_columns_same; [done |].
  destruct Htext' as (Hok & _). by apply (find_column_len df' "datetime").
Qed.

Lemma transformData_again_witness :
  ∃ df', transformData demo_strptime demo_transcripts = Ok df' ∧
         transformData demo_strptime df' = Ok df'.
Proof.
  apply (transformData_again demo_strptime demo_transcripts _ _
           [Some "2024-01-01T00:00:00Z"; Some "2024-02-01T00:00:00Z";
            Some "2024-03-01T00:00:00Z"]
           demo_transcripts_text_columns eq_refl).
  - repeat constructor; intros s [= <-]; eexists; reflexivity.
  - repeat constructor; intros s [= <-]; reflexivity.
  - repeat constructor; intros s [= <-]; reflexivity.
Defined.

Lemma handleSpecialStrings_step_Raise (e : exn) (i : nat) :
  handleSpecialStrings_step (Raise e) i = Raise e.
Proof. reflexivity. Qed.

(** X14. The stages depend on their order: applied to a table that has
    its titles but no [transcript] column yet (the identity table, stage
    2 skipped), stage 3 raises a column-not-found error for
    ["transcript"] and returns nothing. *)
Theorem transformData_needs_transcripts (strptime : string → option Z)
    (df : DataFrame) (titles : list (option string)) :
  DataFrame_ok df →
  find_column df "title" = Some (Utf8 titles) →
  find_column df "transcript" = None →
  transformData strptime df = Raise (ColumnNotFoundError "transcript").
Proof.
  intros Hok Htitle Hnone.
  destruct (replace_in_column_spec df "title" 0 "&#39;" "'" titles)
    as (df1 & Hrun & _ & Ho1 & _); try done.
  unfold transformData, handleSpecialStrings.
  cbn [special_strings length seq foldl]. unfold handleSpecialStrings_step at 3.
  rewrite bind_Ok, Hrun, bind_Ok. unfold replace_in_column at 1, df_column.
  by rewrite Ho1, Hnone.
Qed.

Lemma transformData_needs_transcripts_witness :
  transformData demo_strptime demo_ids = Raise (ColumnNotFoundError "transcript").
Proof.
  apply (transformData_needs_transcripts demo_strptime demo_ids
           [Some "Shaw&#39;s channel"; Some "sha blog"; Some "AI &amp; data"]
           demo_ids_ok eq_refl eq_refl).
Defined.

(** ** The Embedding Generator beyond the claims *)

Lemma find_column_lookup (df : DataFrame) (j : nat) (name : string) (s : series) :
  NoDup (columns df) → df !! j = Some (name, s) → find_column df name = Some s.
Proof.
  revert j. induction df as [|[n s'] df IH]; intros j Hnd Hj; [done |].
  apply NoDup_cons in Hnd as [Hn Hnd]. destruct j as [|j]; cbn in Hj |- *.
  - injection Hj as -> ->. by rewrite String.eqb_refl.
  - destruct (String.eqb_spec n name) as [->|Hne]; [| by eapply IH].
    destruct Hn. apply list_elem_of_fmap. exists (name, s).
    split; [done |]. by eapply list_elem_of_lookup_2.
Qed.

Lemma embedding_frame_lookup (column_name : string) (arr : ndarray) (j : nat) :
  j < shape1 arr →
  find_column (embedding_frame column_name arr)
              (column_name +:+ "_embedding-" +:+ str j)
  = Some (Float64 (map (λ i, Some (item arr i j)) (seq 0 (shape0 arr)))).
Proof.
  intros Hj. apply (find_column_lookup _ j).
  - rewrite columns_embedding_frame. apply NoDup_embedding_columns.
  - unfold embedding_frame, embedding_columns, DataFrame.
    rewrite list_lookup_imap, list_lookup_fmap, lookup_seq_lt by done.
    reflexivity.
Qed.

Lemma createTextEmbeddings_frames
    (encode : list pyobj → result ndarray) (df : DataFrame)
    (titles transcripts : list (option string)) (arr1 arr2 : ndarray) (d : nat) :
  text_columns df titles transcripts →
  encode (to_list (Utf8 titles)) = Ok arr1 →
  encode (to_list (Utf8 transcripts)) = Ok arr2 →
  shape0 arr1 = height df → shape0 arr2 = height df →
  shape1 arr1 = d → shape1 arr2 = d →
  (∀ n, n ∈ columns df →
     (n ∉ embedding_columns "title" d) ∧ (n ∉ embedding_columns "transcript" d)) →
  createTextEmbeddings encode df
  = Ok ((df ++ embedding_frame "title" arr1) ++ embedding_frame "transcript" arr2).
Proof.
  intros (Hok & Htitle & Htrans) Henc1 Henc2 Hrows1 Hrows2 Hd1 Hd2 Hfresh.
  pose proof (find_column_Some_nonempty _ _ _ Htitle) as Hne.
  unfold createTextEmbeddings, column_name_list. cbn [foldl].
  rewrite (embed_column_spec encode df "title" (Utf8 titles) arr1); try done.
  2: { rewrite Hd1. intros n Hn Hn'. by destruct (Hfresh n Hn'). }
  apply (embed_column_spec encode _ "transcript" (Utf8 transcripts) arr2).
  - by apply find_column_app_l.
  - done.
  - rewrite height_app by done. congruence.
  - rewrite Hd2. intros n Hn. unfold columns. rewrite map_app.
    fold (columns df). fold (columns (embedding_frame "title" arr1)).
    rewrite columns_embedding_frame, Hd1.
    intros [Hn'|Hn']%elem_of_app.
    + by destruct (Hfresh n Hn').
    + unfold embedding_columns in Hn, Hn'.
      apply list_elem_of_fmap in Hn as (i & -> & _).
      apply list_elem_of_fmap in Hn' as (j & He & _).
      symmetry in He. by apply title_not_transcript in He.
Qed.

(** X15. Vectors stay with their rows: in the index table, the cell of
    row [i] in column [title_embedding-j] is component [j] of the vector
    the model returned for the title of row [i], and likewise for the
    transcripts; the two fields are encoded apart, each from its own
    column. *)
Theorem embeddings_aligned_with_rows
    (encode : list pyobj → result ndarray) (df : DataFrame)
    (titles transcripts : list (option string)) (arr1 arr2 : ndarray) (d : nat) :
  text_columns df titles transcripts →
  encode (to_list (Utf8 titles)) = Ok arr1 →
  encode (to_list (Utf8 transcripts)) = Ok arr2 →
  shape0 arr1 = height df → shape0 arr2 = height df →
  shape1 arr1 = d → shape1 arr2 = d →
  (∀ n, n ∈ columns df →
     (n ∉ embedding_columns "title" d) ∧ (n ∉ embedding_columns "transcript" d)) →
  ∃ df', createTextEmbeddings encode df = Ok df' ∧
    ∀ i j, i < height df → j < d →
      (col ← df_column df' ("title_embedding-" +:+ str j); series_getitem col i)
      = Ok (PFloat (item arr1 i j)) ∧
      (col ← df_column df' ("transcript_embedding-" +:+ str j); series_getitem col i)
      = Ok (PFloat (item arr2 i j)).
Proof.
  intros Htext Henc1 Henc2 Hrows1 Hrows2 Hd1 Hd2 Hfresh.
  eexists. split; [by eapply createTextEmbeddings_frames |].
  intros i j Hi Hj. unfold df_column.
  assert (∀ f, f = "title" ∨ f = "transcript" →
            find_column df (f +:+ "_embedding-" +:+ str j) = None) as Hnot.
  { intros f Hf. apply find_column_None. intros Hin.
    destruct (Hfresh _ Hin) as [H1 H2]. unfold embedding_columns in H1, H2.
    destruct Hf as [-> | ->]; [apply H1 | apply H2];
      apply list_elem_of_fmap; exists j; (split; [done |]);
      apply elem_of_seq; lia. }
  split.
  - change ("title_embedding-" +:+ str j) with ("title" +:+ "_embedding-" +:+ str j).
    rewrite <- app_assoc, find_column_app, (Hnot "title") by by left.
    rewrite (find_column_app_l _ _ _ _ (embedding_frame_lookup "title" arr1 j
               ltac:(by rewrite Hd1))).
    rewrite bind_Ok. cbn [series_getitem].
    by rewrite list_lookup_fmap, lookup_seq_lt by by rewrite Hrows1.
  - change ("transcript_embedding-" +:+ str j)
      with ("transcript" +:+ "_embedding-" +:+ str j).
    rewrite <- app_assoc, find_column_app, (Hnot "transcript") by by right.
    rewrite find_column_app.
    assert (find_column (embedding_frame "title" arr1)
              ("transcript" +:+ "_embedding-" +:+ str j) = None) as ->.
    { apply find_column_None. rewrite columns_embedding_frame.
      unfold embedding_columns. intros (k & He & _)%list_elem_of_fmap.
      symmetry in He. by apply title_not_transcript in He. }
    rewrite (embedding_frame_lookup "transcript" arr2 j) by by rewrite Hd2.
    rewrite bind_Ok. cbn [series_getitem].
    by rewrite list_lookup_fmap, lookup_seq_lt by by rewrite Hrows2.
Qed.

Lemma embeddings_aligned_with_rows_witness :
  ∃ df', createTextEmbeddings grid_encode demo_transcripts = Ok df' ∧
    ∀ i j, i < 3 → j < 2 →
      (col ← df_column df' ("title_embedding-" +:+ str j); series_getitem col i)
      = Ok (PFloat (PrimFloat.of_uint63 (Uint63.of_Z (Z.of_nat (10 * i + j))))) ∧
      (col ← df_column df' ("transcript_embedding-" +:+ str j); series_getitem col i)
      = Ok (PFloat (PrimFloat.of_uint63 (Uint63.of_Z (Z.of_nat (10 * i + j))))).
Proof.
  apply (embeddings_aligned_with_rows grid_encode demo_transcripts _ _
           {| shape0 := 3; shape1 := 2;
              item := λ i j, PrimFloat.of_uint63 (Uint63.of_Z (Z.of_nat (10 * i + j))) |}
           {| shape0 := 3; shape1 := 2;
              item := λ i j, PrimFloat.of_uint63 (Uint63.of_Z (Z.of_nat (10 * i + j))) |}
           2 demo_transcripts_text_columns eq_refl eq_refl eq_refl eq_refl
           eq_refl eq_refl (pipeline_columns_fresh 2)).
Defined.

Lemma embed_column_Raise (encode : list pyobj → result ndarray) (e : exn)
    (column_name : string) :
  embed_column encode (Raise e) column_name = Raise e.
Proof. reflexivity. Qed.

Lemma concat_horizontal_clash (a b : DataFrame) (n : string) (rest : list string) :
  columns b = n :: rest → n ∈ columns a →
  concat_horizontal a b = Raise (DuplicateError n).
Proof.
  intros Hb Hn. unfold concat_horizontal. rewrite Hb. cbn [List.find].
  apply existsb_eqb_elem_of in Hn. by rewrite Hn.
Qed.

(** X16. Stage 4 never overwrites an embedding: applied to a table that
    already has the columns it is about to add (its own output, for a
    model of width at least one), it raises a duplicate-column error and
    returns no table. *)
Theorem createTextEmbeddings_not_twice
    (encode : list pyobj → result ndarray) (df : DataFrame)
    (titles transcripts : list (option string)) (arr1 arr2 : ndarray) (d : nat) :
  text_columns df titles transcripts →
  encode (to_list (Utf8 titles)) = Ok arr1 →
  encode (to_list (Utf8 transcripts)) = Ok arr2 →
  shape0 arr1 = height df → shape0 arr2 = height df →
  shape1 arr1 = d → shape1 arr2 = d →
  (∀ n, n ∈ columns df →
     (n ∉ embedding_columns "title" d) ∧ (n ∉ embedding_columns "transcript" d)) →
  0 < d →
  ∃ df', createTextEmbeddings encode df = Ok df' ∧
    createTextEmbeddings encode df' = Raise (DuplicateError "title_embedding-0").
Proof.
  intros Htext Henc1 Henc2 Hrows1 Hrows2 Hd1 Hd2 Hfresh Hd.
  pose proof (createTextEmbeddings_frames encode df titles transcripts arr1 arr2 d
                Htext Henc1 Henc2 Hrows1 Hrows2 Hd1 Hd2 Hfresh) as Hrun.
  destruct Htext as (Hok & Htitle & Htrans).
  pose proof (find_column_app_l _ (embedding_frame "transcript" arr2) _ _
                (find_column_app_l _ (embedding_frame "title" arr1) _ _ Htitle))
    as Htitle'.
  assert ("title_embedding-0"
          ∈ columns ((df ++ embedding_frame "title" arr1)
                     ++ embedding_frame "transcript" arr2)) as Hin.
  { unfold columns. rewrite !map_app. apply elem_of_app. left. apply elem_of_app. right.
    fold (columns (embedding_frame "title" arr1)).
    rewrite columns_embedding_frame, Hd1. destruct d; [lia | left]. }
  match type of Hrun with _ = Ok ?x => remember x as df' eqn:Hdf' end.
  clear Hdf'. exists df'. split; [done |].
  unfold createTextEmbeddings, column_name_list. cbn [foldl].
  change (embed_column encode (embed_column encode (Ok df') "title") "transcript"
          = Raise (DuplicateError "title_embedding-0")).
  assert (embed_column encode (Ok df') "title"
          = Raise (DuplicateError "title_embedding-0")) as ->; [| done].
  unfold embed_column, df_column.
  rewrite bind_Ok, Htitle'.
  rewrite bind_Ok, Henc1, bind_Ok, DataFrame_of_ndarray_embedding, bind_Ok.
  destruct d as [|d]; [lia |].
  apply (concat_horizontal_clash _ _ _
           (map (λ i, "title" +:+ "_embedding-" +:+ str i) (seq 1 d))).
  - rewrite columns_embedding_frame, Hd1. reflexivity.
  - done.
Qed.

Lemma createTextEmbeddings_not_twice_witness :
  ∃ df', createTextEmbeddings demo_encode demo_transcripts = Ok df' ∧
    createTextEmbeddings demo_encode df' = Raise (DuplicateError "title_embedding-0").
Proof.
  apply (createTextEmbeddings_not_twice demo_encode demo_transcripts _ _
           {| shape0 := 3; shape1 := 2; item := λ i j, 0.5%float |}
           {| shape0 := 3; shape1 := 2; item := λ i j, 0.5%float |} 2
           demo_transcripts_text_columns eq_refl eq_refl eq_refl eq_refl
           eq_refl eq_refl (pipeline_columns_fresh 2)).
  lia.
Defined.

(** ** The driver *)

Lemma read_parquet_Ok_inv (fs : gmap string DataFrame) (path : string)
    (df : DataFrame) :
  read_parquet fs path = Ok df → fs !! path = Some df ∧ df ≠ [].
Proof.
  unfold read_parquet. destruct (fs !! path) as [[|c d]|]; [done | | done].
  by intros [= <-].
Qed.

Lemma read_parquet_insert_eq (fs : gmap string DataFrame) (path : string)
    (df : DataFrame) :
  df ≠ [] → read_parquet (<[path := df]> fs) path = Ok df.
Proof. intros Hne. unfold read_parquet. rewrite lookup_insert_eq. by destruct df. Qed.

Lemma read_parquet_insert_empty (fs : gmap string DataFrame) (path : string) :
  read_parquet (<[path := []]> fs) path = Raise ComputeError.
Proof. unfold read_parquet. by rewrite lookup_insert_eq. Qed.

Lemma read_parquet_agree (fa fb : gmap string DataFrame) (path : string) :
  fa !! path = fb !! path → read_parquet fa path = read_parquet fb path.
Proof. intros H. unfold read_parquet, DataFrame in *. by rewrite H. Qed.

Lemma then_stage_Ok_inv (st : gmap string DataFrame * result unit)
    (stage : gmap string DataFrame → result (gmap string DataFrame))
    (fs' : gmap string DataFrame) (u : unit) :
  then_stage st stage = (fs', Ok u) →
  ∃ fs u', st = (fs, Ok u') ∧ stage fs = Ok fs'.
Proof.
  destruct st as [fs [u'|e]]; cbn; [| discriminate].
  destruct (stage fs) as [fs1|e] eqn:Hs; intros [= <-]. by exists fs, u'.
Qed.

Lemma then_stage_Ok (fs fs' : gmap string DataFrame) (u : unit)
    (stage : gmap string DataFrame → result (gmap string DataFrame)) :
  stage fs = Ok fs' → then_stage (fs, Ok u) stage = (fs', Ok tt).
Proof. intros H. cbn. by rewrite H. Qed.

Lemma then_stage_Raise (fs : gmap string DataFrame) (u : unit) (e : exn)
    (stage : gmap string DataFrame → result (gmap string DataFrame)) :
  stage fs = Raise e → then_stage (fs, Ok u) stage = (fs, Raise e).
Proof. intros H. cbn. by rewrite H. Qed.

Lemma getVideoTranscripts_nonempty (get_transcript : nat → pyobj → result pyobj)
    (df df' : DataFrame) :
  getVideoTranscripts get_transcript df = Ok df' → df' ≠ [].
Proof.
  destruct (getVideoTranscripts_spec get_transcript df) as (df1 & -> & Htr & _).
  intros [= <-]. by eapply find_column_Some_nonempty.
Qed.

Lemma same_videos_nonempty (df df' : DataFrame) (ids : series) :
  same_videos df df' → find_column df "video_id" = Some ids → df' ≠ [].
Proof. intros [_ Hv] Hids. eapply find_column_Some_nonempty. by apply Hv. Qed.

Section DriverProperties.
Context {W : Type}.
Variable requests_get : W → pyobj → result response * W.
Variable pl_DataFrame : list video_record → result DataFrame.
Variable get_transcript : nat → pyobj → result pyobj.
Variable strptime : string → option Z.
Variable SentenceTransformer : string → result (list pyobj → result ndarray).
Variable write_error : string → option exn.

Lemma write_parquet_inv (fs fs' : gmap string DataFrame) (path : string)
    (df : DataFrame) :
  write_parquet write_error fs path df = Ok fs' →
  write_error path = None ∧ fs' = <[path := df]> fs.
Proof.
  unfold write_parquet. destruct (write_error path); [done |]. by intros [= <-].
Qed.

Lemma write_parquet_Ok (fs : gmap string DataFrame) (path : string) (df : DataFrame) :
  write_error path = None →
  write_parquet write_error fs path df = Ok (<[path := df]> fs).
Proof. intros H. unfold write_parquet. by rewrite H. Qed.

Lemma getVideoTranscripts_files_inv (fs fs' : gmap string DataFrame) :
  getVideoTranscripts_files get_transcript write_error fs = Ok fs' →
  ∃ df df', read_parquet fs video_ids_parquet = Ok df ∧
    getVideoTranscripts get_transcript df = Ok df' ∧
    fs' = <[video_transcripts_parquet := df']> fs.
Proof.
  unfold getVideoTranscripts_files. intros H.
  returned H as df Hread. returned H as df' Hrun.
  apply write_parquet_inv in H as [_ ->]. eauto.
Qed.

Lemma transformData_files_inv (fs fs' : gmap string DataFrame) :
  transformData_files strptime write_error fs = Ok fs' →
  ∃ df df', read_parquet fs video_transcripts_parquet = Ok df ∧
    transformData strptime df = Ok df' ∧
    fs' = <[video_transcripts_parquet := df']> fs.
Proof.
  unfold transformData_files. intros H.
  returned H as df Hread. returned H as df' Hrun.
  apply write_parquet_inv in H as [_ ->]. eauto.
Qed.

Lemma createTextEmbeddings_files_inv (fs fs' : gmap string DataFrame) :
  createTextEmbeddings_files SentenceTransformer write_error fs = Ok fs' →
  ∃ df encode df', read_parquet fs video_transcripts_parquet = Ok df ∧
    SentenceTransformer model_name = Ok encode ∧
    createTextEmbeddings encode df = Ok df' ∧
    fs' = <[video_index_parquet := df']> fs.
Proof.
  unfold createTextEmbeddings_files. intros H.
  returned H as df Hread. returned H as encode Hload. returned H as df' Hrun.
  apply write_parquet_inv in H as [_ ->]. eauto 10.
Qed.

Lemma data_pipeline_success_inv (fuel : nat) (w w' : W)
    (fs fs' : gmap string DataFrame) (u : unit) :
  data_pipeline requests_get pl_DataFrame get_transcript strptime
    SentenceTransformer write_error fuel w fs
  = Some (fs', Ok u, w') →
  ∃ rows df0 df1 df2 encode df3,
    getVideoIDs requests_get fuel w = Some (Ok rows, w') ∧
    pl_DataFrame rows = Ok df0 ∧
    getVideoTranscripts get_transcript df0 = Ok df1 ∧
    transformData strptime df1 = Ok df2 ∧
    SentenceTransformer model_name = Ok encode ∧
    createTextEmbeddings encode df2 = Ok df3 ∧
    fs' = <[video_index_parquet := df3]>
            (<[video_transcripts_parquet := df2]>
               (<[video_transcripts_parquet := df1]>
                  (<[video_ids_parquet := df0]> fs))).
Proof.
  unfold data_pipeline, getVideoIDs_files. intros H.
  destruct (getVideoIDs requests_get fuel w) as [[[rows|e] w1]|]; [| | done].
  2: { cbn in H. discriminate H. }
  injection H as H <-.
  apply then_stage_Ok_inv in H as (fs3 & u3 & H & H4).
  apply then_stage_Ok_inv in H as (fs2 & u2 & H & H3).
  apply then_stage_Ok_inv in H as (fs1 & u1 & H & H2).
  destruct (pl_DataFrame rows) as [df0|e] eqn:Hdf0; [| discriminate].
  cbn [mbind result_bind] in H.
  destruct (write_parquet write_error fs video_ids_parquet df0) as [fs0|e] eqn:Hw;
    [| discriminate].
  apply write_parquet_inv in Hw as [_ ->]. injection H as <- _.
  apply getVideoTranscripts_files_inv in H2 as (d0 & df1 & Hr2 & Hrun2 & ->).
  apply read_parquet_Ok_inv in Hr2 as [Hr2 _].
  rewrite lookup_insert_eq in Hr2. injection Hr2 as <-.
  apply transformData_files_inv in H3 as (d1 & df2 & Hr3 & Hrun3 & ->).
  apply read_parquet_Ok_inv in Hr3 as [Hr3 _].
  rewrite lookup_insert_eq in Hr3. injection Hr3 as <-.
  apply createTextEmbeddings_files_inv in H4 as (d2 & encode & df3 & Hr4 & Hload & Hrun4 & ->).
  apply read_parquet_Ok_inv in Hr4 as [Hr4 _].
  rewrite lookup_insert_eq in Hr4. injection Hr4 as <-.
  by exists rows, df0, df1, df2, encode, df3.
Qed.

(** X17. When the script ends without an exception, each stage has read
    what the stage before it wrote in this run: the identity file holds
    the table built from the rows listed, the transcript file holds the
    transformed table (the raw transcripts written by stage 2 have been
    overwritten), the index file holds the embeddings of that
    transformed table by the model loaded under the fixed name. The
    transformed table has the height and the [video_id] column of the
    identity table, and so has the index when the identity table is a
    frame as polars builds one and the model returns one row per
    string. *)
Theorem data_pipeline_hands_tables_on (fuel : nat) (w w' : W)
    (fs fs' : gmap string DataFrame) (u : unit) :
  data_pipeline requests_get pl_DataFrame get_transcript strptime
    SentenceTransformer write_error fuel w fs
  = Some (fs', Ok u, w') →
  ∃ rows df0 df1 df2 encode df3,
    getVideoIDs requests_get fuel w = Some (Ok rows, w') ∧
    pl_DataFrame rows = Ok df0 ∧
    getVideoTranscripts get_transcript df0 = Ok df1 ∧
    transformData strptime df1 = Ok df2 ∧
    SentenceTransformer model_name = Ok encode ∧
    createTextEmbeddings encode df2 = Ok df3 ∧
    fs' !! video_ids_parquet = Some df0 ∧
    fs' !! video_transcripts_parquet = Some df2 ∧
    fs' !! video_index_parquet = Some df3 ∧
    same_videos df0 df2 ∧
    (DataFrame_ok df0 → one_row_per_string encode → same_videos df0 df3).
Proof.
  intros (rows & df0 & df1 & df2 & encode & df3 & H1 & H0 & H2 & H3 & Hl & H4 & ->)
    %data_pipeline_success_inv.
  exists rows, df0, df1, df2, encode, df3. do 6 (split; [done |]).
  split; [by rewrite 3 lookup_insert_ne, lookup_insert_eq by done |].
  split; [by rewrite lookup_insert_ne, lookup_insert_eq by done |].
  split; [by rewrite lookup_insert_eq |].
  assert (same_videos df0 df2) as Hs2.
  { apply (same_videos_trans df0 df1); [by eapply getVideoTranscripts_same_videos |].
    by eapply transformData_same_videos. }
  split; [done |]. intros Hok Hrows.
  apply (same_videos_trans df0 df2); [done |].
  apply (createTextEmbeddings_same_videos encode); [done | | done].
  eapply transformData_ok; [| done].
  destruct (getVideoTranscripts_spec get_transcript df0)
    as (df1' & H2' & _ & _ & _ & Hok1 & _).
  assert (df1' = df1) as -> by congruence. by apply Hok1.
Qed.

Lemma getVideoTranscripts_files_reads_writes :
  reads_writes (getVideoTranscripts_files get_transcript write_error)
    video_ids_parquet video_transcripts_parquet.
Proof.
  intros fa fb Hagree. unfold getVideoTranscripts_files, write_parquet.
  rewrite (read_parquet_agree fa fb _ Hagree).
  destruct (read_parquet fb video_ids_parquet) as [df|e];
    cbn [mbind result_bind]; [| done].
  destruct (getVideoTranscripts get_transcript df) as [df'|e];
    cbn [mbind result_bind]; [| done].
  destruct (write_error video_transcripts_parquet); [done |]. by exists df'.
Qed.

Lemma transformData_files_reads_writes :
  reads_writes (transformData_files strptime write_error)
    video_transcripts_parquet video_transcripts_parquet.
Proof.
  intros fa fb Hagree. unfold transformData_files, write_parquet.
  rewrite (read_parquet_agree fa fb _ Hagree).
  destruct (read_parquet fb video_transcripts_parquet) as [df|e];
    cbn [mbind result_bind]; [| done].
  destruct (transformData strptime df) as [df'|e];
    cbn [mbind result_bind]; [| done].
  destruct (write_error video_transcripts_parquet); [done |]. by exists df'.
Qed.

Lemma createTextEmbeddings_files_reads_writes :
  reads_writes (createTextEmbeddings_files SentenceTransformer write_error)
    video_transcripts_parquet video_index_parquet.
Proof.
  intros fa fb Hagree. unfold createTextEmbeddings_files, write_parquet.
  rewrite (read_parquet_agree fa fb _ Hagree).
  destruct (read_parquet fb video_transcripts_parquet) as [df|e];
    cbn [mbind result_bind]; [| done].
  destruct (SentenceTransformer model_name) as [encode|e];
    cbn [mbind result_bind]; [| done].
  destruct (createTextEmbeddings encode df) as [df'|e];
    cbn [mbind result_bind]; [| done].
  destruct (write_error video_index_parquet); [done |]. by exists df'.
Qed.

Lemma then_stage_same_so_far (ks : list string)
    (sa sb : gmap string DataFrame * result unit)
    (stage : gmap string DataFrame → result (gmap string DataFrame))
    (kr kw : string) :
  same_so_far ks sa sb → kr ∈ ks → reads_writes stage kr kw →
  same_so_far (kw :: ks) (then_stage sa stage) (then_stage sb stage).
Proof.
  destruct sa as [fa oa], sb as [fb ob]. intros [Hout Hfiles] Hkr Hstage.
  cbn [fst snd] in Hout, Hfiles. subst ob. destruct oa as [u|e]; [| by split].
  specialize (Hstage fa fb (Hfiles u eq_refl kr Hkr)). cbn [then_stage].
  destruct (stage fa) as [fa'|ea], (stage fb) as [fb'|eb]; try done.
  - destruct Hstage as (d & -> & ->). split; [done |].
    intros _ _ p Hp. cbn [fst]. rewrite !lookup_insert.
    case_decide; [done |]. apply (Hfiles u eq_refl).
    by apply elem_of_cons in Hp as [-> | Hp].
  - subst eb. by split.
Qed.

Lemma pipeline_tail_same (sa sb : gmap string DataFrame * result unit) :
  same_so_far [video_ids_parquet] sa sb →
  same_so_far [video_index_parquet; video_transcripts_parquet;
               video_transcripts_parquet; video_ids_parquet]
    (then_stage
       (then_stage
          (then_stage sa (getVideoTranscripts_files get_transcript write_error))
          (transformData_files strptime write_error))
       (createTextEmbeddings_files SentenceTransformer write_error))
    (then_stage
       (then_stage
          (then_stage sb (getVideoTranscripts_files get_transcript write_error))
          (transformData_files strptime write_error))
       (createTextEmbeddings_files SentenceTransformer write_error)).
Proof.
  intros H1.
  pose proof (then_stage_same_so_far _ _ _ _ _ _ H1 ltac:(left)
                getVideoTranscripts_files_reads_writes) as H2.
  pose proof (then_stage_same_so_far _ _ _ _ _ _ H2 ltac:(left)
                transformData_files_reads_writes) as H3.
  exact (then_stage_same_so_far _ _ _ _ _ _ H3 ltac:(left)
           createTextEmbeddings_files_reads_writes).
Qed.

Lemma same_so_far_artifacts (sa sb : gmap string DataFrame * result unit) (wa : W) :
  same_so_far [video_index_parquet; video_transcripts_parquet;
               video_transcripts_parquet; video_ids_parquet] sa sb →
  match Some (sa, wa), Some (sb, wa) with
  | Some (fa', oa, wa), Some (fb', ob, wb) =>
      oa = ob ∧ wa = wb ∧
      ∀ u, oa = Ok u →
        fa' !! video_ids_parquet = fb' !! video_ids_parquet ∧
        fa' !! video_transcripts_parquet = fb' !! video_transcripts_parquet ∧
        fa' !! video_index_parquet = fb' !! video_index_parquet
  | None, None => True
  | _, _ => False
  end.
Proof.
  destruct sa as [fa' oa], sb as [fb' ob]. intros [Hout Hfiles].
  cbn [fst snd] in Hout, Hfiles. split; [done |]. split; [done |].
  intros u Hu. repeat split; apply (Hfiles u Hu); set_solver.
Qed.

(** X19. What the three artifact files held before a run does not
    matter to it: two runs that start from different contents of these
    files and meet the same world (the same answers of the API, of the
    transcript service and of the model store, the same paths that can
    be written) end the same way, and when they end without an exception
    the three files hold the same tables after both. Every stage reads
    the file a stage of the same run has just written; no artifact is
    merged with an older one. *)
Theorem data_pipeline_ignores_old_files (fuel : nat) (w : W)
    (fa fb : gmap string DataFrame) :
  match data_pipeline requests_get pl_DataFrame get_transcript strptime
          SentenceTransformer write_error fuel w fa,
        data_pipeline requests_get pl_DataFrame get_transcript strptime
          SentenceTransformer write_error fuel w fb with
  | Some (fa', oa, wa), Some (fb', ob, wb) =>
      oa = ob ∧ wa = wb ∧
      ∀ u, oa = Ok u →
        fa' !! video_ids_parquet = fb' !! video_ids_parquet ∧
        fa' !! video_transcripts_parquet = fb' !! video_transcripts_parquet ∧
        fa' !! video_index_parquet = fb' !! video_index_parquet
  | None, None => True
  | _, _ => False
  end.
Proof.
  unfold data_pipeline, getVideoIDs_files.
  destruct (getVideoIDs requests_get fuel w) as [[[rows|e] w1]|]; [| | done].
  - apply same_so_far_artifacts, pipeline_tail_same.
    destruct (pl_DataFrame rows) as [df0|e]; cbn [mbind result_bind]; [| by split].
    unfold write_parquet. destruct (write_error video_ids_parquet); [by split |].
    split; [done |]. intros _ _ p ->%list_elem_of_singleton. cbn.
    by rewrite !lookup_insert_eq.
  - apply same_so_far_artifacts, pipeline_tail_same. by split.
Qed.

Lemma data_pipeline_after_fetch (fuel : nat) (w w' : W)
    (fs : gmap string DataFrame) (rows : list video_record)
    (df0 df1 : DataFrame) :
  getVideoIDs requests_get fuel w = Some (Ok rows, w') →
  pl_DataFrame rows = Ok df0 → df0 ≠ [] →
  write_error video_ids_parquet = None →
  write_error video_transcripts_parquet = None →
  getVideoTranscripts get_transcript df0 = Ok df1 →
  data_pipeline requests_get pl_DataFrame get_transcript strptime
    SentenceTransformer write_error fuel w fs
  = Some (then_stage
            (then_stage
               (<[video_transcripts_parquet := df1]> (<[video_ids_parquet := df0]> fs),
                Ok tt)
               (transformData_files strptime write_error))
            (createTextEmbeddings_files SentenceTransformer write_error), w').
Proof.
  intros H1 H0 Hne Hw0 Hw1 H2. unfold data_pipeline, getVideoIDs_files.
  rewrite H1, H0. cbn [mbind result_bind]. rewrite write_parquet_Ok by done.
  rewrite (then_stage_Ok _ (<[video_transcripts_parquet := df1]>
                              (<[video_ids_parquet := df0]> fs))); [done |].
  unfold getVideoTranscripts_files.
  rewrite read_parquet_insert_eq, bind_Ok, H2, bind_Ok by done.
  by apply write_parquet_Ok.
Qed.

(** X20. Progress made before a failure stays on disk: when the listing
    and the fetching go through, with an identity table that has its
    columns and both files written, and the transformation raises, the
    script ends with that exception, the identity file is the new one,
    and the transcript file holds the transcripts as fetched, not yet
    cleaned and with the timestamps still text; the index file is as it
    was. *)
Theorem failed_transform_leaves_raw_transcripts (fuel : nat) (w w' : W)
    (fs : gmap string DataFrame) (rows : list video_record)
    (df0 df1 : DataFrame) (e : exn) :
  getVideoIDs requests_get fuel w = Some (Ok rows, w') →
  pl_DataFrame rows = Ok df0 → df0 ≠ [] →
  write_error video_ids_parquet = None →
  write_error video_transcripts_parquet = None →
  getVideoTranscripts get_transcript df0 = Ok df1 →
  transformData strptime df1 = Raise e →
  ∃ fs',
    data_pipeline requests_get pl_DataFrame get_transcript strptime
      SentenceTransformer write_error fuel w fs
    = Some (fs', Raise e, w') ∧
    fs' !! video_ids_parquet = Some df0 ∧
    fs' !! video_transcripts_parquet = Some df1 ∧
    fs' !! video_index_parquet = fs !! video_index_parquet.
Proof.
  intros H1 H0 Hne Hw0 Hw1 H2 H3. eexists. split.
  - rewrite (data_pipeline_after_fetch _ _ _ _ rows df0 df1) by done.
    rewrite (then_stage_Raise _ _ e); [done |].
    unfold transformData_files.
    rewrite read_parquet_insert_eq, bind_Ok, H3; [done |].
    by eapply getVideoTranscripts_nonempty.
  - split; [by rewrite lookup_insert_ne, lookup_insert_eq by done |].
    split; [by rewrite lookup_insert_eq |].
    by rewrite 2 lookup_insert_ne by done.
Qed.

(** X21. A channel without a video stops the script in stage 2: when
    the listing returns no row, polars builds the table without columns
    from it and the identity file is written, the fetcher cannot read
    that file back; the script ends with the reader's error before the
    transcript service is called, and the transcript file and the index
    file are as they were. *)
Theorem empty_listing_stops_in_stage_2 (fuel : nat) (w w' : W)
    (fs : gmap string DataFrame) :
  getVideoIDs requests_get fuel w = Some (Ok [], w') →
  pl_DataFrame [] = Ok [] →
  write_error video_ids_parquet = None →
  ∃ fs',
    data_pipeline requests_get pl_DataFrame get_transcript strptime
      SentenceTransformer write_error fuel w fs
    = Some (fs', Raise ComputeError, w') ∧
    fs' !! video_ids_parquet = Some [] ∧
    fs' !! video_transcripts_parquet = fs !! video_transcripts_parquet ∧
    fs' !! video_index_parquet = fs !! video_index_parquet.
Proof.
  intros H1 H0 Hw0. eexists. split.
  - unfold data_pipeline, getVideoIDs_files.
    rewrite H1, H0. cbn [mbind result_bind]. rewrite write_parquet_Ok by done.
    rewrite (then_stage_Raise _ _ ComputeError); [done |].
    unfold getVideoTranscripts_files. by rewrite read_parquet_insert_empty.
  - split; [by rewrite lookup_insert_eq |].
    split; by rewrite lookup_insert_ne.
Qed.

Lemma data_pipeline_success (fuel : nat) (w w' : W) (fs : gmap string DataFrame)
    (rows : list video_record) (df0 df1 df2 df3 : DataFrame)
    (encode : list pyobj → result ndarray) :
  getVideoIDs requests_get fuel w = Some (Ok rows, w') →
  pl_DataFrame rows = Ok df0 → df0 ≠ [] →
  (∀ path, write_error path = None) →
  getVideoTranscripts get_transcript df0 = Ok df1 →
  transformData strptime df1 = Ok df2 → df2 ≠ [] →
  SentenceTransformer model_name = Ok encode →
  createTextEmbeddings encode df2 = Ok df3 →
  data_pipeline requests_get pl_DataFrame get_transcript strptime
    SentenceTransformer write_error fuel w fs
  = Some (<[video_index_parquet := df3]>
            (<[video_transcripts_parquet := df2]>
               (<[video_transcripts_parquet := df1]>
                  (<[video_ids_parquet := df0]> fs))),
          Ok tt, w').
Proof.
  intros H1 H0 Hne Hw H2 H3 Hne2 Hl H4.
  rewrite (data_pipeline_after_fetch _ _ _ _ rows df0 df1) by done.
  rewrite (then_stage_Ok _ (<[video_transcripts_parquet := df2]>
                              (<[video_transcripts_parquet := df1]>
                                 (<[video_ids_parquet := df0]> fs)))).
  2: { unfold transformData_files.
       rewrite read_parquet_insert_eq, bind_Ok, H3, bind_Ok.
       - by apply write_parquet_Ok.
       - by eapply getVideoTranscripts_nonempty. }
  rewrite (then_stage_Ok _ (<[video_index_parquet := df3]>
                              (<[video_transcripts_parquet := df2]>
                                 (<[video_transcripts_parquet := df1]>
                                    (<[video_ids_parquet := df0]> fs))))); [done |].
  unfold createTextEmbeddings_files.
  rewrite read_parquet_insert_eq, bind_Ok, Hl, bind_Ok, H4, bind_Ok by done.
  by apply write_parquet_Ok.
Qed.
End DriverProperties.

(** A run of the script on two mocked pages, stage by stage. *)
Lemma demo_run (fs : gmap string DataFrame) :
  ∃ rows df0 df1 df2 df3,
    getVideoIDs mock_get 5
      [demo_page [demo_video "v1" "sha &amp; co"; demo_other "youtube#channel"]
         (Some "CAUQAA");
       demo_page [demo_video "v2" "t2"; demo_video "v3" "t3"] None]
    = Some (Ok rows, []) ∧
    demo_DataFrame rows = Ok df0 ∧
    getVideoTranscripts demo_service df0 = Ok df1 ∧
    transformData demo_strptime df1 = Ok df2 ∧
    createTextEmbeddings demo_encode df2 = Ok df3 ∧
    data_pipeline mock_get demo_DataFrame demo_service demo_strptime
      demo_SentenceTransformer writable 5
      [demo_page [demo_video "v1" "sha &amp; co"; demo_other "youtube#channel"]
         (Some "CAUQAA");
       demo_page [demo_video "v2" "t2"; demo_video "v3" "t3"] None] fs
    = Some (<[video_index_parquet := df3]>
              (<[video_transcripts_parquet := df2]>
                 (<[video_transcripts_parquet := df1]>
                    (<[video_ids_parquet := df0]> fs))),
            Ok tt, []).
Proof.
  do 5 eexists.
  split; [vm_compute; reflexivity |]. split; [vm_compute; reflexivity |].
  split; [vm_compute; reflexivity |]. split; [vm_compute; reflexivity |].
  split; [vm_compute; reflexivity |].
  eapply (data_pipeline_success _ _ _ _ _ _ _ _ _ _ _ _ _ _ _ demo_encode);
    try (vm_compute; reflexivity); done.
Qed.

Lemma data_pipeline_hands_tables_on_witness :
  ∃ fs' rows df0 df1 df2 encode df3,
    data_pipeline mock_get demo_DataFrame demo_service demo_strptime
      demo_SentenceTransformer writable 5
      [demo_page [demo_video "v1" "sha &amp; co"; demo_other "youtube#channel"]
         (Some "CAUQAA");
       demo_page [demo_video "v2" "t2"; demo_video "v3" "t3"] None] old_files
    = Some (fs', Ok tt, []) ∧
    getVideoIDs mock_get 5
      [demo_page [demo_video "v1" "sha &amp; co"; demo_other "youtube#channel"]
         (Some "CAUQAA");
       demo_page [demo_video "v2" "t2"; demo_video "v3" "t3"] None]
    = Some (Ok rows, []) ∧
    demo_DataFrame rows = Ok df0 ∧
    getVideoTranscripts demo_service df0 = Ok df1 ∧
    transformData demo_strptime df1 = Ok df2 ∧
    demo_SentenceTransformer model_name = Ok encode ∧
    createTextEmbeddings encode df2 = Ok df3 ∧
    fs' !! video_ids_parquet = Some df0 ∧
    fs' !! video_transcripts_parquet = Some df2 ∧
    fs' !! video_index_parquet = Some df3 ∧
    same_videos df0 df2 ∧
    (DataFrame_ok df0 → one_row_per_string encode → same_videos df0 df3).
Proof.
  destruct (demo_run old_files) as (r & d0 & d1 & d2 & d3 & _ & _ & _ & _ & _ & Hrun).
  destruct (data_pipeline_hands_tables_on _ _ _ _ _ _ _ _ _ _ _ _ Hrun)
    as (rows & df0 & df1 & df2 & encode & df3 & H).
  eexists _, rows, df0, df1, df2, encode, df3. split; [exact Hrun | exact H].
Defined.

Lemma failed_transform_leaves_raw_transcripts_witness :
  ∃ rows df0 df1 e,
    (getVideoIDs mock_get 5 [demo_page [demo_video "v1" "sha &amp; co"] None]
     = Some (Ok rows, []) ∧
     demo_DataFrame rows = Ok df0 ∧ df0 ≠ [] ∧
     writable video_ids_parquet = None ∧
     writable video_transcripts_parquet = None ∧
     getVideoTranscripts demo_service df0 = Ok df1 ∧
     transformData (λ _, None) df1 = Raise e) ∧
    ∃ fs',
      data_pipeline mock_get demo_DataFrame demo_service (λ _, None)
        demo_SentenceTransformer writable 5
        [demo_page [demo_video "v1" "sha &amp; co"] None] old_files
      = Some (fs', Raise e, []) ∧
      fs' !! video_ids_parquet = Some df0 ∧
      fs' !! video_transcripts_parquet = Some df1 ∧
      fs' !! video_index_parquet = old_files !! video_index_parquet.
Proof.
  assert (∃ rows df0 df1 e,
            getVideoIDs mock_get 5 [demo_page [demo_video "v1" "sha &amp; co"] None]
            = Some (Ok rows, []) ∧
            demo_DataFrame rows = Ok df0 ∧ df0 ≠ [] ∧
            writable video_ids_parquet = None ∧
            writable video_transcripts_parquet = None ∧
            getVideoTranscripts demo_service df0 = Ok df1 ∧
            transformData (λ _, None) df1 = Raise e)
    as (rows & df0 & df1 & e & H1 & H0 & Hne & Hw0 & Hw1 & H2 & H3).
  { do 4 eexists. split; [vm_compute; reflexivity |].
    split; [vm_compute; reflexivity |]. split; [discriminate |].
    repeat split; vm_compute; reflexivity. }
  exists rows, df0, df1, e. split; [done |].
  exact (failed_transform_leaves_raw_transcripts mock_get demo_DataFrame
           demo_service (λ _, None) demo_SentenceTransformer writable 5 _ _
           old_files rows df0 df1 e H1 H0 Hne Hw0 Hw1 H2 H3).
Defined.

Lemma empty_listing_stops_in_stage_2_witness :
  ∃ fs',
    data_pipeline mock_get demo_DataFrame demo_service demo_strptime
      demo_SentenceTransformer writable 5
      [demo_page [demo_other "youtube#channel"; demo_other "youtube#playlist"] None]
      old_files
    = Some (fs', Raise ComputeError, []) ∧
    fs' !! video_ids_parquet = Some [] ∧
    fs' !! video_transcripts_parquet = old_files !! video_transcripts_parquet ∧
    fs' !! video_index_parquet = old_files !! video_index_parquet.
Proof.
  apply (empty_listing_stops_in_stage_2 mock_get demo_DataFrame demo_service
           demo_strptime demo_SentenceTransformer writable 5); reflexivity.
Defined.
